(** * Debattle judge: the verdict normalisation pipeline of [api/judge.py]

    A shallow embedding of the deterministic part of the debate judge
    (sanitising, analysis defaults, totals and tie-break, move rebalancing,
    final statement, low-content gate) together with the properties the
    specification states about it.

    Python values are modelled as they appear at run time: a [str] is a list
    of Unicode code points, the object returned by [json.loads] is a tree of
    dicts (insertion-ordered association lists), lists and scalars, and a
    raised exception is the left injection of a sum. *)

From Stdlib Require Import String Ascii DecimalString.
From Stdlib Require Import ZArith QArith Bool Lia List.
Import ListNotations.

(** ** Text: Python [str] *)

Module Text.

(** A character is a Unicode code point, a [str] the list of its characters,
    so that [len] is [length]. *)
Definition char := N.
Definition text := list char.

(** A literal of the source whose characters are all ASCII. *)
Definition str (s : string) : text := map N_of_ascii (list_ascii_of_string s).

Definition char_eqb (a b : char) : bool := N.eqb a b.

Fixpoint text_eqb (a b : text) : bool :=
  match a, b with
  | [], [] => true
  | x :: a', y :: b' => char_eqb x y && text_eqb a' b'
  | _, _ => false
  end.

(** [str.isspace] for one character (general category Zs, or bidirectional
    class WS, B or S). *)
Definition isspace (c : char) : bool :=
  existsb (N.eqb c)
    [9; 10; 11; 12; 13; 28; 29; 30; 31; 32; 133; 160; 5760;
     8192; 8193; 8194; 8195; 8196; 8197; 8198; 8199; 8200; 8201; 8202;
     8232; 8233; 8239; 8287; 12288]%N.

(** The line boundaries of [str.splitlines]. *)
Definition islinebreak (c : char) : bool :=
  existsb (N.eqb c) [10; 11; 12; 13; 28; 29; 30; 133; 8232; 8233]%N.

Fixpoint lstrip (t : text) : text :=
  match t with
  | c :: t' => if isspace c then lstrip t' else t
  | [] => []
  end.

Definition rstrip (t : text) : text := rev (lstrip (rev t)).

(** [t.strip()] *)
Definition strip (t : text) : text := rstrip (lstrip t).

(** [t.replace(old, new)] for one-character [old] and [new]. *)
Definition replace (old new : char) (t : text) : text :=
  map (fun c => if char_eqb c old then new else c) t.

(** [t.split(sep)] for a one-character separator: one more piece than there
    are separators, empty pieces kept. *)
Fixpoint split (sep : char) (t : text) : list text :=
  match t with
  | [] => [[]]
  | c :: t' =>
      if char_eqb c sep then [] :: split sep t'
      else match split sep t' with
           | p :: ps => (c :: p) :: ps
           | [] => [[c]]
           end
  end.

(** [t.splitlines()]: the line terminators are dropped, a carriage return
    followed by a line feed is one terminator, and no empty line follows a
    final terminator.  [cur] is the line read so far, reversed; [after_cr]
    says that the previous character was a carriage return. *)
Fixpoint splitlines_from (cur : text) (after_cr : bool) (t : text) : list text :=
  match t with
  | [] => match cur with [] => [] | _ => [rev cur] end
  | c :: t' =>
      if (after_cr && N.eqb c 10)%bool then splitlines_from cur false t'
      else if islinebreak c then rev cur :: splitlines_from [] (N.eqb c 13) t'
      else splitlines_from (c :: cur) false t'
  end.

Definition splitlines (t : text) : list text := splitlines_from [] false t.

(** [sep.join(parts)] *)
Fixpoint join (sep : text) (parts : list text) : text :=
  match parts with
  | [] => []
  | [p] => p
  | p :: ps => p ++ sep ++ join sep ps
  end.

(** [str(n)] for an integer. *)
Definition of_Z (z : Z) : text := str (NilZero.string_of_int (Z.to_int z)).

End Text.
Export Text.

(** ** Python values, exceptions and numbers *)

Module Py.

Inductive exn : Type :=
| AttributeError | KeyError | IndexError | TypeError | ValueError
| OverflowError | ValidationError | RuntimeError.

(** A computation that may raise. *)
Definition M (A : Type) : Type := (exn + A)%type.

Definition ret {A} (a : A) : M A := inr a.
Definition raise {A} (e : exn) : M A := inl e.
Definition bind {A B} (m : M A) (k : A -> M B) : M B :=
  match m with
  | inl e => inl e
  | inr a => k a
  end.

(** A [float].  A finite binary64 value is represented by the rational number
    it denotes; the code below only compares floats and truncates them, which
    is exact. *)
Inductive pyfloat : Type :=
| FNan
| FInf (negative : bool)
| FFin (q : Q).

(** The value of [json.loads]. *)
#[warnings="-register-all"]
Inductive json : Type :=
| JNull
| JBool (b : bool)
| JInt (z : Z)
| JFloat (f : pyfloat)
| JStr (s : text)
| JList (l : list json)
| JDict (d : list (text * json)).

Definition dict := list (text * json).

(** [d.get(k)] on the entries of a dict. *)
Fixpoint lookup (d : dict) (k : text) : option json :=
  match d with
  | [] => None
  | (k', v) :: d' => if text_eqb k' k then Some v else lookup d' k
  end.

(** [d[k] = v]: an existing key keeps its position, a new one goes last. *)
Fixpoint store (d : dict) (k : text) (v : json) : dict :=
  match d with
  | [] => [(k, v)]
  | (k', v') :: d' =>
      if text_eqb k' k then (k', v) :: d' else (k', v') :: store d' k v
  end.

Definition get_default (d : dict) (k : text) (dflt : json) : json :=
  match lookup d k with
  | Some v => v
  | None => dflt
  end.

(** [v.get(k, dflt)]: only a dict has the method. *)
Definition py_get (v : json) (k : text) (dflt : json) : M json :=
  match v with
  | JDict d => ret (get_default d k dflt)
  | _ => raise AttributeError
  end.

(** [v[k]] for a string key. *)
Definition py_item (v : json) (k : text) : M json :=
  match v with
  | JDict d => match lookup d k with
               | Some x => ret x
               | None => raise KeyError
               end
  | _ => raise TypeError
  end.

(** Truth value of a Python object. *)
Definition truthy (v : json) : bool :=
  match v with
  | JNull => false
  | JBool b => b
  | JInt z => negb (z =? 0)%Z
  | JFloat FNan => true
  | JFloat (FInf _) => true
  | JFloat (FFin q) => negb (Qeq_bool q 0)
  | JStr s => match s with [] => false | _ => true end
  | JList l => match l with [] => false | _ => true end
  | JDict d => match d with [] => false | _ => true end
  end.

(** [v or dflt] *)
Definition py_or (v dflt : json) : json := if truthy v then v else dflt.

(** [v == s] for a string literal [s]. *)
Definition eq_str (v : json) (s : text) : bool :=
  match v with
  | JStr t => text_eqb t s
  | _ => false
  end.

(** *** Integers to floats

    [float(z)] rounds an integer to the nearest binary64 value, ties to even,
    and raises [OverflowError] when the rounded value is not finite. *)
Definition round53 (z : Z) : Z :=
  let a := Z.abs z in
  let sh := (Z.log2 a - 52)%Z in
  if (sh <=? 0)%Z then z
  else
    let q := Z.shiftr a sh in
    let r := Z.land a (Z.ones sh) in
    let half := Z.shiftl 1 (sh - 1) in
    let q' := if ((half <? r) || ((r =? half) && Z.odd q))%Z%bool
              then (q + 1)%Z else q in
    (Z.sgn z * Z.shiftl q' sh)%Z.

Definition float_of_Z (z : Z) : M pyfloat :=
  let r := round53 z in
  if (Z.abs r <? 2 ^ 1024)%Z then ret (FFin (inject_Z r))
  else raise OverflowError.

(** [x < y] and [x > y] on floats; every comparison with a NaN is false. *)
Definition float_ltb (x y : pyfloat) : bool :=
  match x, y with
  | FNan, _ | _, FNan => false
  | FInf true, FInf true => false
  | FInf true, _ => true
  | _, FInf true => false
  | FInf false, _ => false
  | _, FInf false => true
  | FFin a, FFin b => negb (Qle_bool b a)
  end.

(** A number as [max] and [min] return it: one of their arguments,
    unconverted. *)
Inductive pynum : Type :=
| NInt (z : Z)
| NFloat (f : pyfloat).

Definition num_ltb (x y : pynum) : bool :=
  match x, y with
  | NInt a, NInt b => (a <? b)%Z
  | NInt a, NFloat g => float_ltb (FFin (inject_Z a)) g
  | NFloat f, NInt b => float_ltb f (FFin (inject_Z b))
  | NFloat f, NFloat g => float_ltb f g
  end.

(** [min(a, b)] and [max(a, b)] keep the first argument unless the second is
    strictly smaller (larger). *)
Definition py_min (a b : pynum) : pynum := if num_ltb b a then b else a.
Definition py_max (a b : pynum) : pynum := if num_ltb a b then b else a.

(** Truncation towards zero. *)
Definition Qtrunc (q : Q) : Z := Z.quot (Qnum q) (Zpos (Qden q)).

(** [int(x)] for a number. *)
Definition int_of_num (x : pynum) : M Z :=
  match x with
  | NInt z => ret z
  | NFloat FNan => raise ValueError
  | NFloat (FInf _) => raise OverflowError
  | NFloat (FFin q) => ret (Qtrunc q)
  end.

End Py.
Export Py.

Declare Scope py_scope.
Delimit Scope py_scope with py.
Notation "x <- m ;; k" := (bind m (fun x => k))
  (at level 61, m at next level, right associativity) : py_scope.
Open Scope py_scope.
Open Scope Z_scope.

(** ** What the interpreter and the libraries provide

    The parts of the run-time the judge calls but does not define: the
    Unicode tables behind [\d] and [str.lower], the parsers behind
    [float(s)] and [int(s)], [jsonschema.validate] against [JUDGE_SCHEMA],
    and the model service behind [chat_ollama], which is given the
    transcript it is prompted with. *)
Class Runtime : Type := {
  isdecimal : char -> bool;
  lower : text -> text;
  float_of_str : text -> option pyfloat;
  int_of_str : text -> option Z;
  validate : json -> bool;
  chat_ollama : text -> M json
}.

Module Judge.

Section WithRuntime.
Context {RT : Runtime}.

(** [for x in xs: body], threading the objects the body mutates. *)
Fixpoint for_each {A S : Type} (xs : list A) (body : A -> S -> M S) (s : S) : M S :=
  match xs with
  | [] => ret s
  | x :: xs' => s' <- body x s ;; for_each xs' body s'
  end.

(** [v[k] = x] for a string key. *)
Definition py_setitem (v : json) (k : text) (x : json) : M json :=
  match v with
  | JDict d => ret (JDict (store d k x))
  | _ => raise TypeError
  end.

(** [float(v)] *)
Definition py_float (v : json) : M pyfloat :=
  match v with
  | JBool b => ret (FFin (if b then 1 else 0)%Q)
  | JInt z => float_of_Z z
  | JFloat f => ret f
  | JStr s => match float_of_str s with
              | Some f => ret f
              | None => raise ValueError
              end
  | JNull | JList _ | JDict _ => raise TypeError
  end.

(** [int(v)] *)
Definition py_int (v : json) : M Z :=
  match v with
  | JBool b => ret (if b then 1 else 0)
  | JInt z => ret z
  | JFloat f => int_of_num (NFloat f)
  | JStr s => match int_of_str s with
              | Some z => ret z
              | None => raise ValueError
              end
  | JNull | JList _ | JDict _ => raise TypeError
  end.

(** [_clip]: any exception of the conversion gives the lower bound. *)
Definition _clip (v : json) (lo hi : Z) : pynum :=
  match py_float v with
  | inr x => py_max (NInt lo) (py_min (NInt hi) (NFloat x))
  | inl _ => NInt lo
  end.

(** [s[k] = int(_clip(s.get(k, 0), 0, hi))] *)
Definition clip_field (k : text) (hi : Z) (s : json) : M json :=
  v <- py_get s k (JInt 0) ;;
  n <- int_of_num (_clip v 0 hi) ;;
  py_setitem s k (JInt n).

(** The three assignments made for one speech, with the caps of its kind. *)
Definition clip_speech (matter_hi manner_hi method_hi : Z) (s : json) : M json :=
  s <- clip_field (str "matter") matter_hi s ;;
  s <- clip_field (str "manner") manner_hi s ;;
  clip_field (str "method") method_hi s.

Definition speakers : list text := [str "speaker1"; str "speaker2"; str "speaker3"].
Definition sides : list text := [str "affirmative"; str "negative"].

(** The statements made for one speech of a side: read it (an empty dict
    when it is missing), clip its three numbers, store it back. *)
Definition clip_speech_at (matter_hi manner_hi method_hi : Z) (speech : text)
    (side_obj : json) : M json :=
  s <- py_get side_obj speech (JDict []) ;;
  s <- clip_speech matter_hi manner_hi method_hi s ;;
  py_setitem side_obj speech s.

Definition enforce_side (side : text) (scores : json) : M json :=
  side_obj <- py_get scores side (JDict []) ;;
  side_obj <- for_each speakers (clip_speech_at 40 30 30) side_obj ;;
  side_obj <- clip_speech_at 20 15 15 (str "reply") side_obj ;;
  py_setitem scores side side_obj.

Definition enforce_ranges (result : json) : M json :=
  match result with
  | JDict _ =>
      scores <- py_get result (str "scores") (JDict []) ;;
      scores <- for_each sides enforce_side scores ;;
      py_setitem result (str "scores") scores
  | _ => ret result
  end.

(** [weighted_total_speaker] and [weighted_total_reply] have one body. *)
Definition weighted_total_speaker (sp : json) : M Z :=
  a <- bind (py_get sp (str "matter") (JInt 0)) py_int ;;
  b <- bind (py_get sp (str "manner") (JInt 0)) py_int ;;
  c <- bind (py_get sp (str "method") (JInt 0)) py_int ;;
  ret (a + b + c).

Definition weighted_total_reply (rep : json) : M Z := weighted_total_speaker rep.

Definition side_total (side_obj : json) : M Z :=
  a <- bind (py_item side_obj (str "speaker1")) weighted_total_speaker ;;
  b <- bind (py_item side_obj (str "speaker2")) weighted_total_speaker ;;
  c <- bind (py_item side_obj (str "speaker3")) weighted_total_speaker ;;
  d <- bind (py_item side_obj (str "reply")) weighted_total_reply ;;
  ret (a + b + c + d).

(** [compute_totals]: the pair stands for the dict with the keys
    [affirmative] and [negative]. *)
Definition compute_totals (result : json) : M (Z * Z) :=
  scores <- py_item result (str "scores") ;;
  aff <- py_item scores (str "affirmative") ;;
  scores <- py_item result (str "scores") ;;
  neg <- py_item scores (str "negative") ;;
  a <- side_total aff ;;
  n <- side_total neg ;;
  ret (a, n).


(** *** Scaled scores

    [scale_to_100] returns, and the point gap is, a float that [round(_, 1)]
    produced; it is represented by the integer number of tenths it prints
    as.  For the raw totals [enforce_ranges] leaves possible, 0 to 350, the
    quotient by 3.5 is never half-way between two tenths and a difference
    of two scaled scores is within a rounding error of a tenth, so rounding
    the binary64 values and rounding the exact ones give the same tenths,
    and [str] prints their digits.  [round_half_even n d] is the integer
    nearest to [n / d], ties to even, as [round] chooses it. *)
Definition round_half_even (n d : Z) : Z :=
  let q := n / d in
  let r := n mod d in
  if 2 * r <? d then q
  else if d <? 2 * r then q + 1
  else if Z.even q then q else q + 1.

(** [round(float(raw_total) / 3.5, 1)], in tenths. *)
Definition scale_to_100 (raw_total : Z) : Z := round_half_even (raw_total * 20) 7.

(** [str(x)] for a float [x] of [tenths] tenths. *)
Definition format_tenths (tenths : Z) : text :=
  (if tenths <? 0 then str "-" else []) ++
  of_Z (Z.abs tenths / 10) ++ str "." ++ of_Z (Z.abs tenths mod 10).

Definition margin_label (diff : Z) : text :=
  let d := Z.abs diff in
  if d <=? 2 then str "very close"
  else if d <=? 5 then str "close but clear"
  else if d <=? 10 then str "clear win"
  else if d <=? 20 then str "dominant win"
  else str "overwhelming win".

(** Step 7 of [main]: the final statement from the two raw totals. *)
Definition final_statement (aff_total neg_total : Z) : text :=
  let aff_scaled := scale_to_100 aff_total in
  let neg_scaled := scale_to_100 neg_total in
  let diff_raw := aff_total - neg_total in
  let diff_scaled := Z.abs (aff_scaled - neg_scaled) in
  if diff_raw =? 0 then
    str "The round is a TIE. Final (/100): AFF " ++ format_tenths aff_scaled ++
    str " - NEG " ++ format_tenths neg_scaled ++ str "."
  else
    let winner_side := if 0 <? diff_raw then str "AFFIRMATIVE" else str "NEGATIVE" in
    str "Congratulations, Team " ++ winner_side ++ str "! You win by " ++
    format_tenths diff_scaled ++ str " points (" ++ margin_label diff_raw ++ str "). " ++
    str "Final (/100): AFF " ++ format_tenths aff_scaled ++
    str " - NEG " ++ format_tenths neg_scaled ++ str ".".

(** *** Rich-text fallbacks *)

Definition nonempty (t : text) : bool :=
  match t with [] => false | _ => true end.

(** The count taken by [_ensure_min_sentences]: the pieces between
    sentence marks that are not blank. *)
Definition sentence_count (t : text) : nat :=
  length (filter (fun s => nonempty (strip s))
            (split 46 (replace 63 46 (replace 33 46 t)%N)%N)%N).

Definition additions : list text :=
  [str "They framed the weighing early and attempted to collapse the round onto the decisive clashes.";
   str "Comparative analysis connected claims to explicit impacts, although some links could be clearer.";
   str "Time allocation and signposting generally supported flow and judge comprehension."].

(** The [while count < min_sents and additions] loop. *)
Fixpoint add_sentences (additions : list text) (t : text) (count min_sents : nat) : text :=
  match additions with
  | [] => t
  | a :: rest =>
      if (count <? min_sents)%nat
      then add_sentences rest (strip (t ++ str " " ++ a)) (S count) min_sents
      else t
  end.

Definition _ensure_min_sentences (t0 : text) (min_sents : nat) : text :=
  let t := strip t0 in
  let count := sentence_count t in
  if (min_sents <=? count)%nat then t
  else add_sentences additions t count min_sents.

Definition _overview_fallback (side_name : text) (transcript : text) : text :=
  _ensure_min_sentences
    (str "The " ++ side_name ++ str " team presented a coherent case with clear signposting and " ++
     str "attempted to control the weighing mechanism. They engaged core clashes, " ++
     str "extending key material while addressing opponent pressure. Evidence use was " ++
     str "directionally sound, though several claims would benefit from tighter warrants " ++
     str "and explicit impact calculus tied to feasibility, risk, and timeframe.") 4.

Definition _improvements_fallback (side_name : text) : text :=
  _ensure_min_sentences
    (side_name ++ str " can improve by tightening comparative weighing earlier, " ++
     str "frontloading the round-winning mechanism, and backing asserted links with a " ++
     str "concrete warrant (study, example, or model). They should also avoid " ++
     str "assertion-by-repetition by collapsing onto the strongest contention and " ++
     str "making explicit, line-by-line resolution of the main clashes.") 4.

(** The label-specific clause of [_expand_move]. *)
Definition move_extra (label : text) : text :=
  if text_eqb label (str "brilliant") then
    str " It combined clean warranting with timing that flipped a contested issue. The downstream impact shaped the judge's weighing."
  else if text_eqb label (str "great") then
    str " It advanced the team's win condition with precise comparative work. The explanation connected claim to impact without new matter."
  else if text_eqb label (str "good") then
    str " Solid structure and relevance maintained flow control. A clearer explicit impact link could make it round-deciding."
  else if text_eqb label (str "inaccuracy") then
    str " A factual/comparative slip reduced credibility and opened room for opponent leverage. Correct sourcing and line-by-line precision would fix this."
  else
    str " Dropping or mishandling a critical line ceded weighing to the opponent. Always address the win-condition clash before extending new material.".

(** [_expand_move(label, seed)]: a falsy seed is replaced by the stock
    sentence; a truthy seed that is not a [str] cannot be concatenated. *)
Definition _expand_move (label : text) (seed : json) : M text :=
  match py_or seed (JStr (str "A notable contribution occurred at a pivotal moment.")) with
  | JStr s => ret (_ensure_min_sentences (s ++ move_extra label) 2)
  | _ => raise TypeError
  end.

(** *** Speech slots *)

Definition SPEECH_SLOTS : list text :=
  [str "First Speech"; str "Second Speech"; str "Third Speech"; str "Reply"].

(** A move dict as the source writes its literals. *)
Definition move (time label explanation : text) : json :=
  JDict [(str "time", JStr time); (str "label", JStr label);
         (str "explanation", JStr explanation)].

Definition pad_move : json :=
  move [] (str "good") (str "A generally solid contribution with clear structure and relevance.").

(** [for i, m in enumerate(moves): m["time"] = SPEECH_SLOTS[i]] *)
Fixpoint set_times (slots : list text) (moves : list json) : M (list json) :=
  match moves with
  | [] => ret []
  | m :: ms =>
      match slots with
      | [] => raise IndexError
      | s :: ss =>
          m' <- py_setitem m (str "time") (JStr s) ;;
          ms' <- set_times ss ms ;;
          ret (m' :: ms')
      end
  end.

(** [_assign_speech_slots(moves)].  A list is padded with fresh default
    moves, cut to four and given the slot names.  Nothing else comes
    through: a [str] or a dict has no [append], and iterating one yields
    strings, which take no item assignment (a dict of more than four entries
    fails earlier, at the slice). *)
Definition _assign_speech_slots (moves : json) : M (list json) :=
  match moves with
  | JList l =>
      let l := l ++ repeat pad_move (4 - length l) in
      let l := firstn 4 l in
      set_times SPEECH_SLOTS l
  | JStr s => if (length s <? 4)%nat then raise AttributeError else raise TypeError
  | JDict d => if (length d <? 4)%nat then raise AttributeError else raise TypeError
  | JNull | JBool _ | JInt _ | JFloat _ => raise TypeError
  end.

(** *** Analysis defaults *)

(** [s.upper()], used on the ASCII side names only. *)
Definition upper (t : text) : text :=
  map (fun c => if ((97 <=? c) && (c <=? 122))%N then (c - 32)%N else c) t.

(** [v.strip()] and [v.lower()] are methods of [str] alone. *)
Definition py_strip (v : json) : M text :=
  match v with
  | JStr s => ret (strip s)
  | _ => raise AttributeError
  end.

Definition py_lower (v : json) : M text :=
  match v with
  | JStr s => ret (lower s)
  | _ => raise AttributeError
  end.

(** The values [for m in v] ranges over. *)
Definition py_iter (v : json) : M (list json) :=
  match v with
  | JList l => ret l
  | JStr s => ret (map (fun c => JStr [c]) s)
  | JDict d => ret (map (fun kv => JStr (fst kv)) d)
  | JNull | JBool _ | JInt _ | JFloat _ => raise TypeError
  end.

Fixpoint map_m {A B : Type} (f : A -> M B) (xs : list A) : M (list B) :=
  match xs with
  | [] => ret []
  | x :: xs' => y <- f x ;; ys <- map_m f xs' ;; ret (y :: ys)
  end.

Definition LABELS : list text :=
  [str "brilliant"; str "great"; str "good"; str "inaccuracy"; str "blunder"].

(** One turn of the loop over the model's moves. *)
Definition normalise_move (m : json) : M json :=
  l <- py_get m (str "label") JNull ;;
  lbl <- py_lower (py_or l (JStr (str "good"))) ;;
  let lbl := if existsb (text_eqb lbl) LABELS then lbl else str "good" in
  e <- py_get m (str "explanation") JNull ;;
  seed <- py_strip (py_or e (JStr [])) ;;
  exp <- _expand_move lbl (JStr seed) ;;
  t <- py_get m (str "time") JNull ;;
  time <- py_strip (py_or t (JStr [])) ;;
  ret (move time lbl exp).

(** The body of the loop over the two sides. *)
Definition normalise_side (transcript_text : text) (side : text) (result : json) : M json :=
  analysis <- py_item result (str "analysis") ;;
  b <- py_get analysis side JNull ;;
  let blob := py_or b (JDict []) in
  o <- py_get blob (str "overview") JNull ;;
  ov <- py_strip (py_or o (JStr [])) ;;
  let ov := if nonempty ov then _ensure_min_sentences ov 4
            else _overview_fallback (upper side) transcript_text in
  blob <- py_setitem blob (str "overview") (JStr ov) ;;
  i <- py_get blob (str "improvements") JNull ;;
  imp <- py_strip (py_or i (JStr [])) ;;
  let imp := if nonempty imp then _ensure_min_sentences imp 4
             else _improvements_fallback (upper side) in
  blob <- py_setitem blob (str "improvements") (JStr imp) ;;
  mv <- py_get blob (str "notable_moves") JNull ;;
  moves <- py_iter (py_or mv (JList [])) ;;
  norm <- map_m normalise_move moves ;;
  pad <- _expand_move (str "good")
           (JStr (str "A generally solid contribution with clear structure and relevance.")) ;;
  let norm := norm ++ repeat (move [] (str "good") pad) (4 - length norm) in
  slots <- _assign_speech_slots (JList norm) ;;
  blob <- py_setitem blob (str "notable_moves") (JList slots) ;;
  analysis <- py_setitem analysis side blob ;;
  py_setitem result (str "analysis") analysis.

(** [ensure_analysis_defaults].  On anything but a dict the membership test
    or the item assignment of its first statement is a [TypeError]. *)
Definition ensure_analysis_defaults (result : json) (transcript_text : text) : M json :=
  match result with
  | JDict d =>
      let result := match lookup d (str "analysis") with
                    | Some (JDict _) => result
                    | _ => JDict (store d (str "analysis") (JDict []))
                    end in
      for_each sides (normalise_side transcript_text) result
  | _ => raise TypeError
  end.

(** *** The hard enforcer *)

Definition winning_labels : list text :=
  [str "brilliant"; str "great"; str "good"; str "inaccuracy"].
Definition losing_labels : list text :=
  [str "inaccuracy"; str "blunder"; str "good"; str "great"].

(** [enumerate(xs)] *)
Definition enumerate {A : Type} (xs : list A) : list (nat * A) :=
  combine (seq 0 (length xs)) xs.

Definition force_distribution (moves : list json) (want_positive_majority : bool)
  : M (list json) :=
  let target := if want_positive_majority then winning_labels else losing_labels in
  map_m (fun il : nat * text =>
           let (i, label) := il in
           seed_exp <- match nth_error moves i with
                       | Some m => py_item m (str "explanation")
                       | None => ret (JStr [])
                       end ;;
           exp <- _expand_move label seed_exp ;;
           ret (move (nth i SPEECH_SLOTS []) label exp))
        (enumerate target).

Definition is_winner (winner : json) (side : text) : bool :=
  negb (eq_str winner (str "TIE")) &&
  ((eq_str winner (str "AFFIRMATIVE") && text_eqb side (str "affirmative")) ||
   (eq_str winner (str "NEGATIVE") && text_eqb side (str "negative"))).

(** The body of the loop of [rebalance_notable_moves].  The list padded and
    re-timed in place by the first [_assign_speech_slots] is the one the last
    statement replaces. *)
Definition rebalance_side (winner : json) (side : text) (result : json) : M json :=
  a <- py_get result (str "analysis") (JDict []) ;;
  s <- py_get a side (JDict []) ;;
  moves <- py_get s (str "notable_moves") (JList []) ;;
  moves <- _assign_speech_slots moves ;;
  new <- force_distribution moves (is_winner winner side) ;;
  new <- _assign_speech_slots (JList new) ;;
  a <- py_item result (str "analysis") ;;
  s <- py_item a side ;;
  s <- py_setitem s (str "notable_moves") (JList new) ;;
  a <- py_setitem a side s ;;
  py_setitem result (str "analysis") a.

(** [rebalance_notable_moves] returns nothing; the result here is the
    verdict it has mutated. *)
Definition rebalance_notable_moves (result : json) (winner : json) : M json :=
  for_each sides (rebalance_side winner) result.

(** *** Low-content detection *)

Definition LOW_CONTENT_SPEECH_MIN : nat := 3.
Definition LOW_CONTENT_CHAR_MIN : nat := 120.

Definition is_AFF_or_NEG (a b c : char) : bool :=
  ((N.eqb a 65 && N.eqb b 70 && N.eqb c 70) ||
   (N.eqb a 78 && N.eqb b 69 && N.eqb c 71))%bool.

(** A match of [\[\d{2}:\d{2}\s+(AFF|NEG)-] at the start of [t]: what follows
    it.  The greedy [\s+] takes all the white space, and giving some back
    cannot help the letter that must follow. *)
Definition match_tag_head (t : text) : option text :=
  match t with
  | br :: d1 :: d2 :: co :: d3 :: d4 :: sp :: t' =>
      if (N.eqb br 91 && isdecimal d1 && isdecimal d2 && N.eqb co 58 &&
          isdecimal d3 && isdecimal d4 && isspace sp)%bool
      then match lstrip t' with
           | a :: b :: c :: dash :: rest =>
               if (is_AFF_or_NEG a b c && N.eqb dash 45)%bool then Some rest else None
           | _ => None
           end
      else None
  | _ => None
  end.

(** The characters before the first [\]], and the rest. *)
Fixpoint until_bracket (t : text) : text * text :=
  match t with
  | [] => ([], [])
  | c :: t' =>
      if N.eqb c 93 then ([], t)
      else let (body, rest) := until_bracket t' in (c :: body, rest)
  end.

(** A match of [\[\d{2}:\d{2}\s+(AFF|NEG)-[^\]]+\]\s*] at the start of [t]:
    what follows it. *)
Definition match_tag (t : text) : option text :=
  match match_tag_head t with
  | Some t' =>
      match until_bracket t' with
      | (_ :: _, _ :: rest) => Some (lstrip rest)
      | _ => None
      end
  | None => None
  end.

(** [re.sub(tag, "", t)]: matches are looked for from left to right and the
    search resumes after each.  [skip] counts the characters of the current
    match still to be dropped. *)
Fixpoint sub_tags (skip : nat) (t : text) : text :=
  match t with
  | [] => []
  | c :: t' =>
      match skip with
      | S k => sub_tags k t'
      | O =>
          match match_tag t with
          | Some rest => sub_tags (length t' - length rest) t'
          | None => c :: sub_tags 0 t'
          end
      end
  end.

Definition _extract_payload_text (transcript_text : text) : text :=
  strip (sub_tags 0 transcript_text).

(** The lines [is_low_content] counts, and the payload it measures. *)
Definition speech_lines (transcript_text : text) : list text :=
  let lines := filter (fun ln => nonempty (strip ln)) (splitlines transcript_text) in
  filter (fun ln => match match_tag_head ln with Some _ => true | None => false end) lines.

Definition speech_payload (transcript_text : text) : text :=
  _extract_payload_text (join [10%N] (speech_lines transcript_text)).

Definition is_low_content (transcript_text : text) : bool :=
  if (negb (nonempty transcript_text) || negb (nonempty (strip transcript_text)))%bool
  then true
  else
    ((length (speech_lines transcript_text) <? LOW_CONTENT_SPEECH_MIN)%nat ||
     (length (speech_payload transcript_text) <? LOW_CONTENT_CHAR_MIN)%nat)%bool.

Definition zero_sp : json :=
  JDict [(str "matter", JInt 0); (str "manner", JInt 0); (str "method", JInt 0);
         (str "notes", JStr [])].
Definition zero_reply : json := zero_sp.

Definition zero_side : json :=
  JDict [(str "speaker1", zero_sp); (str "speaker2", zero_sp);
         (str "speaker3", zero_sp); (str "reply", zero_reply)].

Definition empty_result : json :=
  JDict
    [(str "meta",
      JDict [(str "format", JStr (str "Policy"));
             (str "rules", JStr (str "No new matter in 3rd speeches; reply is comparative only."))]);
     (str "scores",
      JDict [(str "affirmative", zero_side); (str "negative", zero_side)]);
     (str "winner", JStr (str "TIE"));
     (str "rationale",
      JDict [(str "summary", JStr (str "Insufficient material: there were not enough substantive speeches to evaluate the round."));
             (str "why_winner", JStr (str "No winner " ++ [8212%N] ++ str " both teams provided insufficient content."));
             (str "key_clashes", JList [])]);
     (str "analysis",
      JDict [(str "affirmative",
              JDict [(str "overview", JStr (str "No substantive speeches recorded for AFF."));
                     (str "improvements", JStr (str "Deliver required speeches with claims, warrants, and comparison."));
                     (str "notable_moves", JList [])]);
             (str "negative",
              JDict [(str "overview", JStr (str "No substantive speeches recorded for NEG."));
                     (str "improvements", JStr (str "Deliver required speeches with claims, warrants, and comparison."));
                     (str "notable_moves", JList [])])])].

Definition DEFAULT_TRANSCRIPT : text :=
  concat (map (fun ln => str ln ++ [10%N])
    ["[00:00 AFF-1] Defines key terms clearly; claims policy X reduces emissions using Smith (2023).";
     "[03:00 NEG-1] Challenges definition scope; says Smith uses extreme scenario; presents alternative evidence.";
     "[06:00 AFF-2] Extends with infrastructure risk and cost-benefit; rebuts scenario critique.";
     "[09:00 NEG-2] Pushes adaptation argument with Jones (2024); says costs lower than claimed.";
     "[12:00 AFF-3] Heavy rebuttal on adaptation residual risk; synthesises case; no new matter.";
     "[15:00 NEG-3] Rebuttal on feasibility; (no new matter).";
     "[18:00 AFF-Reply] Compares feasibility vs residual risk; frames why AFF wins.";
     "[20:00 NEG-Reply] Compares on costs and realism; claims NEG wins on practicality."]%string).

(** *** [main] *)

(** The dict [{"affirmative": a, "negative": n}]. *)
Definition totals_dict (totals : Z * Z) : json :=
  JDict [(str "affirmative", JInt (fst totals)); (str "negative", JInt (snd totals))].

(** Step 4: validate, repair once and validate again. *)
Definition validate_with_retry (result : json) (transcript_text : text) : M json :=
  if validate result then ret result
  else
    result <- enforce_ranges result ;;
    result <- ensure_analysis_defaults result transcript_text ;;
    if validate result then ret result else raise ValidationError.

(** Step 5: the winner after the tie-break. *)
Definition tie_break (result : json) (totals : Z * Z) : M json :=
  w <- py_get result (str "winner") JNull ;;
  if eq_str w (str "TIE") then
    let diff := fst totals - snd totals in
    if 1 <=? Z.abs diff then
      py_setitem result (str "winner")
        (JStr (if 0 <? diff then str "AFFIRMATIVE" else str "NEGATIVE"))
    else ret result
  else ret result.

(** Steps 2 to 7, from the parsed response of the model to the verdict. *)
Definition judge (result : json) (transcript_text : text) : M json :=
  result <- enforce_ranges result ;;
  result <- ensure_analysis_defaults result transcript_text ;;
  result <- validate_with_retry result transcript_text ;;
  totals <- compute_totals result ;;
  result <- py_setitem result (str "totals") (totals_dict totals) ;;
  result <- tie_break result totals ;;
  winner <- py_get result (str "winner") (JStr (str "TIE")) ;;
  result <- rebalance_notable_moves result winner ;;
  py_setitem result (str "final_statement")
    (JStr (final_statement (fst totals) (snd totals))).

(** The low-content branch of [main]. *)
Definition low_content_verdict : M json :=
  result <- py_setitem empty_result (str "totals") (totals_dict (0, 0)) ;;
  py_setitem result (str "final_statement")
    (JStr (str "The round is a TIE. Final (/100): AFF " ++ format_tenths (scale_to_100 0) ++
           str " - NEG " ++ format_tenths (scale_to_100 0) ++ str ".")).

(** A run of [main]: the transcripts the model service was asked to judge,
    in order, and the verdict built or the exception that ended the run. *)
Record run : Type := { model_calls : list text; outcome : M json }.

Definition main (transcript_text : text) : run :=
  if is_low_content transcript_text then
    {| model_calls := []; outcome := low_content_verdict |}
  else
    {| model_calls := [transcript_text];
       outcome := result <- chat_ollama transcript_text ;; judge result transcript_text |}.

End WithRuntime.
End Judge.

(** ** Reading a verdict

    The observations the specification makes of a verdict, and the bounds of
    its data model. *)

Module Verdict.
Import Judge.

(** [v[k1][k2]...], [None] when a key is missing or a value on the way is
    not a dict. *)
Fixpoint path (v : json) (ks : list text) : option json :=
  match ks with
  | [] => Some v
  | k :: ks' =>
      match v with
      | JDict d => match lookup d k with
                   | Some x => path x ks'
                   | None => None
                   end
      | _ => None
      end
  end.

Definition score_field (result : json) (side speech field : text) : option json :=
  path result [str "scores"; side; speech; field].

Definition speeches : list text := speakers ++ [str "reply"].
Definition fields : list text := [str "matter"; str "manner"; str "method"].

(** The caps of the rubric: 40/30/30 for a substantive speech, 20/15/15 for
    the reply. *)
Definition cap (speech field : text) : Z :=
  if text_eqb speech (str "reply") then
    if text_eqb field (str "matter") then 20 else 15
  else
    if text_eqb field (str "matter") then 40 else 30.

(** A value the sanitiser can read a field from: a dict, or nothing. *)
Definition dict_or_missing (o : option json) : bool :=
  match o with
  | None | Some (JDict _) => true
  | Some _ => false
  end.

(** The response is an object whose [scores], sides and speeches, where
    present, are objects. *)
Definition score_shape (result : json) : bool :=
  match result with
  | JDict _ =>
      dict_or_missing (path result [str "scores"]) &&
      forallb (fun side =>
                 dict_or_missing (path result [str "scores"; side]) &&
                 forallb (fun speech =>
                            dict_or_missing (path result [str "scores"; side; speech]))
                         speeches)
              sides
  | _ => false
  end.

(** Clamping into [[lo, hi]], as the specification words it. *)
Definition clamp (lo hi : Z) (q : Q) : Q :=
  if Qle_bool q (inject_Z lo) then inject_Z lo
  else if Qle_bool (inject_Z hi) q then inject_Z hi
  else q.

(** [n] is what the specification asks of a field read as [v] under the
    bounds [[lo, hi]]: the lower bound when the field is missing or its
    coercion fails, the clamped number (as the integer the code stores)
    otherwise.  An infinity is clamped to the bound on its side, and a NaN,
    which compares with nothing, to the upper bound. *)
Definition sanitised `{Runtime} (v : option json) (lo hi n : Z) : Prop :=
  match v with
  | None => n = lo
  | Some v =>
      match py_float v with
      | inl _ => n = lo
      | inr (FFin q) => n = Qtrunc (clamp lo hi q)
      | inr (FInf negative) => n = if negative then lo else hi
      | inr FNan => n = hi
      end
  end.

(** One field after [clip_speech]: an integer within its cap, sanitised from
    the value the field had. *)
Definition field_ok `{Runtime} (before after : dict) (field : text) (hi : Z) : Prop :=
  exists n, lookup after field = Some (JInt n) /\ 0 <= n <= hi /\
            sanitised (lookup before field) 0 hi n.

(** Every score of [result] is an integer within the cap of its field. *)
Definition scores_in_bounds (result : json) : Prop :=
  forall side speech field,
    In side sides -> In speech speeches -> In field fields ->
    exists n, score_field result side speech field = Some (JInt n) /\
              0 <= n <= cap speech field.

(** [result["analysis"][side]["notable_moves"]] when it is a list. *)
Definition notable_moves_of (result : json) (side : text) : option (list json) :=
  match path result [str "analysis"; side; str "notable_moves"] with
  | Some (JList l) => Some l
  | _ => None
  end.

(** [[m[k] for m in moves]], [None] standing for a missing key. *)
Definition column (k : text) (moves : list json) : list (option json) :=
  map (fun m => path m [k]) moves.

Definition labels_of (moves : list json) : list (option json) := column (str "label") moves.
Definition times_of (moves : list json) : list (option json) := column (str "time") moves.

Definition POS : list text := [str "brilliant"; str "great"].
Definition NEG : list text := [str "inaccuracy"; str "blunder"].

(** The number of labels of [labels] that are among [among]. *)
Definition count_labels (among : list text) (labels : list (option json)) : nat :=
  length (filter (fun l => match l with
                           | Some v => existsb (eq_str v) among
                           | None => false
                           end) labels).

Definition texts (ts : list text) : list (option json) :=
  map (fun t => Some (JStr t)) ts.

(** Both sides carry exactly the four slots, in order. *)
Definition has_four_slots (v : json) : Prop :=
  forall side, In side sides ->
    exists moves, notable_moves_of v side = Some moves /\
                  length moves = 4%nat /\
                  times_of moves = texts SPEECH_SLOTS.

(** Strictly more positive than negative labels, and the converse. *)
Definition positive_majority (moves : list json) : Prop :=
  (count_labels NEG (labels_of moves) < count_labels POS (labels_of moves))%nat.
Definition negative_majority (moves : list json) : Prop :=
  (count_labels POS (labels_of moves) < count_labels NEG (labels_of moves))%nat.

Definition winner_of (v : json) : option json := path v [str "winner"].

(** The winner after the tie-break, from the winner the model declared and
    the raw totals: a declared TIE stands only when the totals are equal. *)
Definition resolved_winner (declared : option json) (a n : Z) : option json :=
  match declared with
  | Some w =>
      if eq_str w (str "TIE") then
        Some (JStr (if a =? n then str "TIE"
                    else if n <? a then str "AFFIRMATIVE" else str "NEGATIVE"))
      else declared
  | None => None
  end.

(** The label template a side has in a verdict whose winner is [winner]:
    the winning one when the side is the declared winner's. *)
Definition template_of (winner : option json) (side_name : text) : list text :=
  match winner with
  | Some w => if eq_str w side_name then winning_labels else losing_labels
  | None => losing_labels
  end.

(** [r'] is a dict like the dict [r], except possibly under the key [k]. *)
Definition unchanged_off (k : text) (r r' : json) : Prop :=
  (exists d d', r = JDict d /\ r' = JDict d') /\
  forall k' ks, text_eqb k k' = false -> path r' (k' :: ks) = path r (k' :: ks).

(** The margin label the specification gives a raw gap [d]. *)
Definition margin_of_gap (d : Z) (label : text) : Prop :=
  (d <= 2 -> label = str "very close") /\
  (2 < d <= 5 -> label = str "close but clear") /\
  (5 < d <= 10 -> label = str "clear win") /\
  (10 < d <= 20 -> label = str "dominant win") /\
  (20 < d -> label = str "overwhelming win").

(** The four moves the rebalancer writes for a side: the fixed slots, the
    label template of the winning or of the losing side, and some
    explanations. *)
Definition canonical_moves (win : bool) (e0 e1 e2 e3 : text) : list json :=
  match SPEECH_SLOTS, (if win then winning_labels else losing_labels) with
  | [s0; s1; s2; s3], [l0; l1; l2; l3] =>
      [move s0 l0 e0; move s1 l1 e1; move s2 l2 e2; move s3 l3 e3]
  | _, _ => []
  end.

(** A move whose explanation [_expand_move] accepts as a seed: a [str], or
    any falsy value. *)
Definition has_explanation (m : json) : bool :=
  match path m [str "explanation"] with
  | Some (JStr _) => true
  | Some v => negb (truthy v)
  | None => false
  end.

(** The analysis of [result] holds, for [side], the move list [l] (the
    empty list when the side has no [notable_moves]). *)
Definition side_moves (result : json) (side : text) (l : list json) : Prop :=
  exists s, path result [str "analysis"; side] = Some (JDict s) /\
            get_default s (str "notable_moves") (JList []) = JList l.

End Verdict.

(** ** Reading the behaviour of the functions

    The vocabulary of the laws proved further down: what a function
    reads, what it leaves alone, and the values it accepts. *)

Module Behaviour.
Import Judge Verdict.

(** The integer a score field holds, 0 when it holds none. *)
Definition score_value (result : json) (side speech field : text) : Z :=
  match score_field result side speech field with
  | Some (JInt n) => n
  | _ => 0
  end.

(** The sum of a list of integers. *)
Definition sum_Z (l : list Z) : Z := fold_right Z.add 0 l.

(** The sum of the twelve numbers a side has in [result]. *)
Definition raw_total (result : json) (side : text) : Z :=
  sum_Z (map (fun speech => sum_Z (map (score_value result side speech) fields)) speeches).

(** A speech whose three numbers are integers within their caps. *)
Definition speech_in_bounds (ds : dict) (speech : text) : Prop :=
  forall field, In field fields ->
    exists n, lookup ds field = Some (JInt n) /\ 0 <= n <= cap speech field.

(** A side whose four speeches are present and within bounds. *)
Definition side_in_bounds (so : dict) : Prop :=
  forall speech, In speech speeches ->
    exists ds, lookup so speech = Some (JDict ds) /\ speech_in_bounds ds speech.

(** A sentence mark: one of [!], [.] and [?]. *)
Definition is_mark (c : char) : bool := (N.eqb c 33 || N.eqb c 46 || N.eqb c 63)%bool.

(** The text with [!] and [?] replaced by a full stop, as the count of
    sentences reads it. *)
Definition stops (t : text) : text := replace 63%N 46%N (replace 33%N 46%N t).

(** A piece between two marks that counts as a sentence. *)
Definition sentence (s : text) : bool := nonempty (strip s).

(** The first [k] stock sentences, each after a space. *)
Definition fillers (k : nat) : text :=
  concat (map (fun a => str " " ++ a) (firstn k additions)).

(** The seed [_expand_move] uses for a falsy seed. *)
Definition stock_seed : text := str "A notable contribution occurred at a pivotal moment.".

(** The text ends with a full stop. *)
Definition ends_with_stop (t : text) : bool :=
  match rev t with
  | c :: _ => N.eqb c 46
  | [] => false
  end.

(** The value is an object. *)
Definition is_dict (v : json) : bool :=
  match v with JDict _ => true | _ => false end.

(** The list [_assign_speech_slots] gives slots to: [l] padded to four with
    the default move and cut to four. *)
Definition padded (l : list json) : list json :=
  firstn 4 (l ++ repeat pad_move (4 - length l)).

(** [m'] is the move [m] with another [time]. *)
Definition retimed (m m' : json) (slot : text) : Prop :=
  path m' [str "time"] = Some (JStr slot) /\
  forall k ks, text_eqb (str "time") k = false -> path m' (k :: ks) = path m (k :: ks).

(** The labels the rebalancer forces on a side. *)
Definition template (win : bool) : list text :=
  if win then winning_labels else losing_labels.

(** [new] is the move the rebalancer writes for slot [i] over the move [m]:
    the slot, the label of the template, and the explanation of [m] (the
    stock sentence when it is empty) followed by the clause of that label. *)
Definition forced_move (win : bool) (i : nat) (m new : json) : Prop :=
  exists seed s,
    path m [str "explanation"] = Some seed /\
    py_or seed (JStr stock_seed) = JStr s /\
    new = move (nth i SPEECH_SLOTS []) (nth i (template win) [])
               (strip (s ++ move_extra (nth i (template win) []))).

(** [r'] differs from [r] in the two [notable_moves] lists at most. *)
Definition only_moves_changed (r r' : json) : Prop :=
  (forall k ks, text_eqb (str "analysis") k = false ->
     path r' (k :: ks) = path r (k :: ks)) /\
  (forall side k ks, text_eqb (str "notable_moves") k = false ->
     path r' (str "analysis" :: side :: k :: ks) =
     path r (str "analysis" :: side :: k :: ks)) /\
  (forall side, ~ In side sides ->
     path r' [str "analysis"; side] = path r [str "analysis"; side]).

(** Both sides of [r] hold move lists the rebalancer can read: objects
    with an explanation, as far as the first four moves go. *)
Definition rebalance_ready (r : json) : Prop :=
  forall side, In side sides ->
    exists l, side_moves r side l /\ forallb has_explanation (firstn 4 l) = true.

(** A move as the analysis defaults leave it: three strings, the label one
    of the five, the explanation ending with the clause of the label. *)
Definition normal_move (time : text) (m : json) : Prop :=
  exists label s,
    m = move time label (strip (s ++ move_extra label)) /\ In label LABELS.

(** A side of the analysis as the defaults leave it. *)
Definition normal_side (blob : dict) : Prop :=
  (exists ov, lookup blob (str "overview") = Some (JStr ov) /\ ov <> []) /\
  (exists imp, lookup blob (str "improvements") = Some (JStr imp) /\ imp <> []) /\
  exists m0 m1 m2 m3,
    lookup blob (str "notable_moves") = Some (JList [m0; m1; m2; m3]) /\
    normal_move (str "First Speech") m0 /\ normal_move (str "Second Speech") m1 /\
    normal_move (str "Third Speech") m2 /\ normal_move (str "Reply") m3.

(** The explanation of a move added by the defaults. *)
Definition default_explanation : text :=
  strip (str "A generally solid contribution with clear structure and relevance." ++
         move_extra (str "good")).

(** The analysis the defaults give a side the model said nothing about. *)
Definition default_side (side_name transcript : text) : json :=
  JDict [(str "overview", JStr (_overview_fallback side_name transcript));
         (str "improvements", JStr (_improvements_fallback side_name));
         (str "notable_moves",
          JList (map (fun slot => move slot (str "good") default_explanation) SPEECH_SLOTS))].

(** Both sides of the analysis of [r] are as the defaults leave them. *)
Definition normal_analysis (r : json) : Prop :=
  forall side, In side sides ->
    exists blob, path r [str "analysis"; side] = Some (JDict blob) /\ normal_side blob.

(** Steps 2 to 4 of [main]: sanitise, fill the analysis, validate with one
    retry. *)
Definition validated `{Runtime} (result : json) (transcript_text : text) : M json :=
  r0 <- enforce_ranges result ;;
  r1 <- ensure_analysis_defaults r0 transcript_text ;;
  validate_with_retry r1 transcript_text.

(** The keys [judge] writes under. *)
Definition judge_keys : list text :=
  [str "scores"; str "analysis"; str "winner"; str "totals"; str "final_statement"].

(** The characters the lines of a text take up when each is followed by
    one separator. *)
Definition lines_size (lines : list text) : nat :=
  fold_right (fun ln n => (length ln + 1 + n)%nat) 0%nat lines.

(** A speech tag: [[], two digits, a colon, two digits, white space, the
    side, a dash, the speaker, []] and the white space after it. *)
Definition speech_tag (d1 d2 d3 d4 : char) (gap side name trail : text) : text :=
  [91; d1; d2; 58; d3; d4]%N ++ gap ++ side ++ [45%N] ++ name ++ [93%N] ++ trail.

(** The character [c] does not occur in [t]. *)
Definition no_char (c : char) (t : text) : bool := forallb (fun x => negb (N.eqb x c)) t.

(** The keys [ks] follow, as far as they go, the levels [levels]: the
    first key is in the first level, the second in the second, and so on. *)
Fixpoint on_path (levels : list (list text)) (ks : list text) : bool :=
  match ks, levels with
  | k :: ks', l :: ls => existsb (text_eqb k) l && on_path ls ks'
  | _, _ => true
  end.

(** The paths to the 24 score fields. *)
Definition score_levels : list (list text) := [[str "scores"]; sides; speeches; fields].

(** A computation that raises nothing but [e0]. *)
Definition raises_only {A} (e0 : exn) (m : M A) : Prop :=
  forall e, m = inl e -> e = e0.

(** A value [(v or "").strip()] accepts: a [str], or anything falsy. *)
Definition str_or_falsy (v : json) : bool :=
  match v with
  | JStr _ => true
  | _ => negb (truthy v)
  end.

(** A move the defaults can normalise. *)
Definition move_ok (m : json) : bool :=
  match m with
  | JDict d =>
      str_or_falsy (get_default d (str "label") JNull) &&
      str_or_falsy (get_default d (str "explanation") JNull) &&
      str_or_falsy (get_default d (str "time") JNull)
  | _ => false
  end.

(** The moves of a side the defaults can normalise: falsy, or a list of
    moves they can. *)
Definition moves_ok (mv : json) : bool :=
  match mv with
  | JList l => forallb move_ok l
  | _ => negb (truthy mv)
  end.

(** A side of the analysis the defaults can normalise, read as [b]. *)
Definition side_ok (b : json) : bool :=
  match py_or b (JDict []) with
  | JDict blob =>
      str_or_falsy (get_default blob (str "overview") JNull) &&
      str_or_falsy (get_default blob (str "improvements") JNull) &&
      moves_ok (get_default blob (str "notable_moves") JNull)
  | _ => false
  end.

(** A response whose analysis the defaults can normalise. *)
Definition analysis_ok (result : json) : bool :=
  match result with
  | JDict d =>
      let a := match lookup d (str "analysis") with
               | Some (JDict a) => a
               | _ => []
               end in
      forallb (fun side => side_ok (get_default a side JNull)) sides
  | _ => false
  end.

(** *** Scaled scores and tags, in the words of the specification *)

(** [s] tenths is [raw / 3.5] rounded to one decimal: the two are less
    than half a tenth apart, which no other number of tenths is. *)
Definition scaled_to_tenths (raw s : Z) : Prop :=
  ((s # 10) - (1 # 20) < inject_Z raw / (7 # 2) /\
   inject_Z raw / (7 # 2) < (s # 10) + (1 # 20))%Q.

(** The character of a decimal digit. *)
Definition digit (d : Z) : char := Z.to_N (48 + d).

(** The decimal numeral of [n], for [n] from 0 to 999: no leading zero. *)
Definition numeral (n : Z) : text :=
  (if 100 <=? n then [digit (n / 100)] else []) ++
  (if 10 <=? n then [digit (n / 10 mod 10)] else []) ++
  [digit (n mod 10)].

(** [s] tenths written with one decimal, as in [85.7]. *)
Definition one_decimal (s : Z) : text :=
  numeral (s / 10) ++ str "." ++ [digit (s mod 10)].






End Behaviour.

(** ** A run-time to run the judge on examples *)

Module Demo.
Import Judge.

Definition is_ascii_digit (c : char) : bool := ((48 <=? c) && (c <=? 57))%N.

(** The value of a non-empty string of ASCII digits. *)
Fixpoint digits_value (acc : Z) (t : text) : option Z :=
  match t with
  | [] => Some acc
  | c :: t' =>
      if is_ascii_digit c then digits_value (10 * acc + Z.of_N (c - 48)) t'
      else None
  end.

(** Integer literals with an optional sign, white space around them
    allowed: the numeric strings of the examples. *)
Definition parse_int (t : text) : option Z :=
  match strip t with
  | [] => None
  | c :: t' =>
      if N.eqb c 45 then
        match t' with [] => None | _ => option_map Z.opp (digits_value 0 t') end
      else if N.eqb c 43 then
        match t' with [] => None | _ => digits_value 0 t' end
      else digits_value 0 (c :: t')
  end.

(** ASCII digits and letters, integer literals for [float] and [int], a
    schema that accepts every verdict, and a model service that answers
    every transcript with [response]. *)
Definition runtime (response : json) : Runtime := {|
  isdecimal := is_ascii_digit;
  lower := map (fun c => if ((65 <=? c) && (c <=? 90))%N then (c + 32)%N else c);
  float_of_str := fun t => option_map (fun z => FFin (inject_Z z)) (parse_int t);
  int_of_str := parse_int;
  validate := fun _ => true;
  chat_ollama := fun _ => inr response
|}.

Definition speech (matter manner method : json) : json :=
  JDict [(str "matter", matter); (str "manner", manner); (str "method", method);
         (str "notes", JStr [])].

(** A response of the model: an out-of-range and a non-numeric score, a
    missing reply, a declared tie, six moves for one side (one with an
    unknown label) and none for the other. *)
Definition response : json :=
  JDict
    [(str "meta",
      JDict [(str "format", JStr (str "Policy"));
             (str "rules", JStr (str "No new matter in 3rd speeches; reply is comparative only."))]);
     (str "scores",
      JDict [(str "affirmative",
              JDict [(str "speaker1", speech (JInt 999) (JInt 30) (JInt 30));
                     (str "speaker2", speech (JInt 40) (JStr (str "30")) (JInt 30));
                     (str "speaker3", speech (JInt 40) (JInt 30) (JFloat (FFin (61 # 2))))]);
             (str "negative",
              JDict [(str "speaker1", speech (JInt 30) (JInt 25) (JInt 25));
                     (str "speaker2", speech (JInt 30) (JInt 25) (JInt 25));
                     (str "speaker3", speech (JInt 30) (JStr (str "n/a")) (JInt 25));
                     (str "reply", speech (JInt 20) (JInt 10) (JInt (-5)))])]);
     (str "winner", JStr (str "TIE"));
     (str "rationale",
      JDict [(str "summary", JStr (str "Both teams engaged the main clash."));
             (str "why_winner", JStr (str "Too close to call."));
             (str "key_clashes", JList [JStr (str "feasibility")])]);
     (str "analysis",
      JDict [(str "affirmative",
              JDict [(str "overview", JStr (str "Good job"));
                     (str "improvements", JStr (str "Weigh earlier. Cite sources."));
                     (str "notable_moves",
                      JList [move (str "18:00") (str "blunder") (str "Dropped the cost argument.");
                             move (str "00:00") (str "Great") (str "Clear definitions.");
                             move (str "06:00") (str "superb") (str "Strong extension.");
                             move (str "12:00") (str "good") [];
                             move (str "13:00") (str "inaccuracy") (str "Misquoted Jones.");
                             move (str "14:00") (str "brilliant") (str "Turned the adaptation point.")])]);
             (str "negative",
              JDict [(str "overview", JStr []);
                     (str "improvements", JNull)])])].

Definition judge_runtime : Runtime := runtime response.


End Demo.

(** ** Properties *)

Module JudgeFacts.
Import Judge Verdict.

(** *** Text and dict lemmas *)

Lemma text_eqb_eq (a b : text) : text_eqb a b = true <-> a = b.
Proof.
  revert b; induction a as [|x a IH]; intros [|y b]; simpl; split;
    try discriminate; try reflexivity.
  - intros H. apply andb_prop in H as [Hx Hab].
    apply N.eqb_eq in Hx. apply IH in Hab. now subst.
  - intros H. injection H as -> ->. unfold char_eqb.
    rewrite N.eqb_refl. simpl. now apply IH.
Qed.

Lemma text_eqb_refl (a : text) : text_eqb a a = true.
Proof. now apply text_eqb_eq. Qed.

Lemma text_eqb_neq (a b : text) : text_eqb a b = false <-> a <> b.
Proof.
  split.
  - intros H E. apply text_eqb_eq in E. congruence.
  - intros H. destruct (text_eqb a b) eqn:E; [|reflexivity].
    apply text_eqb_eq in E. contradiction.
Qed.

Lemma lookup_store_eq (d : dict) (k : text) (v : json) :
  lookup (store d k v) k = Some v.
Proof.
  induction d as [|[k0 v0] d IH]; simpl.
  - now rewrite text_eqb_refl.
  - destruct (text_eqb k0 k) eqn:E; simpl; rewrite E; [reflexivity | exact IH].
Qed.

Lemma lookup_store_ne (d : dict) (k k' : text) (v : json) :
  text_eqb k k' = false -> lookup (store d k v) k' = lookup d k'.
Proof.
  intros Hne. induction d as [|[k0 v0] d IH]; simpl.
  - now rewrite Hne.
  - destruct (text_eqb k0 k) eqn:E; simpl.
    + apply text_eqb_eq in E. subst k0. now rewrite Hne.
    + now rewrite IH.
Qed.

Lemma get_default_store_ne (d : dict) (k k' : text) (v dflt : json) :
  text_eqb k k' = false -> get_default (store d k v) k' dflt = get_default d k' dflt.
Proof. intros H. unfold get_default. now rewrite lookup_store_ne. Qed.

(** *** Truncation of a rational between two integers *)

Lemma Qtrunc_between (lo hi : Z) (q : Q) :
  (inject_Z lo <= q)%Q -> (q <= inject_Z hi)%Q -> lo <= Qtrunc q <= hi.
Proof.
  destruct q as [n d]. unfold Qle, Qtrunc, inject_Z. simpl.
  rewrite !Z.mul_1_r. intros Hlo Hhi.
  assert (Hd : 0 < Z.pos d) by lia.
  destruct (Z_le_gt_dec 0 n) as [Hn | Hn].
  - rewrite Z.quot_div_nonneg by lia. split.
    + destruct (Z_le_gt_dec lo 0) as [H0 | H0].
      * pose proof (Z.div_pos n (Z.pos d) Hn Hd). lia.
      * apply Z.div_le_lower_bound; lia.
    + apply Z.div_le_upper_bound; lia.
  - replace n with (- (- n)) by lia.
    rewrite Z.quot_opp_l by lia. rewrite Z.quot_div_nonneg by lia. split.
    + assert ((- n) / Z.pos d <= - lo); [|lia].
      apply Z.div_le_upper_bound; nia.
    + pose proof (Z.div_pos (- n) (Z.pos d) ltac:(lia) Hd).
      destruct (Z_le_gt_dec 0 hi); [lia|].
      assert (- hi <= (- n) / Z.pos d); [|lia].
      apply Z.div_le_lower_bound; nia.
Qed.


Section WithRuntime.
Context {RT : Runtime}.

(** *** The sanitiser *)

Lemma Qtrunc_inject (z : Z) : Qtrunc (inject_Z z) = z.
Proof. unfold Qtrunc, inject_Z. simpl. apply Z.quot_1_r. Qed.

Lemma Qle_bool_false (x y : Q) : Qle_bool x y = false -> (y < x)%Q.
Proof.
  intros H. apply Qnot_le_lt. intros Hle.
  apply Qle_bool_iff in Hle. congruence.
Qed.

(** What [_clip] returns, converted by [int]. *)
Lemma clip_int (v : json) (lo hi : Z) :
  lo <= hi ->
  exists n, int_of_num (_clip v lo hi) = inr n /\ lo <= n <= hi /\
            sanitised (Some v) lo hi n.
Proof.
  intros Hle. unfold _clip, sanitised.
  destruct (py_float v) as [e | [ | [|] | q]]; simpl.
  - exists lo. repeat split; try reflexivity; lia.
  - unfold py_max, py_min. simpl.
    destruct (lo <? hi) eqn:E; simpl.
    + exists hi. repeat split; try reflexivity; lia.
    + apply Z.ltb_ge in E. exists lo. repeat split; try reflexivity; lia.
  - exists lo. repeat split; try reflexivity; lia.
  - unfold py_max, py_min. simpl.
    destruct (lo <? hi) eqn:E; simpl.
    + exists hi. repeat split; try reflexivity; lia.
    + apply Z.ltb_ge in E. exists lo. repeat split; try reflexivity; lia.
  - unfold py_max, py_min, clamp. simpl.
    destruct (Qle_bool (inject_Z hi) q) eqn:Ehi; simpl.
    + apply Qle_bool_iff in Ehi.
      destruct (Qle_bool q (inject_Z lo)) eqn:Elo.
      * apply Qle_bool_iff in Elo.
        assert (hi <= lo).
        { rewrite Zle_Qle. now apply Qle_trans with q. }
        assert (lo = hi) by lia. subst hi.
        rewrite Z.ltb_irrefl. simpl. exists lo.
        rewrite Qtrunc_inject. repeat split; try reflexivity; lia.
      * destruct (lo <? hi) eqn:E; simpl.
        -- exists hi. rewrite Qtrunc_inject. repeat split; try reflexivity; lia.
        -- apply Z.ltb_ge in E. exists lo. rewrite Qtrunc_inject.
           repeat split; try reflexivity; lia.
    + apply Qle_bool_false in Ehi.
      destruct (Qle_bool q (inject_Z lo)) eqn:Elo; simpl.
      * exists lo. rewrite Qtrunc_inject. repeat split; try reflexivity; lia.
      * apply Qle_bool_false in Elo. exists (Qtrunc q).
        split; [reflexivity|]. split; [|reflexivity].
        apply Qtrunc_between; now apply Qlt_le_weak.
Qed.


Lemma py_float_zero : py_float (JInt 0) = inr (FFin (inject_Z 0)).
Proof. reflexivity. Qed.

Lemma clip_field_spec (k : text) (hi : Z) (d : dict) :
  0 <= hi ->
  exists n, clip_field k hi (JDict d) = inr (JDict (store d k (JInt n))) /\
            0 <= n <= hi /\ sanitised (lookup d k) 0 hi n.
Proof.
  intros Hhi. unfold clip_field. simpl.
  destruct (clip_int (get_default d k (JInt 0)) 0 hi Hhi) as (n & Hn & Hb & Hs).
  rewrite Hn. simpl. exists n. repeat split; try lia.
  unfold get_default in Hs. destruct (lookup d k) as [v|]; [exact Hs|].
  unfold sanitised in Hs. rewrite py_float_zero in Hs.
  unfold sanitised. rewrite Hs. reflexivity.
Qed.

Lemma clip_speech_spec (a b c : Z) (d : dict) :
  0 <= a -> 0 <= b -> 0 <= c ->
  exists d', clip_speech a b c (JDict d) = inr (JDict d') /\
             field_ok d d' (str "matter") a /\
             field_ok d d' (str "manner") b /\
             field_ok d d' (str "method") c.
Proof.
  intros Ha Hb Hc. unfold clip_speech.
  destruct (clip_field_spec (str "matter") a d Ha) as (n1 & E1 & B1 & S1).
  rewrite E1. simpl bind.
  destruct (clip_field_spec (str "manner") b (store d (str "matter") (JInt n1)) Hb)
    as (n2 & E2 & B2 & S2).
  rewrite E2. simpl bind.
  destruct (clip_field_spec (str "method") c
              (store (store d (str "matter") (JInt n1)) (str "manner") (JInt n2)) Hc)
    as (n3 & E3 & B3 & S3).
  rewrite E3. eexists. split; [reflexivity|].
  rewrite lookup_store_ne in S2 by reflexivity.
  rewrite !lookup_store_ne in S3 by reflexivity.
  split; [|split].
  - exists n1. rewrite !lookup_store_ne by reflexivity.
    rewrite lookup_store_eq. split; [reflexivity | split; assumption].
  - exists n2. rewrite lookup_store_ne by reflexivity.
    rewrite lookup_store_eq. split; [reflexivity | split; assumption].
  - exists n3. rewrite lookup_store_eq. split; [reflexivity | split; assumption].
Qed.


Lemma path_dict_cons (d : dict) (k : text) (ks : list text) :
  path (JDict d) (k :: ks) =
  match lookup d k with Some x => path x ks | None => None end.
Proof. reflexivity. Qed.

Lemma path_store_eq (d : dict) (k : text) (v : json) (ks : list text) :
  path (JDict (store d k v)) (k :: ks) = path v ks.
Proof. now rewrite path_dict_cons, lookup_store_eq. Qed.

Lemma path_store_ne (d : dict) (k k' : text) (v : json) (ks : list text) :
  text_eqb k k' = false ->
  path (JDict (store d k v)) (k' :: ks) = path (JDict d) (k' :: ks).
Proof. intros H. now rewrite !path_dict_cons, lookup_store_ne. Qed.

Lemma path_one (d : dict) (k : text) : path (JDict d) [k] = lookup d k.
Proof. rewrite path_dict_cons. now destruct (lookup d k). Qed.

(** The dict the sanitiser works on when it reads [key] with an empty dict
    for default: below it, the paths of the original. *)
Lemma child_dict (d : dict) (key : text) :
  dict_or_missing (lookup d key) = true ->
  exists c, get_default d key (JDict []) = JDict c /\
            forall k ks, path (JDict c) (k :: ks) = path (JDict d) (key :: k :: ks).
Proof.
  intros H. unfold get_default.
  destruct (lookup d key) as [[ | | | | | |c]|] eqn:E; try discriminate.
  - exists c. split; [reflexivity|]. intros k ks.
    now rewrite (path_dict_cons d), E.
  - exists []. split; [reflexivity|]. intros k ks.
    now rewrite (path_dict_cons d), E.
Qed.

Lemma clip_speech_at_spec (a b c : Z) (speech : text) (so : dict) :
  0 <= a -> 0 <= b -> 0 <= c ->
  dict_or_missing (lookup so speech) = true ->
  exists ds', clip_speech_at a b c speech (JDict so) =
                inr (JDict (store so speech (JDict ds'))) /\
    forall field hi,
      In (field, hi) [(str "matter", a); (str "manner", b); (str "method", c)] ->
      exists n, lookup ds' field = Some (JInt n) /\ 0 <= n <= hi /\
                sanitised (path (JDict so) [speech; field]) 0 hi n.
Proof.
  intros Ha Hb Hc Hd. unfold clip_speech_at. simpl py_get.
  destruct (child_dict so speech Hd) as (ds & -> & Hds). simpl bind.
  destruct (clip_speech_spec a b c ds Ha Hb Hc) as (ds' & E & F1 & F2 & F3).
  rewrite E. simpl bind. exists ds'. split; [reflexivity|].
  intros field hi [H | [H | [H | []]]]; injection H as <- <-;
    rewrite <- Hds, path_one; assumption.
Qed.

Lemma forallb_pointwise {A} (f g : A -> bool) (xs : list A) :
  (forall x, f x = g x) -> forallb f xs = forallb g xs.
Proof. intros H. induction xs as [|x xs IH]; simpl; [reflexivity|]. now rewrite H, IH. Qed.

Lemma forallb_cons_true {A} (f : A -> bool) (x : A) (xs : list A) :
  forallb f (x :: xs) = true -> f x = true /\ forallb f xs = true.
Proof. simpl. intros H. now apply andb_prop in H. Qed.

Lemma enforce_side_spec (side : text) (sc : dict) :
  dict_or_missing (lookup sc side) = true ->
  forallb (fun speech => dict_or_missing (path (JDict sc) [side; speech])) speeches = true ->
  exists so', enforce_side side (JDict sc) = inr (JDict (store sc side (JDict so'))) /\
    forall speech field, In speech speeches -> In field fields ->
      exists n, path (JDict so') [speech; field] = Some (JInt n) /\
                0 <= n <= cap speech field /\
                sanitised (path (JDict sc) [side; speech; field]) 0 (cap speech field) n.
Proof.
  intros Hside Hsp. unfold enforce_side. simpl py_get.
  destruct (child_dict sc side Hside) as (so & -> & Hso). simpl bind.
  unfold speeches, speakers in Hsp. simpl app in Hsp.
  apply forallb_cons_true in Hsp as [H1 Hsp].
  apply forallb_cons_true in Hsp as [H2 Hsp].
  apply forallb_cons_true in Hsp as [H3 Hsp].
  apply forallb_cons_true in Hsp as [H4 _].
  rewrite <- Hso, path_one in H1, H2, H3, H4.
  unfold speakers. cbn [for_each].
  destruct (clip_speech_at_spec 40 30 30 (str "speaker1") so) as (d1 & E1 & F1);
    try lia; try assumption.
  rewrite E1. simpl bind.
  destruct (clip_speech_at_spec 40 30 30 (str "speaker2")
              (store so (str "speaker1") (JDict d1))) as (d2 & E2 & F2);
    try lia; [rewrite lookup_store_ne by reflexivity; assumption|].
  rewrite E2. simpl bind.
  destruct (clip_speech_at_spec 40 30 30 (str "speaker3")
              (store (store so (str "speaker1") (JDict d1)) (str "speaker2") (JDict d2)))
    as (d3 & E3 & F3);
    try lia; [rewrite !lookup_store_ne by reflexivity; assumption|].
  rewrite E3. simpl bind.
  destruct (clip_speech_at_spec 20 15 15 (str "reply")
              (store (store (store so (str "speaker1") (JDict d1))
                        (str "speaker2") (JDict d2)) (str "speaker3") (JDict d3)))
    as (d4 & E4 & F4);
    try lia; [rewrite !lookup_store_ne by reflexivity; assumption|].
  rewrite E4. simpl bind. eexists. split; [reflexivity|].
  intros speech field Hs Hf.
  assert (Hfield : forall hi, hi = cap speech field ->
            In (field, hi) [(str "matter", if text_eqb speech (str "reply") then 20 else 40);
                            (str "manner", if text_eqb speech (str "reply") then 15 else 30);
                            (str "method", if text_eqb speech (str "reply") then 15 else 30)]).
  { intros hi ->. unfold cap. destruct Hf as [<- | [<- | [<- | []]]]; simpl; auto. }
  destruct Hs as [<- | [<- | [<- | [<- | []]]]].
  - destruct (F1 field _ (Hfield _ eq_refl)) as (n & L & B & S).
    exists n. rewrite !path_store_ne by reflexivity.
    rewrite path_store_eq, path_one. rewrite <- Hso. auto.
  - destruct (F2 field _ (Hfield _ eq_refl)) as (n & L & B & S).
    exists n. rewrite !path_store_ne by reflexivity.
    rewrite path_store_eq, path_one.
    rewrite path_store_ne in S by reflexivity. rewrite <- Hso. auto.
  - destruct (F3 field _ (Hfield _ eq_refl)) as (n & L & B & S).
    exists n. rewrite !path_store_ne by reflexivity.
    rewrite path_store_eq, path_one.
    rewrite !path_store_ne in S by reflexivity. rewrite <- Hso. auto.
  - destruct (F4 field _ (Hfield _ eq_refl)) as (n & L & B & S).
    exists n. rewrite path_store_eq, path_one.
    rewrite !path_store_ne in S by reflexivity. rewrite <- Hso. auto.
Qed.


(** The sanitiser on a response of the expected shape: it returns, and
    every score of its result is sanitised from the score it read. *)
Lemma enforce_ranges_spec (result : json) :
  score_shape result = true ->
  exists result',
    enforce_ranges result = inr result' /\
    (forall side speech field,
        In side sides -> In speech speeches -> In field fields ->
        exists n,
          score_field result' side speech field = Some (JInt n) /\
          0 <= n <= cap speech field /\
          sanitised (score_field result side speech field) 0 (cap speech field) n).
Proof.
  destruct result as [ | | | | | |d]; try discriminate.
  unfold score_shape. intros H.
  apply andb_prop in H as [Hsc H].
  apply forallb_cons_true in H as [Ha H].
  apply forallb_cons_true in H as [Hn _].
  apply andb_prop in Ha as [Ha Hsa]. apply andb_prop in Hn as [Hn Hsn].
  rewrite path_one in Hsc.
  destruct (child_dict d (str "scores") Hsc) as (sc & Esc & Hpath).
  rewrite <- Hpath, path_one in Ha, Hn.
  assert (Hsa' : forallb (fun speech =>
                   dict_or_missing (path (JDict sc) [str "affirmative"; speech]))
                   speeches = true).
  { erewrite forallb_pointwise; [exact Hsa|]. intros speech. cbv beta. now rewrite Hpath. }
  assert (Hsn' : forallb (fun speech =>
                   dict_or_missing (path (JDict sc) [str "negative"; speech]))
                   speeches = true).
  { erewrite forallb_pointwise; [exact Hsn|]. intros speech. cbv beta. now rewrite Hpath. }
  destruct (enforce_side_spec (str "affirmative") sc Ha Hsa') as (soa & Ea & Fa).
  destruct (enforce_side_spec (str "negative")
              (store sc (str "affirmative") (JDict soa))) as (son & En & Fn).
  { rewrite lookup_store_ne by reflexivity. exact Hn. }
  { erewrite forallb_pointwise; [exact Hsn'|]. intros speech. cbv beta.
    now rewrite path_store_ne by reflexivity. }
  unfold enforce_ranges. simpl py_get. rewrite Esc. simpl bind.
  unfold sides. cbn [for_each]. rewrite Ea. simpl bind. rewrite En. simpl bind.
  eexists. split; [reflexivity|].
  intros side speech field Hside Hs Hf. unfold score_field.
  rewrite path_store_eq.
  destruct Hside as [<- | [<- | []]].
  - destruct (Fa speech field Hs Hf) as (n & P & B & S).
    exists n. rewrite path_store_ne by reflexivity. rewrite path_store_eq.
    rewrite <- Hpath. auto.
  - destruct (Fn speech field Hs Hf) as (n & P & B & S).
    exists n. rewrite path_store_eq.
    rewrite path_store_ne in S by reflexivity. rewrite <- Hpath. auto.
Qed.

(** C2: on a response whose [scores], sides and speeches are objects or
    missing, the sanitiser returns, and every one of the 24 score fields of
    its result is an integer within the bounds of the field: the lower
    bound 0 when the field was missing or its value does not coerce to a
    number, the clamped value otherwise.  No field value makes it fail, and
    a matter of 999 becomes 40. *)
Theorem C2_scores_sanitised_within_bounds (result : json) :
  score_shape result = true ->
  exists result',
    enforce_ranges result = inr result' /\
    (forall side speech field,
        In side sides -> In speech speeches -> In field fields ->
        exists n,
          score_field result' side speech field = Some (JInt n) /\
          0 <= n <= cap speech field /\
          sanitised (score_field result side speech field) 0 (cap speech field) n) /\
    int_of_num (_clip (JInt 999) 0 40) = inr 40.
Proof.
  intros Hshape.
  destruct (enforce_ranges_spec result Hshape) as (result' & E & F).
  exists result'. split; [exact E|]. split; [exact F|].
  unfold _clip, py_float, float_of_Z. reflexivity.
Qed.

(** *** The rebalancer *)

Lemma bind_inr {A B} (m : M A) (k : A -> M B) (b : B) :
  bind m k = inr b -> exists a, m = inr a /\ k a = inr b.
Proof. destruct m as [e | a]; simpl; [discriminate | eauto]. Qed.

Lemma py_get_inr (v : json) (k : text) (dflt x : json) :
  py_get v k dflt = inr x -> exists d, v = JDict d /\ x = get_default d k dflt.
Proof. destruct v; simpl; try discriminate. intros [= <-]. eauto. Qed.

Lemma py_item_inr (v : json) (k : text) (x : json) :
  py_item v k = inr x -> exists d, v = JDict d /\ lookup d k = Some x.
Proof.
  destruct v as [ | | | | | |d]; simpl; try discriminate.
  destruct (lookup d k) eqn:E; [|discriminate]. intros [= <-]. eauto.
Qed.

Lemma py_setitem_inr (v : json) (k : text) (x r : json) :
  py_setitem v k x = inr r -> exists d, v = JDict d /\ r = JDict (store d k x).
Proof. destruct v; simpl; try discriminate. intros [= <-]. eauto. Qed.

(** The list [_assign_speech_slots] sets the times of has four entries. *)
Lemma padded_four (l : list json) :
  exists m0 m1 m2 m3,
    firstn 4 (l ++ repeat pad_move (4 - length l)) = [m0; m1; m2; m3].
Proof.
  destruct l as [|a [|b [|c [|d l]]]]; simpl; eauto.
Qed.

Lemma set_times_cons_inr (s : text) (ss : list text) (m : json) (ms l' : list json) :
  set_times (s :: ss) (m :: ms) = inr l' ->
  exists d ms', m = JDict d /\ set_times ss ms = inr ms' /\
                l' = JDict (store d (str "time") (JStr s)) :: ms'.
Proof.
  cbn [set_times]. intros H.
  apply bind_inr in H as (m' & Hm & H). apply py_setitem_inr in Hm as (d & -> & ->).
  apply bind_inr in H as (ms' & Hms & H). injection H as <-. eauto.
Qed.

(** One step of the inversion of [set_times] on a hypothesis [H]. *)
Ltac set_times_step H d :=
  let ms := fresh "ms" in
  apply set_times_cons_inr in H as (d & ms & -> & H & ->).

Lemma set_times_four_inr (m0 m1 m2 m3 : json) (l' : list json) :
  set_times SPEECH_SLOTS [m0; m1; m2; m3] = inr l' ->
  exists d0 d1 d2 d3,
    m0 = JDict d0 /\ m1 = JDict d1 /\ m2 = JDict d2 /\ m3 = JDict d3 /\
    l' = [JDict (store d0 (str "time") (JStr (str "First Speech")));
          JDict (store d1 (str "time") (JStr (str "Second Speech")));
          JDict (store d2 (str "time") (JStr (str "Third Speech")));
          JDict (store d3 (str "time") (JStr (str "Reply")))].
Proof.
  unfold SPEECH_SLOTS. intros H.
  set_times_step H d0. set_times_step H d1.
  set_times_step H d2. set_times_step H d3.
  injection H as <-. exists d0, d1, d2, d3. repeat split; reflexivity.
Qed.

Lemma assign_slots_inr (moves : json) (l' : list json) :
  _assign_speech_slots moves = inr l' ->
  exists l d0 d1 d2 d3,
    moves = JList l /\
    firstn 4 (l ++ repeat pad_move (4 - length l)) = [JDict d0; JDict d1; JDict d2; JDict d3] /\
    l' = [JDict (store d0 (str "time") (JStr (str "First Speech")));
          JDict (store d1 (str "time") (JStr (str "Second Speech")));
          JDict (store d2 (str "time") (JStr (str "Third Speech")));
          JDict (store d3 (str "time") (JStr (str "Reply")))].
Proof.
  destruct moves as [ | | | |s|l|d]; unfold _assign_speech_slots, raise; try discriminate.
  - destruct (length s <? 4)%nat; discriminate.
  - destruct (padded_four l) as (m0 & m1 & m2 & m3 & E). rewrite E.
    intros H. apply set_times_four_inr in H as (d0 & d1 & d2 & d3 & -> & -> & -> & -> & ->).
    exists l, d0, d1, d2, d3. auto.
  - destruct (length d <? 4)%nat; discriminate.
Qed.


Lemma map_m_cons_inr {A B} (f : A -> M B) (x : A) (xs : list A) (ys : list B) :
  map_m f (x :: xs) = inr ys ->
  exists y ys', f x = inr y /\ map_m f xs = inr ys' /\ ys = y :: ys'.
Proof.
  cbn [map_m]. intros H.
  apply bind_inr in H as (y & Hy & H). apply bind_inr in H as (ys' & Hys & H).
  injection H as <-. eauto.
Qed.

(** One step of the inversion of [force_distribution] on a hypothesis [H]:
    the move written for a slot keeps the slot and the label, whatever the
    explanation [e]. *)
Ltac forced_move_step H e :=
  let y := fresh "y" in
  let ys := fresh "ys" in
  let Hy := fresh "Hy" in
  apply map_m_cons_inr in H as (y & ys & Hy & H & ->);
  apply bind_inr in Hy as (? & _ & Hy);
  apply bind_inr in Hy as (e & _ & Hy); injection Hy as <-.

Lemma force_distribution_inr (m0 m1 m2 m3 : json) (win : bool) (new : list json) :
  force_distribution [m0; m1; m2; m3] win = inr new ->
  exists e0 e1 e2 e3, new = canonical_moves win e0 e1 e2 e3.
Proof.
  unfold force_distribution, enumerate, canonical_moves, SPEECH_SLOTS.
  destruct win; unfold winning_labels, losing_labels;
    cbn [length seq combine]; intros H;
    forced_move_step H e0; forced_move_step H e1;
    forced_move_step H e2; forced_move_step H e3;
    injection H as <-; exists e0, e1, e2, e3; reflexivity.
Qed.

Lemma canonical_moves_assign (win : bool) (e0 e1 e2 e3 : text) :
  _assign_speech_slots (JList (canonical_moves win e0 e1 e2 e3)) =
  inr (canonical_moves win e0 e1 e2 e3).
Proof. destruct win; reflexivity. Qed.

Lemma canonical_moves_length (win : bool) (e0 e1 e2 e3 : text) :
  length (canonical_moves win e0 e1 e2 e3) = 4%nat.
Proof. now destruct win. Qed.

Lemma canonical_moves_labels (win : bool) (e0 e1 e2 e3 : text) :
  labels_of (canonical_moves win e0 e1 e2 e3) =
  texts (if win then winning_labels else losing_labels).
Proof. destruct win; reflexivity. Qed.

Lemma canonical_moves_times (win : bool) (e0 e1 e2 e3 : text) :
  times_of (canonical_moves win e0 e1 e2 e3) = texts SPEECH_SLOTS.
Proof. destruct win; reflexivity. Qed.

(** What a successful turn of the rebalancer's loop did. *)
Lemma rebalance_side_inr (winner : json) (side : text) (result result' : json) :
  rebalance_side winner side result = inr result' ->
  exists d a s e0 e1 e2 e3,
    result = JDict d /\
    lookup d (str "analysis") = Some (JDict a) /\
    lookup a side = Some (JDict s) /\
    result' =
      JDict (store d (str "analysis")
               (JDict (store a side
                         (JDict (store s (str "notable_moves")
                                   (JList (canonical_moves (is_winner winner side)
                                             e0 e1 e2 e3))))))).
Proof.
  unfold rebalance_side. intros H.
  apply bind_inr in H as (a0 & Ha0 & H).
  apply py_get_inr in Ha0 as (d & -> & _).
  apply bind_inr in H as (s0 & _ & H).
  apply bind_inr in H as (mv & _ & H).
  apply bind_inr in H as (l4 & Hl4 & H).
  apply assign_slots_inr in Hl4 as (l & d0 & d1 & d2 & d3 & _ & _ & ->).
  apply bind_inr in H as (new & Hnew & H).
  apply force_distribution_inr in Hnew as (e0 & e1 & e2 & e3 & ->).
  rewrite canonical_moves_assign in H.
  apply bind_inr in H as (new' & [= <-] & H).
  apply bind_inr in H as (a1 & Ha1 & H).
  apply py_item_inr in Ha1 as (d' & [= <-] & Ha1).
  apply bind_inr in H as (s1 & Hs1 & H).
  apply py_item_inr in Hs1 as (a & -> & Hs1).
  apply bind_inr in H as (s2 & Hs2 & H).
  apply py_setitem_inr in Hs2 as (s & -> & ->).
  simpl in H. injection H as <-.
  exists d, a, s, e0, e1, e2, e3. auto.
Qed.


Lemma has_explanation_inv (m : json) :
  has_explanation m = true ->
  exists dm v, m = JDict dm /\ lookup dm (str "explanation") = Some v /\
               forall label, exists e, _expand_move label v = inr e.
Proof.
  unfold has_explanation. destruct m as [ | | | | | |dm]; try (simpl; discriminate).
  rewrite path_one. destruct (lookup dm (str "explanation")) as [v|] eqn:E; [|discriminate].
  intros H. exists dm, v. split; [reflexivity|]. split; [exact E|].
  intros label. unfold _expand_move, py_or.
  destruct v as [ |b|z|f|s|l|d]; try (apply negb_true_iff in H; rewrite H; eauto).
  destruct (truthy (JStr s)); eauto.
Qed.

Lemma has_explanation_store_time (dm : dict) (x : json) :
  has_explanation (JDict (store dm (str "time") x)) = has_explanation (JDict dm).
Proof. unfold has_explanation. now rewrite path_store_ne by reflexivity. Qed.

Lemma padded_four_explained (l : list json) :
  forallb has_explanation l = true ->
  exists d0 d1 d2 d3,
    firstn 4 (l ++ repeat pad_move (4 - length l)) =
      [JDict d0; JDict d1; JDict d2; JDict d3] /\
    has_explanation (JDict d0) = true /\ has_explanation (JDict d1) = true /\
    has_explanation (JDict d2) = true /\ has_explanation (JDict d3) = true.
Proof.
  intros H.
  assert (Hall : forallb has_explanation
                   (firstn 4 (l ++ repeat pad_move (4 - length l))) = true).
  { destruct l as [|a [|b [|c [|d l]]]]; simpl in *;
      repeat (apply andb_prop in H as [? H]);
      repeat (apply andb_true_intro; split); auto. }
  destruct (padded_four l) as (m0 & m1 & m2 & m3 & E). rewrite E in *.
  apply forallb_cons_true in Hall as [H0 Hall].
  apply forallb_cons_true in Hall as [H1 Hall].
  apply forallb_cons_true in Hall as [H2 Hall].
  apply forallb_cons_true in Hall as [H3 _].
  destruct (has_explanation_inv _ H0) as (d0 & ? & -> & _).
  destruct (has_explanation_inv _ H1) as (d1 & ? & -> & _).
  destruct (has_explanation_inv _ H2) as (d2 & ? & -> & _).
  destruct (has_explanation_inv _ H3) as (d3 & ? & -> & _).
  exists d0, d1, d2, d3. auto.
Qed.

Lemma assign_slots_total (l : list json) :
  forallb has_explanation l = true ->
  exists m0 m1 m2 m3,
    _assign_speech_slots (JList l) = inr [m0; m1; m2; m3] /\
    has_explanation m0 = true /\ has_explanation m1 = true /\
    has_explanation m2 = true /\ has_explanation m3 = true.
Proof.
  intros H. destruct (padded_four_explained l H) as (d0 & d1 & d2 & d3 & E & H0 & H1 & H2 & H3).
  unfold _assign_speech_slots. rewrite E.
  do 4 eexists. split; [reflexivity|].
  now rewrite !has_explanation_store_time.
Qed.

Lemma force_distribution_total (m0 m1 m2 m3 : json) (win : bool) :
  has_explanation m0 = true -> has_explanation m1 = true ->
  has_explanation m2 = true -> has_explanation m3 = true ->
  exists e0 e1 e2 e3,
    force_distribution [m0; m1; m2; m3] win = inr (canonical_moves win e0 e1 e2 e3).
Proof.
  intros H0 H1 H2 H3.
  destruct (has_explanation_inv _ H0) as (d0 & v0 & -> & L0 & X0).
  destruct (has_explanation_inv _ H1) as (d1 & v1 & -> & L1 & X1).
  destruct (has_explanation_inv _ H2) as (d2 & v2 & -> & L2 & X2).
  destruct (has_explanation_inv _ H3) as (d3 & v3 & -> & L3 & X3).
  unfold force_distribution, enumerate, canonical_moves, SPEECH_SLOTS.
  destruct win; unfold winning_labels, losing_labels;
    cbn [length seq combine map_m nth_error nth py_item];
    rewrite L0, L1, L2, L3; cbn [bind ret].
  - destruct (X0 (str "brilliant")) as (e0 & ->).
    destruct (X1 (str "great")) as (e1 & ->).
    destruct (X2 (str "good")) as (e2 & ->).
    destruct (X3 (str "inaccuracy")) as (e3 & ->).
    exists e0, e1, e2, e3. reflexivity.
  - destruct (X0 (str "inaccuracy")) as (e0 & ->).
    destruct (X1 (str "blunder")) as (e1 & ->).
    destruct (X2 (str "good")) as (e2 & ->).
    destruct (X3 (str "great")) as (e3 & ->).
    exists e0, e1, e2, e3. reflexivity.
Qed.

Lemma rebalance_side_total (winner : json) (side : text) (d a s : dict) (l : list json) :
  lookup d (str "analysis") = Some (JDict a) ->
  lookup a side = Some (JDict s) ->
  get_default s (str "notable_moves") (JList []) = JList l ->
  forallb has_explanation l = true ->
  exists e0 e1 e2 e3,
    rebalance_side winner side (JDict d) =
    inr (JDict (store d (str "analysis")
                  (JDict (store a side
                            (JDict (store s (str "notable_moves")
                                      (JList (canonical_moves (is_winner winner side)
                                                e0 e1 e2 e3)))))))).
Proof.
  intros Ha Hs Hl Hall. unfold rebalance_side.
  cbn [py_get bind ret]. unfold get_default at 1. rewrite Ha.
  cbn [py_get bind ret]. unfold get_default at 1. rewrite Hs.
  cbn [py_get bind ret]. rewrite Hl.
  destruct (assign_slots_total l Hall) as (m0 & m1 & m2 & m3 & -> & H0 & H1 & H2 & H3).
  cbn [bind].
  destruct (force_distribution_total m0 m1 m2 m3 (is_winner winner side) H0 H1 H2 H3)
    as (e0 & e1 & e2 & e3 & ->).
  cbn [bind]. rewrite canonical_moves_assign.
  cbn [bind py_item]. rewrite Ha. cbn [bind ret py_item]. rewrite Hs.
  exists e0, e1, e2, e3. reflexivity.
Qed.


Lemma notable_moves_stored (d a s : dict) (side : text) (l : list json) :
  notable_moves_of
    (JDict (store d (str "analysis")
              (JDict (store a side (JDict (store s (str "notable_moves") (JList l)))))))
    side = Some l.
Proof.
  unfold notable_moves_of. now rewrite !path_store_eq.
Qed.

Lemma store_store (d : dict) (k : text) (v v' : json) :
  store (store d k v) k v' = store d k v'.
Proof.
  induction d as [|[k0 v0] d IH]; simpl.
  - now rewrite text_eqb_refl.
  - destruct (text_eqb k0 k) eqn:E; simpl; rewrite E;
      [reflexivity | now rewrite IH].
Qed.

(** A run of the rebalancer that returns has rewritten both sides. *)
Lemma rebalance_inr (result winner result' : json) :
  rebalance_notable_moves result winner = inr result' ->
  exists d x ea0 ea1 ea2 ea3 en0 en1 en2 en3,
    result = JDict d /\
    result' = JDict (store d (str "analysis") x) /\
    notable_moves_of result' (str "affirmative") =
      Some (canonical_moves (is_winner winner (str "affirmative")) ea0 ea1 ea2 ea3) /\
    notable_moves_of result' (str "negative") =
      Some (canonical_moves (is_winner winner (str "negative")) en0 en1 en2 en3).
Proof.
  unfold rebalance_notable_moves, sides. cbn [for_each]. intros H.
  apply bind_inr in H as (r1 & H1 & H).
  apply bind_inr in H as (r2 & H2 & H). injection H as <-.
  apply rebalance_side_inr in H1 as (d & a & s & ea0 & ea1 & ea2 & ea3 & -> & Ha & Hs & ->).
  apply rebalance_side_inr in H2 as (d' & a' & s' & en0 & en1 & en2 & en3 & Hd & Ha' & Hs' & ->).
  injection Hd as <-. rewrite lookup_store_eq in Ha'. injection Ha' as <-.
  exists d. eexists. exists ea0, ea1, ea2, ea3, en0, en1, en2, en3.
  split; [reflexivity|]. split.
  - now rewrite store_store.
  - split.
    + unfold notable_moves_of. rewrite !path_store_eq.
      rewrite path_store_ne by reflexivity. now rewrite !path_store_eq.
    + apply notable_moves_stored.
Qed.


Lemma path_two_inv (v : json) (k1 k2 : text) (y : json) :
  path v [k1; k2] = Some y ->
  exists d a, v = JDict d /\ lookup d k1 = Some (JDict a) /\ lookup a k2 = Some y.
Proof.
  destruct v as [ | | | | | |d]; try (simpl; discriminate).
  rewrite path_dict_cons. destruct (lookup d k1) as [[ | | | | | |a]|] eqn:E1;
    try (simpl; discriminate).
  rewrite path_one. intros E2. eauto.
Qed.

Lemma side_moves_inv (result : json) (side : text) (l : list json) :
  side_moves result side l ->
  exists d a s, result = JDict d /\ lookup d (str "analysis") = Some (JDict a) /\
                lookup a side = Some (JDict s) /\
                get_default s (str "notable_moves") (JList []) = JList l.
Proof.
  intros (s & P & G). apply path_two_inv in P as (d & a & -> & La & Ls).
  exists d, a, s. auto.
Qed.

Lemma canonical_moves_explained (win : bool) (e0 e1 e2 e3 : text) :
  forallb has_explanation (canonical_moves win e0 e1 e2 e3) = true.
Proof. destruct win; reflexivity. Qed.

Lemma notable_moves_side_moves (result : json) (side : text) (l : list json) :
  notable_moves_of result side = Some l -> side_moves result side l.
Proof.
  unfold notable_moves_of, side_moves.
  destruct result as [ | | | | | |d]; try (simpl; discriminate).
  rewrite !path_dict_cons.
  destruct (lookup d (str "analysis")) as [[ | | | | | |a]|]; try (simpl; discriminate).
  rewrite !path_dict_cons.
  destruct (lookup a side) as [[ | | | | | |s]|]; try (simpl; discriminate).
  rewrite path_one.
  destruct (lookup s (str "notable_moves")) as [[ | | | | |l'| ]|] eqn:E; try discriminate.
  intros [= ->]. exists s. split; [reflexivity|]. unfold get_default. now rewrite E.
Qed.

(** The rebalancer returns on every verdict whose two sides hold lists of
    moves with usable explanations, whatever the length of the lists. *)
Lemma rebalance_total (result winner : json) (la ln : list json) :
  side_moves result (str "affirmative") la ->
  side_moves result (str "negative") ln ->
  forallb has_explanation la = true ->
  forallb has_explanation ln = true ->
  exists result', rebalance_notable_moves result winner = inr result'.
Proof.
  intros Ha Hn Ea En.
  apply side_moves_inv in Ha as (d & a & sa & -> & Ld & La & Ga).
  apply side_moves_inv in Hn as (d' & a' & sn & Hd & Ld' & Ln & Gn).
  injection Hd as <-. rewrite Ld in Ld'. injection Ld' as <-.
  unfold rebalance_notable_moves, sides. cbn [for_each].
  destruct (rebalance_side_total winner (str "affirmative") d a sa la Ld La Ga Ea)
    as (e0 & e1 & e2 & e3 & ->).
  cbn [bind].
  edestruct (rebalance_side_total winner (str "negative")) as (f0 & f1 & f2 & f3 & ->).
  - apply lookup_store_eq.
  - rewrite lookup_store_ne by reflexivity. exact Ln.
  - exact Gn.
  - exact En.
  - cbn [bind]. eauto.
Qed.

Lemma eq_str_true (v : json) (s : text) : eq_str v s = true <-> v = JStr s.
Proof.
  destruct v; simpl; split; try discriminate.
  - intros H. apply text_eqb_eq in H. now subst.
  - intros [= ->]. apply text_eqb_refl.
Qed.

(** C1: whenever the rebalancer returns, each side has exactly four moves
    and, if the finalized winner is AFFIRMATIVE or NEGATIVE, the winning
    side's labels hold strictly more positive (brilliant, great) than
    negative (inaccuracy, blunder) labels and the losing side's strictly
    more negative than positive ones.  It returns for every verdict whose
    two sides hold lists of moves with explanations, whatever the length of
    the lists (empty, shorter or longer than four). *)
Theorem C1_winner_and_loser_label_majorities (result winner : json) :
  (forall result',
      rebalance_notable_moves result winner = inr result' ->
      exists ma mn,
        notable_moves_of result' (str "affirmative") = Some ma /\
        notable_moves_of result' (str "negative") = Some mn /\
        length ma = 4%nat /\ length mn = 4%nat /\
        (winner = JStr (str "AFFIRMATIVE") ->
           positive_majority ma /\ negative_majority mn) /\
        (winner = JStr (str "NEGATIVE") ->
           positive_majority mn /\ negative_majority ma)) /\
  (forall la ln,
      side_moves result (str "affirmative") la ->
      side_moves result (str "negative") ln ->
      forallb has_explanation la = true ->
      forallb has_explanation ln = true ->
      exists result', rebalance_notable_moves result winner = inr result').
Proof.
  split; [|apply rebalance_total].
  intros result' E.
  destruct (rebalance_inr _ _ _ E)
    as (d & x & ea0 & ea1 & ea2 & ea3 & en0 & en1 & en2 & en3 & _ & _ & Ma & Mn).
  do 2 eexists. split; [exact Ma|]. split; [exact Mn|].
  split; [apply canonical_moves_length|]. split; [apply canonical_moves_length|].
  unfold positive_majority, negative_majority.
  rewrite !canonical_moves_labels.
  split; intros ->; split; vm_compute; lia.
Qed.

(** C9: on the verdict of a first run of the rebalancer, a second run with
    the same winner returns as well, and on each side the labels it leaves
    are those the first run left. *)
Theorem C9_rebalancing_twice_keeps_labels (result winner r1 : json) :
  rebalance_notable_moves result winner = inr r1 ->
  exists r2,
    rebalance_notable_moves r1 winner = inr r2 /\
    forall side, In side sides ->
      exists m1 m2,
        notable_moves_of r1 side = Some m1 /\
        notable_moves_of r2 side = Some m2 /\
        labels_of m2 = labels_of m1.
Proof.
  intros E1.
  destruct (rebalance_inr _ _ _ E1)
    as (d & x & ea0 & ea1 & ea2 & ea3 & en0 & en1 & en2 & en3 & _ & _ & Ma & Mn).
  destruct (rebalance_total r1 winner _ _
              (notable_moves_side_moves _ _ _ Ma) (notable_moves_side_moves _ _ _ Mn)
              (canonical_moves_explained _ _ _ _ _) (canonical_moves_explained _ _ _ _ _))
    as (r2 & E2).
  exists r2. split; [exact E2|].
  destruct (rebalance_inr _ _ _ E2)
    as (d' & x' & fa0 & fa1 & fa2 & fa3 & fn0 & fn1 & fn2 & fn3 & _ & _ & Ma' & Mn').
  intros side [<- | [<- | []]]; do 2 eexists;
    (split; [eassumption|]); (split; [eassumption|]);
    now rewrite !canonical_moves_labels.
Qed.

Lemma is_winner_affirmative (winner : json) :
  is_winner winner (str "affirmative") = true <-> winner = JStr (str "AFFIRMATIVE").
Proof.
  unfold is_winner.
  change (text_eqb (str "affirmative") (str "affirmative")) with true.
  change (text_eqb (str "affirmative") (str "negative")) with false.
  rewrite andb_true_r, andb_false_r, orb_false_r. split.
  - intros H. apply andb_prop in H as [_ H]. now apply eq_str_true.
  - intros ->. reflexivity.
Qed.

Lemma is_winner_negative (winner : json) :
  is_winner winner (str "negative") = true <-> winner = JStr (str "NEGATIVE").
Proof.
  unfold is_winner.
  change (text_eqb (str "negative") (str "affirmative")) with false.
  change (text_eqb (str "negative") (str "negative")) with true.
  rewrite andb_true_r, andb_false_r, orb_false_l. split.
  - intros H. apply andb_prop in H as [_ H]. now apply eq_str_true.
  - intros ->. reflexivity.
Qed.

Lemma template_by_flag (win : bool) :
  (texts (if win then winning_labels else losing_labels) = texts winning_labels
     <-> win = true) /\
  (texts (if win then winning_labels else losing_labels) = texts losing_labels
     <-> win = false).
Proof. destruct win; repeat split; try reflexivity; discriminate. Qed.

(** C10: after the rebalancer, a winner TIE leaves both sides the losing
    template; the affirmative side has the winning template exactly when
    the winner is AFFIRMATIVE and the negative side exactly when it is
    NEGATIVE, and each side has the losing template otherwise. *)
Theorem C10_tie_gives_both_sides_the_losing_template (result winner result' : json) :
  rebalance_notable_moves result winner = inr result' ->
  exists ma mn,
    notable_moves_of result' (str "affirmative") = Some ma /\
    notable_moves_of result' (str "negative") = Some mn /\
    (winner = JStr (str "TIE") ->
       labels_of ma = texts losing_labels /\ labels_of mn = texts losing_labels) /\
    (labels_of ma = texts winning_labels <-> winner = JStr (str "AFFIRMATIVE")) /\
    (labels_of mn = texts winning_labels <-> winner = JStr (str "NEGATIVE")) /\
    (labels_of ma = texts losing_labels <-> winner <> JStr (str "AFFIRMATIVE")) /\
    (labels_of mn = texts losing_labels <-> winner <> JStr (str "NEGATIVE")).
Proof.
  intros E.
  destruct (rebalance_inr _ _ _ E)
    as (d & x & ea0 & ea1 & ea2 & ea3 & en0 & en1 & en2 & en3 & _ & _ & Ma & Mn).
  do 2 eexists. split; [exact Ma|]. split; [exact Mn|].
  rewrite !canonical_moves_labels.
  pose proof (is_winner_affirmative winner) as Wa.
  pose proof (is_winner_negative winner) as Wn.
  destruct (template_by_flag (is_winner winner (str "affirmative"))) as [Ta Ta'].
  destruct (template_by_flag (is_winner winner (str "negative"))) as [Tn Tn'].
  rewrite Ta, Ta', Tn, Tn', Wa, Wn.
  split; [intros ->; split; reflexivity|].
  split; [reflexivity|]. split; [reflexivity|].
  rewrite <- Wa, <- Wn. split; symmetry; apply not_true_iff_false.
Qed.


(** *** Totals, tie-break and final statement *)

(** The scaled score is the tenth nearest to [raw / 3.5], which is never
    half-way between two tenths; a total of at most 350 scales to at most
    100. *)
Lemma scale_to_100_nearest (raw_total : Z) :
  -3 <= 7 * scale_to_100 raw_total - 20 * raw_total <= 3.
Proof.
  unfold scale_to_100, round_half_even.
  pose proof (Z.div_mod (raw_total * 20) 7 ltac:(lia)) as D.
  pose proof (Z.mod_pos_bound (raw_total * 20) 7 ltac:(lia)) as B.
  destruct (2 * ((raw_total * 20) mod 7) <? 7) eqn:L;
    [apply Z.ltb_lt in L; lia | apply Z.ltb_ge in L].
  destruct (7 <? 2 * ((raw_total * 20) mod 7)) eqn:G;
    [apply Z.ltb_lt in G; lia | apply Z.ltb_ge in G; lia].
Qed.

Lemma scale_to_100_range (raw_total : Z) :
  0 <= raw_total <= 350 -> 0 <= scale_to_100 raw_total <= 1000.
Proof.
  intros H. pose proof (scale_to_100_nearest raw_total). lia.
Qed.

Lemma margin_label_spec (diff : Z) : margin_of_gap (Z.abs diff) (margin_label diff).
Proof.
  unfold margin_of_gap, margin_label.
  destruct (Z.abs diff <=? 2) eqn:E2; [apply Z.leb_le in E2 | apply Z.leb_gt in E2].
  { repeat split; intros; try reflexivity; lia. }
  destruct (Z.abs diff <=? 5) eqn:E5; [apply Z.leb_le in E5 | apply Z.leb_gt in E5].
  { repeat split; intros; try reflexivity; lia. }
  destruct (Z.abs diff <=? 10) eqn:E10; [apply Z.leb_le in E10 | apply Z.leb_gt in E10].
  { repeat split; intros; try reflexivity; lia. }
  destruct (Z.abs diff <=? 20) eqn:E20; [apply Z.leb_le in E20 | apply Z.leb_gt in E20].
  { repeat split; intros; try reflexivity; lia. }
  repeat split; intros; try reflexivity; lia.
Qed.

(** *** The low-content gate *)




Lemma lstrip_idempotent (t : text) : lstrip (lstrip t) = lstrip t.
Proof.
  induction t as [|c t IH]; [reflexivity|]. simpl.
  destruct (isspace c) eqn:E; [exact IH|]. simpl. now rewrite E.
Qed.






Lemma low_content_verdict_value :
  exists v,
    low_content_verdict = inr v /\
    winner_of v = Some (JStr (str "TIE")) /\
    (forall side speech field,
        In side sides -> In speech speeches -> In field fields ->
        score_field v side speech field = Some (JInt 0)) /\
    path v [str "totals"] = Some (totals_dict (0, 0)) /\
    path v [str "final_statement"] =
      Some (JStr (str "The round is a TIE. Final (/100): AFF 0.0 - NEG 0.0.")) /\
    (forall side, In side sides -> notable_moves_of v side = Some []).
Proof.
  eexists. split; [reflexivity|]. split; [reflexivity|]. split; [|split; [|split]].
  - intros side speech field Hs Hsp Hf.
    destruct Hs as [<- | [<- | []]];
      destruct Hsp as [<- | [<- | [<- | [<- | []]]]];
      destruct Hf as [<- | [<- | [<- | []]]]; reflexivity.
  - reflexivity.
  - reflexivity.
  - intros side [<- | [<- | []]]; reflexivity.
Qed.

(** *** The pipeline *)

(** The verdict [judge] returns is the rebalanced one, with the final
    statement added. *)
Lemma judge_inr (result : json) (transcript_text : text) (v : json) :
  judge result transcript_text = inr v ->
  exists r w d totals,
    rebalance_notable_moves r w = inr (JDict d) /\
    v = JDict (store d (str "final_statement")
                 (JStr (final_statement (fst totals) (snd totals)))).
Proof.
  unfold judge. intros H.
  apply bind_inr in H as (r0 & _ & H).
  apply bind_inr in H as (r1 & _ & H).
  apply bind_inr in H as (r2 & _ & H).
  apply bind_inr in H as (totals & _ & H).
  apply bind_inr in H as (r3 & _ & H).
  apply bind_inr in H as (r4 & _ & H).
  apply bind_inr in H as (w & _ & H).
  apply bind_inr in H as (r5 & R & H).
  apply py_setitem_inr in H as (d & -> & ->).
  exists r4, w, d, totals. auto.
Qed.

Lemma judge_four_slots (result : json) (transcript_text : text) (v : json) :
  judge result transcript_text = inr v -> has_four_slots v.
Proof.
  intros H. apply judge_inr in H as (r & w & d & totals & R & ->).
  destruct (rebalance_inr _ _ _ R)
    as (d0 & x & ea0 & ea1 & ea2 & ea3 & en0 & en1 & en2 & en3 & _ & _ & Ma & Mn).
  unfold notable_moves_of in Ma, Mn.
  intros side [<- | [<- | []]]; eexists; unfold notable_moves_of;
    rewrite path_store_ne by reflexivity;
    (split; [first [rewrite Ma | rewrite Mn]; reflexivity|]);
    (split; [apply canonical_moves_length | apply canonical_moves_times]).
Qed.

(** C3, amended: a verdict [main] returns for a transcript that is not
    low-content has, on each side, exactly four notable moves whose times
    are the four slot names in order, whatever the model listed; the
    verdict of the low-content branch has no notable moves. *)
Theorem C3_four_slots_after_the_full_pipeline (transcript_text : text) (v : json) :
  outcome (main transcript_text) = inr v ->
  (is_low_content transcript_text = false -> has_four_slots v) /\
  (is_low_content transcript_text = true ->
   forall side, In side sides -> notable_moves_of v side = Some []).
Proof.
  unfold main. intros H. split; intros L; rewrite L in H; cbn [outcome] in H.
  - apply bind_inr in H as (result & _ & H). now apply judge_four_slots in H.
  - destruct low_content_verdict_value as (v0 & E & _ & _ & _ & _ & M).
    rewrite E in H. injection H as <-. exact M.
Qed.


(** *** The verdict of the full pipeline *)

(** A sanitiser that returns was given objects where it reads them. *)
Lemma clip_field_inr (k : text) (hi : Z) (s r : json) :
  clip_field k hi s = inr r -> exists d, s = JDict d.
Proof.
  unfold clip_field. intros H. apply bind_inr in H as (v & H & _).
  apply py_get_inr in H as (d & -> & _). eauto.
Qed.

Lemma clip_speech_at_inr (a b c : Z) (speech : text) (side_obj r : json) :
  clip_speech_at a b c speech side_obj = inr r ->
  exists so, side_obj = JDict so /\ dict_or_missing (lookup so speech) = true.
Proof.
  unfold clip_speech_at. intros H.
  apply bind_inr in H as (s & Hs & H). apply py_get_inr in Hs as (so & -> & ->).
  apply bind_inr in H as (s' & H & _). unfold clip_speech in H.
  apply bind_inr in H as (s1 & H & _). apply clip_field_inr in H as (ds & E).
  exists so. split; [reflexivity|].
  unfold get_default in E. destruct (lookup so speech) as [x|]; [|reflexivity].
  now subst x.
Qed.

Lemma enforce_side_inr (side : text) (scores r : json) :
  enforce_side side scores = inr r ->
  exists sc, scores = JDict sc /\
    dict_or_missing (lookup sc side) = true /\
    forallb (fun speech => dict_or_missing (path (JDict sc) [side; speech])) speeches = true.
Proof.
  unfold enforce_side. intros H.
  apply bind_inr in H as (so0 & H0 & H). apply py_get_inr in H0 as (sc & -> & ->).
  apply bind_inr in H as (so3 & H3 & H).
  apply bind_inr in H as (so4 & H4 & _).
  unfold speakers in H3. cbn [for_each] in H3.
  apply bind_inr in H3 as (x1 & H1 & H3).
  apply bind_inr in H3 as (x2 & H2 & H3).
  apply bind_inr in H3 as (x3 & H3' & H3). injection H3 as <-.
  destruct (clip_speech_at_inr _ _ _ _ _ _ H1) as (so & Eso & D1).
  assert (Hside : dict_or_missing (lookup sc side) = true).
  { unfold get_default in Eso. destruct (lookup sc side) as [x|]; [|reflexivity].
    now subst x. }
  destruct (child_dict sc side Hside) as (so' & E' & Hpath).
  rewrite E' in Eso. injection Eso as ->.
  rewrite E' in H1.
  destruct (clip_speech_at_spec 40 30 30 (str "speaker1") so) as (d1 & E1 & _);
    try lia; try assumption.
  rewrite E1 in H1. injection H1 as <-.
  destruct (clip_speech_at_inr _ _ _ _ _ _ H2) as (so1 & [= <-] & D2).
  rewrite lookup_store_ne in D2 by reflexivity.
  destruct (clip_speech_at_spec 40 30 30 (str "speaker2")
              (store so (str "speaker1") (JDict d1))) as (d2 & E2 & _);
    try lia; [rewrite lookup_store_ne by reflexivity; assumption|].
  rewrite E2 in H2. injection H2 as <-.
  destruct (clip_speech_at_inr _ _ _ _ _ _ H3') as (so2 & [= <-] & D3).
  rewrite !lookup_store_ne in D3 by reflexivity.
  destruct (clip_speech_at_spec 40 30 30 (str "speaker3")
              (store (store so (str "speaker1") (JDict d1)) (str "speaker2") (JDict d2)))
    as (d3 & E3 & _);
    try lia; [rewrite !lookup_store_ne by reflexivity; assumption|].
  rewrite E3 in H3'. injection H3' as <-.
  destruct (clip_speech_at_inr _ _ _ _ _ _ H4) as (so3 & [= <-] & D4).
  rewrite !lookup_store_ne in D4 by reflexivity.
  exists sc. split; [reflexivity|]. split; [exact Hside|].
  unfold speeches, speakers. cbn [app forallb].
  rewrite <- !Hpath, !path_one, D1, D2, D3, D4. reflexivity.
Qed.


Lemma enforce_ranges_inr (d : dict) (r : json) :
  enforce_ranges (JDict d) = inr r -> score_shape (JDict d) = true.
Proof.
  unfold enforce_ranges. intros H.
  apply bind_inr in H as (sc0 & H0 & H). apply py_get_inr in H0 as (d' & [= <-] & ->).
  apply bind_inr in H as (sc2 & H2 & _).
  unfold sides in H2. cbn [for_each] in H2.
  apply bind_inr in H2 as (s1 & Ha & H2).
  apply bind_inr in H2 as (s2 & Hn & _).
  destruct (enforce_side_inr _ _ _ Ha) as (sc & Esc & Da & Fa).
  assert (Hsc : dict_or_missing (lookup d (str "scores")) = true).
  { unfold get_default in Esc. destruct (lookup d (str "scores")) as [x|]; [|reflexivity].
    now subst x. }
  destruct (child_dict d (str "scores") Hsc) as (sc' & E' & Hpath).
  rewrite E' in Esc. injection Esc as ->. rewrite E' in Ha.
  destruct (enforce_side_spec (str "affirmative") sc Da Fa) as (soa & Ea & _).
  rewrite Ea in Ha. injection Ha as <-.
  destruct (enforce_side_inr _ _ _ Hn) as (sc1 & [= <-] & Dn & Fn).
  rewrite lookup_store_ne in Dn by reflexivity.
  unfold score_shape, sides. cbn [forallb].
  rewrite path_one, Hsc. rewrite <- !Hpath, !path_one, Da, Dn. cbn [andb].
  rewrite andb_true_r.
  rewrite (forallb_pointwise _
             (fun speech => dict_or_missing (path (JDict sc) [str "affirmative"; speech])))
    by (intros speech; now rewrite Hpath).
  rewrite Fa. cbn [andb].
  rewrite (forallb_pointwise _
             (fun speech => dict_or_missing
                (path (JDict (store sc (str "affirmative") (JDict soa)))
                   [str "negative"; speech]))).
  - exact Fn.
  - intros speech. rewrite path_store_ne by reflexivity. now rewrite Hpath.
Qed.


Lemma path_cons_inv (v : json) (k k' : text) (ks : list text) (x : json) :
  path v (k :: k' :: ks) = Some x ->
  exists d c, v = JDict d /\ lookup d k = Some (JDict c) /\
              path (JDict c) (k' :: ks) = Some x.
Proof.
  destruct v as [ | | | | | |d]; try (simpl; discriminate).
  rewrite path_dict_cons.
  destruct (lookup d k) as [[ | | | | | |c]|] eqn:E; try (simpl; discriminate).
  intros H. eauto.
Qed.

(** The total of a speech whose three numbers are within their caps. *)
Lemma weighted_total_in_bounds (so : dict) (speech : text) :
  (forall field, In field fields ->
     exists n, path (JDict so) [speech; field] = Some (JInt n) /\
               0 <= n <= cap speech field) ->
  exists total,
    bind (py_item (JDict so) speech) weighted_total_speaker = inr total /\
    0 <= total <= cap speech (str "matter") + cap speech (str "manner") +
                  cap speech (str "method").
Proof.
  intros H.
  destruct (H (str "matter")) as (a & Pa & Ba); [simpl; auto|].
  destruct (H (str "manner")) as (b & Pb & Bb); [simpl; auto|].
  destruct (H (str "method")) as (c & Pc & Bc); [simpl; auto|].
  rewrite path_dict_cons in Pa, Pb, Pc.
  destruct (lookup so speech) as [[ | | | | | |ds]|] eqn:E; try (simpl in Pa; discriminate).
  rewrite path_one in Pa, Pb, Pc.
  exists (a + b + c). split; [|lia].
  cbn [py_item]. rewrite E. cbn [bind ret].
  unfold weighted_total_speaker. cbn [py_get bind ret]. unfold get_default.
  rewrite Pa, Pb, Pc. reflexivity.
Qed.

Lemma side_total_in_bounds (so : dict) :
  (forall speech field, In speech speeches -> In field fields ->
     exists n, path (JDict so) [speech; field] = Some (JInt n) /\
               0 <= n <= cap speech field) ->
  exists total, side_total (JDict so) = inr total /\ 0 <= total <= 350.
Proof.
  intros H. unfold side_total.
  change weighted_total_reply with weighted_total_speaker.
  destruct (weighted_total_in_bounds so (str "speaker1")) as (t1 & -> & B1);
    [intros; apply H; simpl; auto|].
  destruct (weighted_total_in_bounds so (str "speaker2")) as (t2 & -> & B2);
    [intros; apply H; simpl; auto|].
  destruct (weighted_total_in_bounds so (str "speaker3")) as (t3 & -> & B3);
    [intros; apply H; simpl; auto|].
  destruct (weighted_total_in_bounds so (str "reply")) as (t4 & -> & B4);
    [intros; apply H; simpl; auto|].
  cbn [bind ret]. eexists. split; [reflexivity|].
  change (cap (str "speaker1") (str "matter")) with 40 in B1.
  change (cap (str "speaker1") (str "manner")) with 30 in B1.
  change (cap (str "speaker1") (str "method")) with 30 in B1.
  change (cap (str "speaker2") (str "matter")) with 40 in B2.
  change (cap (str "speaker2") (str "manner")) with 30 in B2.
  change (cap (str "speaker2") (str "method")) with 30 in B2.
  change (cap (str "speaker3") (str "matter")) with 40 in B3.
  change (cap (str "speaker3") (str "manner")) with 30 in B3.
  change (cap (str "speaker3") (str "method")) with 30 in B3.
  change (cap (str "reply") (str "matter")) with 20 in B4.
  change (cap (str "reply") (str "manner")) with 15 in B4.
  change (cap (str "reply") (str "method")) with 15 in B4.
  lia.
Qed.

(** Raw totals of a sanitised verdict: each within [[0, 350]]. *)
Lemma compute_totals_in_bounds (r : json) :
  scores_in_bounds r ->
  exists a n, compute_totals r = inr (a, n) /\ 0 <= a <= 350 /\ 0 <= n <= 350.
Proof.
  intros H.
  destruct (H (str "affirmative") (str "speaker1") (str "matter")) as (x & P & _);
    try (simpl; auto).
  unfold score_field in P.
  apply path_cons_inv in P as (d & sc & -> & Esc & P).
  apply path_cons_inv in P as (sc' & soa & [= <-] & Ea & _).
  destruct (H (str "negative") (str "speaker1") (str "matter")) as (y & Q & _);
    try (simpl; auto).
  unfold score_field in Q. rewrite path_dict_cons, Esc in Q.
  apply path_cons_inv in Q as (sc' & son & [= <-] & En & _).
  destruct (side_total_in_bounds soa) as (a & Ta & Ba).
  { intros speech field Hs Hf.
    destruct (H (str "affirmative") speech field) as (n & P & B); auto; [simpl; auto|].
    unfold score_field in P. rewrite path_dict_cons, Esc, path_dict_cons, Ea in P. eauto. }
  destruct (side_total_in_bounds son) as (n & Tn & Bn).
  { intros speech field Hs Hf.
    destruct (H (str "negative") speech field) as (m & P & B); auto; [simpl; auto|].
    unfold score_field in P. rewrite path_dict_cons, Esc, path_dict_cons, En in P. eauto. }
  exists a, n. split; [|auto].
  unfold compute_totals. cbn [py_item]. rewrite Esc. cbn [bind ret py_item].
  rewrite Ea, En. cbn [bind ret]. rewrite Ta, Tn. reflexivity.
Qed.


(** The sanitiser returns on an object exactly when its [scores], sides
    and speeches are objects or missing; on anything else it raises. *)
Lemma enforce_ranges_returns_iff (d : dict) :
  (exists r, enforce_ranges (JDict d) = inr r) <-> score_shape (JDict d) = true.
Proof.
  split.
  - intros (r & H). exact (enforce_ranges_inr d r H).
  - intros H. destruct (enforce_ranges_spec (JDict d) H) as (r & E & _). eauto.
Qed.

Lemma enforce_ranges_in_bounds (d : dict) (r : json) :
  enforce_ranges (JDict d) = inr r ->
  scores_in_bounds r /\ exists x, r = JDict (store d (str "scores") x).
Proof.
  intros H. pose proof (enforce_ranges_inr d r H) as S.
  destruct (enforce_ranges_spec (JDict d) S) as (r' & E & F).
  rewrite E in H. injection H as <-. split.
  - intros side speech field Hs Hsp Hf.
    destruct (F side speech field Hs Hsp Hf) as (n & P & B & _). eauto.
  - unfold enforce_ranges in E.
    apply bind_inr in E as (sc0 & _ & E). apply bind_inr in E as (sc2 & _ & E).
    injection E as <-. eauto.
Qed.

Lemma unchanged_off_store (k : text) (d : dict) (x : json) :
  unchanged_off k (JDict d) (JDict (store d k x)).
Proof.
  split; [eauto|]. intros k' ks H. now apply path_store_ne.
Qed.

Lemma unchanged_off_refl (k : text) (d : dict) : unchanged_off k (JDict d) (JDict d).
Proof. split; [eauto | reflexivity]. Qed.

Lemma unchanged_off_trans (k : text) (r1 r2 r3 : json) :
  unchanged_off k r1 r2 -> unchanged_off k r2 r3 -> unchanged_off k r1 r3.
Proof.
  intros [(d1 & d2 & -> & ->) P1] [(d2' & d3 & _ & ->) P2].
  split; [eauto|]. intros k' ks H. now rewrite P2, P1.
Qed.

Lemma normalise_side_inr (t side : text) (r r' : json) :
  normalise_side t side r = inr r' -> unchanged_off (str "analysis") r r'.
Proof.
  unfold normalise_side. intros H.
  apply bind_inr in H as (a & Ha & H). apply py_item_inr in Ha as (d & -> & _).
  repeat (apply bind_inr in H as (? & _ & H)).
  cbn [py_setitem] in H. injection H as <-. apply unchanged_off_store.
Qed.

Lemma ensure_analysis_defaults_inr (r : json) (t : text) (r' : json) :
  ensure_analysis_defaults r t = inr r' -> unchanged_off (str "analysis") r r'.
Proof.
  unfold ensure_analysis_defaults. destruct r as [ | | | | | |d]; try discriminate.
  unfold sides. cbn [for_each]. intros H.
  apply bind_inr in H as (r1 & H1 & H). apply bind_inr in H as (r2 & H2 & H).
  injection H as <-.
  apply normalise_side_inr in H1. apply normalise_side_inr in H2.
  pose proof (unchanged_off_trans _ _ _ _ H1 H2) as S.
  destruct (lookup d (str "analysis")) as [[ | | | | | |a]|]; try exact S;
    (eapply unchanged_off_trans; [|exact S]); apply unchanged_off_store.
Qed.

Lemma scores_in_bounds_unchanged (k : text) (r r' : json) :
  unchanged_off k r r' -> text_eqb k (str "scores") = false ->
  scores_in_bounds r -> scores_in_bounds r'.
Proof.
  intros [_ S] K H side speech field Hs Hsp Hf. unfold score_field.
  rewrite (S _ _ K). now apply H.
Qed.

(** The verdict that passes validation keeps the sanitised scores and the
    declared winner. *)
Lemma validated_in_bounds (result : json) (t : text) (r2 : json) :
  (r0 <- enforce_ranges result ;;
   r1 <- ensure_analysis_defaults r0 t ;;
   validate_with_retry r1 t) = inr r2 ->
  scores_in_bounds r2 /\
  (exists d d2, result = JDict d /\ r2 = JDict d2) /\
  path r2 [str "winner"] = path result [str "winner"].
Proof.
  intros H.
  apply bind_inr in H as (r0 & H0 & H). apply bind_inr in H as (r1 & H1 & H).
  pose proof (ensure_analysis_defaults_inr _ _ _ H1) as S1.
  destruct S1 as [(d0 & d1 & -> & ->) S1].
  destruct result as [ | | | | | |d]; try discriminate.
  destruct (enforce_ranges_in_bounds _ _ H0) as (B0 & x0 & E0).
  assert (B1 : scores_in_bounds (JDict d1)).
  { intros side speech field Hs Hsp Hf. unfold score_field.
    rewrite S1 by reflexivity. now apply B0. }
  assert (W1 : path (JDict d1) [str "winner"] = path (JDict d) [str "winner"]).
  { rewrite S1 by reflexivity. injection E0 as ->.
    now rewrite path_store_ne by reflexivity. }
  unfold validate_with_retry in H.
  destruct (validate (JDict d1)).
  - injection H as <-. split; [exact B1|]. split; [eauto | exact W1].
  - apply bind_inr in H as (ra & Ha & H). apply bind_inr in H as (rb & Hb & H).
    destruct (validate rb); [|discriminate]. injection H as <-.
    destruct (enforce_ranges_in_bounds _ _ Ha) as (Ba & xa & Ea).
    pose proof (ensure_analysis_defaults_inr _ _ _ Hb) as Sb.
    split; [|split].
    + apply (scores_in_bounds_unchanged _ _ _ Sb); [reflexivity | exact Ba].
    + destruct Sb as [(da & db & _ & ->) _]. eauto.
    + destruct Sb as [_ Sb]. rewrite Sb by reflexivity.
      rewrite Ea, path_store_ne by reflexivity. exact W1.
Qed.

(** The tie-break as one equation. *)
Lemma tie_break_dict (d : dict) (totals : Z * Z) :
  tie_break (JDict d) totals =
  inr (JDict
         (if (eq_str (get_default d (str "winner") JNull) (str "TIE") &&
              (1 <=? Z.abs (fst totals - snd totals)))%bool
          then store d (str "winner")
                 (JStr (if 0 <? fst totals - snd totals
                        then str "AFFIRMATIVE" else str "NEGATIVE"))
          else d)).
Proof.
  unfold tie_break. cbn [py_get bind ret].
  destruct (eq_str (get_default d (str "winner") JNull) (str "TIE")); [|reflexivity].
  now destruct (1 <=? Z.abs (fst totals - snd totals)).
Qed.

Lemma tie_break_inr (r : json) (totals : Z * Z) (r' : json) :
  tie_break r totals = inr r' -> unchanged_off (str "winner") r r'.
Proof.
  intros H. pose proof H as H'. unfold tie_break in H'.
  apply bind_inr in H' as (w & Hw & _). apply py_get_inr in Hw as (d & -> & _).
  rewrite tie_break_dict in H. injection H as <-.
  destruct (_ && _)%bool; [apply unchanged_off_store | apply unchanged_off_refl].
Qed.


(** Whether a side is the winner, read from the verdict's [winner]. *)
Lemma winner_default (d : dict) (side_name : text) :
  text_eqb (str "TIE") side_name = false ->
  eq_str (get_default d (str "winner") (JStr (str "TIE"))) side_name =
  match lookup d (str "winner") with
  | Some w => eq_str w side_name
  | None => false
  end.
Proof.
  intros K. unfold get_default. destruct (lookup d (str "winner")); [reflexivity|].
  exact K.
Qed.

Lemma is_winner_affirmative_eq (w : json) :
  is_winner w (str "affirmative") = eq_str w (str "AFFIRMATIVE").
Proof.
  apply eq_true_iff_eq. rewrite is_winner_affirmative. symmetry. apply eq_str_true.
Qed.

Lemma is_winner_negative_eq (w : json) :
  is_winner w (str "negative") = eq_str w (str "NEGATIVE").
Proof.
  apply eq_true_iff_eq. rewrite is_winner_negative. symmetry. apply eq_str_true.
Qed.

(** What [judge] returns: sanitised scores, their totals, the resolved
    winner, four slotted moves a side with the template of the winner, and
    the final statement of the totals. *)
Theorem judge_verdict (result : json) (transcript_text : text) (v : json) :
  judge result transcript_text = inr v ->
  exists a n ma mn,
    0 <= a <= 350 /\ 0 <= n <= 350 /\
    scores_in_bounds v /\
    path v [str "totals"] = Some (totals_dict (a, n)) /\
    winner_of v = resolved_winner (path result [str "winner"]) a n /\
    notable_moves_of v (str "affirmative") = Some ma /\
    notable_moves_of v (str "negative") = Some mn /\
    length ma = 4%nat /\ length mn = 4%nat /\
    times_of ma = texts SPEECH_SLOTS /\ times_of mn = texts SPEECH_SLOTS /\
    labels_of ma = texts (template_of (winner_of v) (str "AFFIRMATIVE")) /\
    labels_of mn = texts (template_of (winner_of v) (str "NEGATIVE")) /\
    path v [str "final_statement"] = Some (JStr (final_statement a n)).
Proof.
  unfold judge. intros H.
  apply bind_inr in H as (r0 & H0 & H).
  apply bind_inr in H as (r1 & H1 & H).
  apply bind_inr in H as (r2 & H2 & H).
  destruct (validated_in_bounds result transcript_text r2) as (B2 & (d & d2 & -> & ->) & W2).
  { rewrite H0. cbn [bind]. rewrite H1. exact H2. }
  destruct (compute_totals_in_bounds _ B2) as (a & n & T & Ba & Bn).
  rewrite T in H. cbn [bind py_setitem ret fst snd] in H.
  set (d3 := store d2 (str "totals") (totals_dict (a, n))) in *.
  apply bind_inr in H as (r4 & H4 & H).
  assert (exists d4, r4 = JDict d4 /\
            d4 = if (eq_str (get_default d3 (str "winner") JNull) (str "TIE") &&
                     (1 <=? Z.abs (a - n)))%bool
                 then store d3 (str "winner")
                        (JStr (if 0 <? a - n then str "AFFIRMATIVE" else str "NEGATIVE"))
                 else d3) as (d4 & -> & E4).
  { rewrite tie_break_dict in H4. injection H4 as <-. eauto. }
  clear H4. cbn [bind py_get ret] in H.
  apply bind_inr in H as (r5 & R & H).
  destruct (rebalance_inr _ _ _ R)
    as (d4' & x & ea0 & ea1 & ea2 & ea3 & en0 & en1 & en2 & en3 & Ed & -> & Ma & Mn).
  injection Ed as Ed. rewrite <- Ed in *. clear Ed d4'.
  cbn [py_setitem] in H. injection H as <-.
  assert (Hw : lookup d3 (str "winner") = path (JDict d) [str "winner"]).
  { unfold d3. rewrite lookup_store_ne by reflexivity. now rewrite <- W2, path_one. }
  assert (Hd4 : forall k' ks, text_eqb (str "winner") k' = false ->
                  path (JDict d4) (k' :: ks) = path (JDict d3) (k' :: ks)).
  { intros k' ks K. rewrite E4.
    destruct (_ && _)%bool; [now apply path_store_ne | reflexivity]. }
  assert (Hwin : lookup d4 (str "winner") =
                 resolved_winner (path (JDict d) [str "winner"]) a n).
  { rewrite E4, <- Hw. unfold get_default, resolved_winner.
    destruct (lookup d3 (str "winner")) as [w|] eqn:L; [|cbn; exact L].
    destruct (eq_str w (str "TIE")) eqn:TIE; cbn [andb]; [|exact L].
    destruct (1 <=? Z.abs (a - n)) eqn:G.
    - rewrite lookup_store_eq. apply Z.leb_le in G.
      replace (a =? n) with false by (symmetry; apply Z.eqb_neq; lia).
      replace (0 <? a - n) with (n <? a); [reflexivity|].
      destruct (n <? a) eqn:C; symmetry;
        [apply Z.ltb_lt in C; apply Z.ltb_lt | apply Z.ltb_ge in C; apply Z.ltb_ge]; lia.
    - apply Z.leb_gt in G.
      replace (a =? n) with true by (symmetry; apply Z.eqb_eq; lia).
      apply eq_str_true in TIE. now subst w. }
  assert (Wv : winner_of
                 (JDict (store (store d4 (str "analysis") x) (str "final_statement")
                           (JStr (final_statement a n)))) =
               lookup d4 (str "winner")).
  { unfold winner_of. rewrite !path_store_ne by reflexivity. apply path_one. }
  exists a, n. do 2 eexists.
  split; [exact Ba|]. split; [exact Bn|]. split.
  { intros side speech field Hs Hsp Hf. unfold score_field.
    rewrite !path_store_ne by reflexivity. rewrite Hd4 by reflexivity.
    unfold d3. rewrite path_store_ne by reflexivity. now apply B2. }
  split.
  { rewrite !path_store_ne by reflexivity. rewrite Hd4 by reflexivity.
    unfold d3. now rewrite path_store_eq. }
  split; [now rewrite Wv|].
  unfold notable_moves_of in Ma, Mn |- *.
  rewrite !(path_store_ne _ (str "final_statement") (str "analysis")) by reflexivity.
  split; [rewrite Ma; reflexivity|]. split; [rewrite Mn; reflexivity|].
  split; [apply canonical_moves_length|]. split; [apply canonical_moves_length|].
  split; [apply canonical_moves_times|]. split; [apply canonical_moves_times|].
  rewrite !canonical_moves_labels, Wv.
  rewrite is_winner_affirmative_eq, is_winner_negative_eq.
  rewrite !winner_default by reflexivity.
  unfold template_of.
  split; [|split].
  - now destruct (lookup d4 (str "winner")).
  - now destruct (lookup d4 (str "winner")).
  - now rewrite path_store_eq.
Qed.

(** *** Where the code falls short of the specification *)

(** C7: the specification says the sanitiser never raises, whatever the
    shape of the response.  It does not hold: only the response itself is
    checked to be a dict, and a [scores], a side or a speech that is present
    but is no dict (here [null], a list and a number) has no [get] method. *)
Theorem C7_sanitiser_raises_on_non_object_scores :
  enforce_ranges (JDict [(str "scores", JNull)]) = inl AttributeError /\
  enforce_ranges (JDict [(str "scores", JDict [(str "affirmative", JList [])])])
    = inl AttributeError /\
  enforce_ranges
    (JDict [(str "scores",
             JDict [(str "affirmative", JDict [(str "speaker1", JInt 5)])])])
    = inl AttributeError /\
  forall transcript_text,
    judge (JDict [(str "scores", JNull)]) transcript_text = inl AttributeError.
Proof.
  split; [reflexivity|]. split; [reflexivity|]. split; [reflexivity|].
  intros transcript_text. reflexivity.
Qed.

(** C8: the specification says the normalised overview and improvements
    have at least four non-empty segments.  It does not hold: a filler is
    counted as one more sentence even when the text it is appended to does
    not end in a sentence mark, and there are only three fillers for a
    threshold of four.  Counted the way the function itself counts, the
    results below have three segments. *)
Theorem C8_normalised_text_with_three_segments :
  sentence_count (str "Good job") = 1%nat /\
  sentence_count (_ensure_min_sentences (str "Good job") 4) = 3%nat /\
  sentence_count (str "...") = 0%nat /\
  sentence_count (_ensure_min_sentences (str "...") 4) = 3%nat /\
  _ensure_min_sentences (str "Good job") 4 =
    str "Good job They framed the weighing early and attempted to collapse the round onto the decisive clashes. Comparative analysis connected claims to explicit impacts, although some links could be clearer. Time allocation and signposting generally supported flow and judge comprehension." /\
  forall transcript_text,
    exists r overview,
      ensure_analysis_defaults
        (JDict [(str "analysis",
                 JDict [(str "affirmative",
                         JDict [(str "overview", JStr (str "Good job"))])])])
        transcript_text = inr r /\
      path r [str "analysis"; str "affirmative"; str "overview"] = Some (JStr overview) /\
      sentence_count overview = 3%nat.
Proof.
  do 5 (split; [vm_compute; reflexivity|]).
  intros transcript_text. do 2 eexists.
  split; [vm_compute; reflexivity|]. split; vm_compute; reflexivity.
Qed.

End WithRuntime.
End JudgeFacts.

(** ** Laws of the functions

    Properties of the code beyond those the specification states: fixed
    points, frames, closed forms and the conditions under which each
    function returns. *)

Module JudgeLaws.
Import Judge Verdict Behaviour JudgeFacts.

Section WithRuntime.
Context {RT : Runtime}.

(** *** The sanitiser as a fixed point, and the totals *)

Lemma store_same (d : dict) (k : text) (v : json) :
  lookup d k = Some v -> store d k v = d.
Proof.
  induction d as [|[k0 v0] d IH]; simpl; [discriminate|].
  destruct (text_eqb k0 k) eqn:E.
  - now intros [= ->].
  - intros H. now rewrite IH.
Qed.

Lemma float_of_small (n : Z) :
  0 <= n < 2 ^ 53 -> float_of_Z n = inr (FFin (inject_Z n)).
Proof.
  intros H. unfold float_of_Z, round53.
  assert (L : Z.log2 (Z.abs n) - 52 <= 0).
  { rewrite Z.abs_eq by lia. destruct (Z.eq_dec n 0) as [-> | N]; [simpl; lia|].
    assert (Z.log2 n < 53); [|lia]. apply Z.log2_lt_pow2; lia. }
  apply Z.leb_le in L. rewrite L.
  assert (B : Z.abs n < 2 ^ 1024).
  { rewrite Z.abs_eq by lia.
    assert (2 ^ 53 < 2 ^ 1024) by (apply Z.pow_lt_mono_r; lia). lia. }
  apply Z.ltb_lt in B. now rewrite B.
Qed.

Lemma clip_in_range (n hi : Z) :
  0 <= n <= hi -> hi < 2 ^ 53 -> int_of_num (_clip (JInt n) 0 hi) = inr n.
Proof.
  intros H Hhi.
  destruct (clip_int (JInt n) 0 hi ltac:(lia)) as (m & E & _ & S).
  rewrite E. f_equal. unfold sanitised in S. cbn [py_float] in S.
  rewrite float_of_small in S by lia. rewrite S. unfold clamp.
  destruct (Qle_bool (inject_Z n) (inject_Z 0)) eqn:E0.
  - apply Qle_bool_iff in E0. rewrite <- Zle_Qle in E0.
    rewrite Qtrunc_inject. lia.
  - destruct (Qle_bool (inject_Z hi) (inject_Z n)) eqn:E1.
    + apply Qle_bool_iff in E1. rewrite <- Zle_Qle in E1.
      rewrite Qtrunc_inject. lia.
    + apply Qtrunc_inject.
Qed.

Lemma clip_field_fixed (k : text) (hi n : Z) (d : dict) :
  lookup d k = Some (JInt n) -> 0 <= n <= hi -> hi < 2 ^ 53 ->
  clip_field k hi (JDict d) = inr (JDict d).
Proof.
  intros L H Hhi. unfold clip_field. cbn [py_get bind ret].
  unfold get_default. rewrite L. rewrite clip_in_range by assumption.
  cbn [bind py_setitem ret]. now rewrite store_same.
Qed.

Lemma cap_small (speech field : text) : cap speech field < 2 ^ 53.
Proof.
  unfold cap. destruct (text_eqb speech (str "reply"));
    destruct (text_eqb field (str "matter")); reflexivity.
Qed.

Lemma clip_speech_fixed (speech : text) (ds : dict) :
  speech_in_bounds ds speech ->
  clip_speech (cap speech (str "matter")) (cap speech (str "manner"))
    (cap speech (str "method")) (JDict ds) = inr (JDict ds).
Proof.
  intros H. unfold clip_speech.
  destruct (H (str "matter")) as (a & La & Ba); [simpl; auto|].
  destruct (H (str "manner")) as (b & Lb & Bb); [simpl; auto|].
  destruct (H (str "method")) as (c & Lc & Bc); [simpl; auto|].
  rewrite (clip_field_fixed _ _ a) by (auto using cap_small). cbn [bind].
  rewrite (clip_field_fixed _ _ b) by (auto using cap_small). cbn [bind].
  apply (clip_field_fixed _ _ c); auto using cap_small.
Qed.

Lemma clip_speech_at_fixed (speech : text) (so ds : dict) :
  lookup so speech = Some (JDict ds) -> speech_in_bounds ds speech ->
  clip_speech_at (cap speech (str "matter")) (cap speech (str "manner"))
    (cap speech (str "method")) speech (JDict so) = inr (JDict so).
Proof.
  intros L H. unfold clip_speech_at. cbn [py_get bind ret].
  unfold get_default. rewrite L. rewrite clip_speech_fixed by assumption.
  cbn [bind py_setitem ret]. now rewrite store_same.
Qed.

Lemma enforce_side_fixed (side : text) (sc so : dict) :
  lookup sc side = Some (JDict so) -> side_in_bounds so ->
  enforce_side side (JDict sc) = inr (JDict sc).
Proof.
  intros L H. unfold enforce_side. cbn [py_get bind ret].
  unfold get_default. rewrite L. unfold speakers. cbn [for_each].
  destruct (H (str "speaker1")) as (d1 & L1 & B1); [simpl; auto|].
  destruct (H (str "speaker2")) as (d2 & L2 & B2); [simpl; auto|].
  destruct (H (str "speaker3")) as (d3 & L3 & B3); [simpl; auto|].
  destruct (H (str "reply")) as (d4 & L4 & B4); [simpl; auto|].
  pose proof (clip_speech_at_fixed (str "speaker1") so d1 L1 B1) as F1.
  pose proof (clip_speech_at_fixed (str "speaker2") so d2 L2 B2) as F2.
  pose proof (clip_speech_at_fixed (str "speaker3") so d3 L3 B3) as F3.
  pose proof (clip_speech_at_fixed (str "reply") so d4 L4 B4) as F4.
  change (clip_speech_at 40 30 30 (str "speaker1") (JDict so) = inr (JDict so)) in F1.
  change (clip_speech_at 40 30 30 (str "speaker2") (JDict so) = inr (JDict so)) in F2.
  change (clip_speech_at 40 30 30 (str "speaker3") (JDict so) = inr (JDict so)) in F3.
  change (clip_speech_at 20 15 15 (str "reply") (JDict so) = inr (JDict so)) in F4.
  rewrite F1. cbn [bind]. rewrite F2. cbn [bind]. rewrite F3. cbn [bind ret].
  rewrite F4. cbn [bind py_setitem ret].
  now rewrite store_same.
Qed.

(** The dicts behind a verdict whose scores are within bounds. *)
Lemma scores_in_bounds_inv (r : json) :
  scores_in_bounds r ->
  exists d sc soa son,
    r = JDict d /\ lookup d (str "scores") = Some (JDict sc) /\
    lookup sc (str "affirmative") = Some (JDict soa) /\
    lookup sc (str "negative") = Some (JDict son) /\
    side_in_bounds soa /\ side_in_bounds son.
Proof.
  intros H.
  assert (Side : forall d sc side, In side sides ->
            r = JDict d -> lookup d (str "scores") = Some (JDict sc) ->
            exists so, lookup sc side = Some (JDict so) /\ side_in_bounds so).
  { intros d sc side Hside -> Esc.
    destruct (H side (str "speaker1") (str "matter")) as (x & P & _);
      [assumption | simpl; auto | simpl; auto |].
    unfold score_field in P. rewrite path_dict_cons, Esc in P.
    apply path_cons_inv in P as (sc' & so & [= <-] & Eso & _).
    exists so. split; [exact Eso|]. intros speech Hs.
    destruct (H side speech (str "matter")) as (y & Q & _);
      [assumption | assumption | simpl; auto |].
    unfold score_field in Q.
    rewrite path_dict_cons, Esc, path_dict_cons, Eso in Q.
    apply path_cons_inv in Q as (so' & ds & [= <-] & Eds & _).
    exists ds. split; [exact Eds|]. intros field Hf.
    destruct (H side speech field Hside Hs Hf) as (n & P & B).
    unfold score_field in P.
    rewrite path_dict_cons, Esc, path_dict_cons, Eso, path_dict_cons, Eds, path_one in P.
    eauto. }
  destruct (H (str "affirmative") (str "speaker1") (str "matter")) as (x & P & _);
    try (simpl; auto).
  unfold score_field in P. apply path_cons_inv in P as (d & sc & -> & Esc & _).
  destruct (Side d sc (str "affirmative")) as (soa & Ea & Ba); [simpl; auto | reflexivity | exact Esc |].
  destruct (Side d sc (str "negative")) as (son & En & Bn); [simpl; auto | reflexivity | exact Esc |].
  exists d, sc, soa, son. auto 10.
Qed.

(** A verdict whose scores are integers within bounds is a fixed point of
    the sanitiser. *)
Lemma enforce_ranges_fixed (r : json) :
  scores_in_bounds r -> enforce_ranges r = inr r.
Proof.
  intros H.
  destruct (scores_in_bounds_inv r H) as (d & sc & soa & son & -> & Esc & Ea & En & Ba & Bn).
  unfold enforce_ranges. cbn [py_get bind ret]. unfold get_default. rewrite Esc.
  unfold sides. cbn [for_each].
  rewrite (enforce_side_fixed _ sc soa Ea Ba). cbn [bind].
  rewrite (enforce_side_fixed _ sc son En Bn). cbn [bind ret py_setitem].
  now rewrite store_same.
Qed.

(** X1: the sanitiser is idempotent.  A verdict it has returned is a fixed
    point: sanitising it again, as step 4 of [main] does when the first
    validation fails, returns it unchanged. *)
Theorem X1_enforce_ranges_idempotent (result r1 : json) :
  enforce_ranges result = inr r1 -> enforce_ranges r1 = inr r1.
Proof.
  intros H. destruct result as [ | | | | | |d];
    try (injection H as <-; reflexivity).
  apply enforce_ranges_fixed. now destruct (enforce_ranges_in_bounds d r1 H).
Qed.

Lemma weighted_total_value (so ds : dict) (speech : text) :
  lookup so speech = Some (JDict ds) -> speech_in_bounds ds speech ->
  exists a b c,
    lookup ds (str "matter") = Some (JInt a) /\
    lookup ds (str "manner") = Some (JInt b) /\
    lookup ds (str "method") = Some (JInt c) /\
    bind (py_item (JDict so) speech) weighted_total_speaker = inr (a + b + c) /\
    0 <= a + b + c <= cap speech (str "matter") + cap speech (str "manner") +
                      cap speech (str "method").
Proof.
  intros L H.
  destruct (H (str "matter")) as (a & La & Ba); [simpl; auto|].
  destruct (H (str "manner")) as (b & Lb & Bb); [simpl; auto|].
  destruct (H (str "method")) as (c & Lc & Bc); [simpl; auto|].
  exists a, b, c. repeat (split; [assumption|]). split; [|lia].
  cbn [py_item]. rewrite L. cbn [bind ret].
  unfold weighted_total_speaker. cbn [py_get bind ret]. unfold get_default.
  now rewrite La, Lb, Lc.
Qed.

Lemma score_value_at (d sc so ds : dict) (side speech field : text) (n : Z) :
  lookup d (str "scores") = Some (JDict sc) -> lookup sc side = Some (JDict so) ->
  lookup so speech = Some (JDict ds) -> lookup ds field = Some (JInt n) ->
  score_value (JDict d) side speech field = n.
Proof.
  intros Esc Eso Eds L. unfold score_value, score_field.
  now rewrite path_dict_cons, Esc, path_dict_cons, Eso, path_dict_cons, Eds, path_one, L.
Qed.

Lemma side_total_value (d sc so : dict) (side : text) :
  lookup d (str "scores") = Some (JDict sc) -> lookup sc side = Some (JDict so) ->
  side_in_bounds so ->
  side_total (JDict so) = inr (raw_total (JDict d) side) /\
  0 <= raw_total (JDict d) side <= 350.
Proof.
  intros Esc Eso H. unfold side_total.
  change weighted_total_reply with weighted_total_speaker.
  destruct (H (str "speaker1")) as (d1 & L1 & B1); [simpl; auto|].
  destruct (H (str "speaker2")) as (d2 & L2 & B2); [simpl; auto|].
  destruct (H (str "speaker3")) as (d3 & L3 & B3); [simpl; auto|].
  destruct (H (str "reply")) as (d4 & L4 & B4); [simpl; auto|].
  destruct (weighted_total_value so d1 _ L1 B1) as (a1 & b1 & c1 & A1 & M1 & N1 & -> & R1).
  destruct (weighted_total_value so d2 _ L2 B2) as (a2 & b2 & c2 & A2 & M2 & N2 & -> & R2).
  destruct (weighted_total_value so d3 _ L3 B3) as (a3 & b3 & c3 & A3 & M3 & N3 & -> & R3).
  destruct (weighted_total_value so d4 _ L4 B4) as (a4 & b4 & c4 & A4 & M4 & N4 & -> & R4).
  cbn [bind ret].
  unfold raw_total, speeches, speakers, fields. cbn [app map sum_Z fold_right].
  rewrite (score_value_at d sc so d1 _ _ _ a1), (score_value_at d sc so d1 _ _ _ b1),
          (score_value_at d sc so d1 _ _ _ c1), (score_value_at d sc so d2 _ _ _ a2),
          (score_value_at d sc so d2 _ _ _ b2), (score_value_at d sc so d2 _ _ _ c2),
          (score_value_at d sc so d3 _ _ _ a3), (score_value_at d sc so d3 _ _ _ b3),
          (score_value_at d sc so d3 _ _ _ c3), (score_value_at d sc so d4 _ _ _ a4),
          (score_value_at d sc so d4 _ _ _ b4), (score_value_at d sc so d4 _ _ _ c4)
    by assumption.
  change (cap (str "speaker1") (str "matter")) with 40 in R1.
  change (cap (str "speaker1") (str "manner")) with 30 in R1.
  change (cap (str "speaker1") (str "method")) with 30 in R1.
  change (cap (str "speaker2") (str "matter")) with 40 in R2.
  change (cap (str "speaker2") (str "manner")) with 30 in R2.
  change (cap (str "speaker2") (str "method")) with 30 in R2.
  change (cap (str "speaker3") (str "matter")) with 40 in R3.
  change (cap (str "speaker3") (str "manner")) with 30 in R3.
  change (cap (str "speaker3") (str "method")) with 30 in R3.
  change (cap (str "reply") (str "matter")) with 20 in R4.
  change (cap (str "reply") (str "manner")) with 15 in R4.
  change (cap (str "reply") (str "method")) with 15 in R4.
  split; [unfold ret; f_equal|]; lia.
Qed.

Lemma compute_totals_value (r : json) :
  scores_in_bounds r ->
  compute_totals r = inr (raw_total r (str "affirmative"), raw_total r (str "negative")) /\
  0 <= raw_total r (str "affirmative") <= 350 /\
  0 <= raw_total r (str "negative") <= 350.
Proof.
  intros H.
  destruct (scores_in_bounds_inv r H) as (d & sc & soa & son & -> & Esc & Ea & En & Ba & Bn).
  destruct (side_total_value d sc soa _ Esc Ea Ba) as (Ta & Ra).
  destruct (side_total_value d sc son _ Esc En Bn) as (Tn & Rn).
  split; [|auto].
  unfold compute_totals. cbn [py_item]. rewrite Esc. cbn [bind ret py_item].
  rewrite Ea, En. cbn [bind ret]. now rewrite Ta, Tn.
Qed.

(** X2: on a sanitised verdict [compute_totals] returns; each total is the
    sum of the twelve scores of the side as they stand in the verdict, and
    lies between 0 and 350. *)
Theorem X2_totals_after_sanitising (d : dict) (r : json) :
  enforce_ranges (JDict d) = inr r ->
  compute_totals r = inr (raw_total r (str "affirmative"), raw_total r (str "negative")) /\
  0 <= raw_total r (str "affirmative") <= 350 /\
  0 <= raw_total r (str "negative") <= 350.
Proof.
  intros H. apply compute_totals_value. now destruct (enforce_ranges_in_bounds d r H).
Qed.

Lemma weighted_total_speaker_inr (sp : json) (t : Z) :
  weighted_total_speaker sp = inr t -> exists ds, sp = JDict ds.
Proof.
  unfold weighted_total_speaker. intros H.
  apply bind_inr in H as (a & H & _). apply bind_inr in H as (v & H & _).
  apply py_get_inr in H as (ds & -> & _). eauto.
Qed.

Lemma speech_total_inr (side_obj : json) (speech : text) (t : Z) :
  bind (py_item side_obj speech) weighted_total_speaker = inr t ->
  exists ds, path side_obj [speech] = Some (JDict ds).
Proof.
  intros H. apply bind_inr in H as (sp & H & W).
  apply py_item_inr in H as (so & -> & L).
  apply weighted_total_speaker_inr in W as (ds & ->).
  exists ds. now rewrite path_one.
Qed.

Lemma side_total_inr (side_obj : json) (t : Z) :
  side_total side_obj = inr t ->
  forall speech, In speech speeches -> exists ds, path side_obj [speech] = Some (JDict ds).
Proof.
  unfold side_total. change weighted_total_reply with weighted_total_speaker.
  intros H.
  apply bind_inr in H as (a & H1 & H). apply bind_inr in H as (b & H2 & H).
  apply bind_inr in H as (c & H3 & H). apply bind_inr in H as (d & H4 & _).
  intros speech [<- | [<- | [<- | [<- | []]]]]; eapply speech_total_inr; eassumption.
Qed.

(** X3: [compute_totals] returns only when each of the eight speeches is
    present as an object: it reads them by item, not with [get], and so
    raises on a missing one where the sanitiser would fill it in. *)
Theorem X3_totals_need_every_speech (result : json) (totals : Z * Z) :
  compute_totals result = inr totals ->
  forall side speech, In side sides -> In speech speeches ->
    exists ds, path result [str "scores"; side; speech] = Some (JDict ds).
Proof.
  unfold compute_totals. intros H.
  apply bind_inr in H as (sc & Hsc & H). apply py_item_inr in Hsc as (d & -> & Esc).
  apply bind_inr in H as (aff & Ha & H). apply py_item_inr in Ha as (dsc & -> & Ea).
  cbn [py_item] in H. rewrite Esc in H. cbn [bind ret py_item] in H.
  destruct (lookup dsc (str "negative")) as [neg|] eqn:En; [|discriminate].
  cbn [bind ret] in H.
  apply bind_inr in H as (a & Ta & H). apply bind_inr in H as (n & Tn & _).
  intros side speech Hside Hs. rewrite path_dict_cons, Esc, path_dict_cons.
  destruct Hside as [<- | [<- | []]].
  - rewrite Ea. exact (side_total_inr _ _ Ta speech Hs).
  - rewrite En. exact (side_total_inr _ _ Tn speech Hs).
Qed.

(** *** Scaled scores and margins *)


Lemma margin_label_cases (diff : Z) :
  let d := Z.abs diff in
  (d <= 2 /\ margin_label diff = str "very close") \/
  (2 < d <= 5 /\ margin_label diff = str "close but clear") \/
  (5 < d <= 10 /\ margin_label diff = str "clear win") \/
  (10 < d <= 20 /\ margin_label diff = str "dominant win") \/
  (20 < d /\ margin_label diff = str "overwhelming win").
Proof.
  unfold margin_label. cbv zeta.
  destruct (Z.abs diff <=? 2) eqn:E2; [apply Z.leb_le in E2; auto | apply Z.leb_gt in E2].
  destruct (Z.abs diff <=? 5) eqn:E5; [apply Z.leb_le in E5; auto | apply Z.leb_gt in E5].
  destruct (Z.abs diff <=? 10) eqn:E10; [apply Z.leb_le in E10; auto 6 | apply Z.leb_gt in E10].
  destruct (Z.abs diff <=? 20) eqn:E20; [apply Z.leb_le in E20; auto 8 | apply Z.leb_gt in E20].
  auto 10.
Qed.

(** X5: the margin label, chosen from the raw gap, fixes a band of the
    printed gap (in tenths): very close at most 0.6, close but clear 0.8
    to 1.5, clear win 1.7 to 2.9, dominant win 3.1 to 5.8, overwhelming
    win 6.0 and more. *)
Theorem X5_margin_label_bands_of_the_printed_gap (a n : Z) :
  0 <= a <= 350 -> 0 <= n <= 350 ->
  let gap := Z.abs (scale_to_100 a - scale_to_100 n) in
  (margin_label (a - n) = str "very close" -> gap <= 6) /\
  (margin_label (a - n) = str "close but clear" -> 8 <= gap <= 15) /\
  (margin_label (a - n) = str "clear win" -> 17 <= gap <= 29) /\
  (margin_label (a - n) = str "dominant win" -> 31 <= gap <= 58) /\
  (margin_label (a - n) = str "overwhelming win" -> 60 <= gap).
Proof.
  intros Ha Hn gap.
  pose proof (scale_to_100_nearest a) as Sa.
  pose proof (scale_to_100_nearest n) as Sn.
  destruct (margin_label_cases (a - n)) as [[D L] | [[D L] | [[D L] | [[D L] | [D L]]]]];
    rewrite L; (split; [|split; [|split; [|split]]]); intros E; try (vm_compute in E; discriminate E); subst gap; lia.
Qed.

(** *** Stripping and counting sentences *)

Lemma lstrip_snoc (x : text) (c : char) :
  isspace c = false -> exists u, lstrip (x ++ [c]) = u ++ [c].
Proof.
  intros Hc. induction x as [|a x IH]; simpl.
  - rewrite Hc. now exists [].
  - destruct (isspace a); [exact IH|]. now exists (a :: x).
Qed.

Lemma rstrip_snoc (x : text) (c : char) :
  isspace c = false -> rstrip (x ++ [c]) = x ++ [c].
Proof.
  intros Hc. unfold rstrip. rewrite rev_app_distr. simpl. rewrite Hc.
  simpl. now rewrite rev_involutive.
Qed.

Lemma strip_snoc (x : text) (c : char) :
  isspace c = false -> strip (x ++ [c]) = lstrip (x ++ [c]).
Proof.
  intros Hc. unfold strip. destruct (lstrip_snoc x c Hc) as (u & ->).
  now apply rstrip_snoc.
Qed.

Lemma lstrip_head (t : text) :
  lstrip t = [] \/ exists c r, lstrip t = c :: r /\ isspace c = false.
Proof.
  induction t as [|a t IH]; simpl; [now left|].
  destruct (isspace a) eqn:E; [exact IH|]. right. eauto.
Qed.

Lemma lstrip_fixed (c : char) (r : text) : isspace c = false -> lstrip (c :: r) = c :: r.
Proof. intros H. simpl. now rewrite H. Qed.

Lemma lstrip_lstrip_app (x y : text) : lstrip (lstrip x ++ y) = lstrip (x ++ y).
Proof.
  induction x as [|a x IH]; simpl; [reflexivity|].
  destruct (isspace a) eqn:E; [exact IH|]. simpl. now rewrite E.
Qed.

Lemma rstrip_cons (c : char) (r : text) :
  isspace c = false -> exists r', rstrip (c :: r) = c :: r'.
Proof.
  intros Hc. unfold rstrip. simpl.
  destruct (lstrip_snoc (rev r) c Hc) as (u & ->).
  rewrite rev_app_distr. simpl. eauto.
Qed.

Lemma lstrip_strip (t : text) : lstrip (strip t) = strip t.
Proof.
  unfold strip. destruct (lstrip_head t) as [-> | (c & r & -> & Hc)]; [reflexivity|].
  destruct (rstrip_cons c r Hc) as (r' & ->). now apply lstrip_fixed.
Qed.

Lemma strip_head (t : text) :
  strip t = [] \/ exists c r, strip t = c :: r /\ isspace c = false.
Proof.
  unfold strip. destruct (lstrip_head t) as [-> | (c & r & -> & Hc)]; [now left|].
  destruct (rstrip_cons c r Hc) as (r' & ->). right. eauto.
Qed.

Lemma lstrip_app_fixed (t y : text) :
  strip t <> [] -> lstrip (strip t ++ y) = strip t ++ y.
Proof.
  intros H. destruct (strip_head t) as [E | (c & r & E & Hc)]; [contradiction|].
  rewrite E. now apply lstrip_fixed.
Qed.

Lemma stops_cons (c : char) (t : text) :
  stops (c :: t) = (if is_mark c then 46%N else c) :: stops t.
Proof.
  unfold stops, replace, is_mark, char_eqb. simpl. f_equal.
  destruct (N.eqb c 33) eqn:E1; simpl.
  - reflexivity.
  - destruct (N.eqb c 46) eqn:E2; simpl.
    + apply N.eqb_eq in E2. now subst c.
    + destruct (N.eqb c 63) eqn:E3; reflexivity.
Qed.

Lemma stops_app (u v : text) : stops (u ++ v) = stops u ++ stops v.
Proof. unfold stops, replace. now rewrite !map_app. Qed.

Lemma split_nonempty (sep : char) (t : text) : exists p ps, split sep t = p :: ps.
Proof.
  induction t as [|c t (p & ps & IH)]; simpl; [eauto|].
  destruct (char_eqb c sep); [eauto|]. rewrite IH. eauto.
Qed.

Lemma split_app_sep (sep : char) (u v : text) :
  split sep (u ++ sep :: v) = split sep u ++ split sep v.
Proof.
  induction u as [|c u IH]; simpl.
  - unfold char_eqb. now rewrite N.eqb_refl.
  - destruct (char_eqb c sep); [now rewrite IH|].
    rewrite IH. destruct (split_nonempty sep u) as (p & ps & ->). reflexivity.
Qed.

Lemma sentence_count_eq (t : text) :
  sentence_count t = length (filter sentence (split 46%N (stops t))).
Proof. reflexivity. Qed.

Lemma sentence_cons_space (c : char) (p : text) :
  isspace c = true -> sentence (c :: p) = sentence p.
Proof. intros H. unfold sentence, strip. simpl. now rewrite H. Qed.

Lemma sentence_cons (c : char) (p : text) :
  sentence p = true -> sentence (c :: p) = true.
Proof.
  intros H. destruct (isspace c) eqn:E.
  - now rewrite sentence_cons_space.
  - unfold sentence, strip. rewrite lstrip_fixed by assumption.
    now destruct (rstrip_cons c p E) as (r' & ->).
Qed.

Lemma mark_not_space (c : char) : is_mark c = true -> isspace c = false.
Proof.
  unfold is_mark. intros H.
  apply orb_prop in H as [H | H]; [apply orb_prop in H as [H | H]|];
    apply N.eqb_eq in H; subst c; reflexivity.
Qed.

Lemma count_cons_mark (c : char) (t : text) :
  is_mark c = true -> sentence_count (c :: t) = sentence_count t.
Proof.
  intros H. rewrite !sentence_count_eq, stops_cons, H. reflexivity.
Qed.

Lemma space_not_mark (c : char) : isspace c = true -> is_mark c = false.
Proof.
  intros H. destruct (is_mark c) eqn:E; [|reflexivity].
  apply mark_not_space in E. congruence.
Qed.

Lemma split_cons_other (c : char) (t : text) :
  is_mark c = false ->
  exists p ps, split 46%N (stops t) = p :: ps /\
               split 46%N (stops (c :: t)) = (c :: p) :: ps.
Proof.
  intros H. rewrite stops_cons, H.
  destruct (split_nonempty 46%N (stops t)) as (p & ps & E).
  exists p, ps. split; [exact E|]. simpl. rewrite E.
  replace (char_eqb c 46%N) with false; [reflexivity|].
  unfold is_mark in H. apply orb_false_elim in H as [H _].
  apply orb_false_elim in H as [_ H]. now rewrite <- H.
Qed.

Lemma count_cons_space (c : char) (t : text) :
  isspace c = true -> sentence_count (c :: t) = sentence_count t.
Proof.
  intros H. rewrite !sentence_count_eq.
  destruct (split_cons_other c t (space_not_mark c H)) as (p & ps & -> & ->).
  cbn [filter]. rewrite sentence_cons_space by assumption.
  now destruct (sentence p).
Qed.

Lemma count_cons_ge (c : char) (t : text) :
  (sentence_count t <= sentence_count (c :: t))%nat.
Proof.
  destruct (is_mark c) eqn:M; [now rewrite count_cons_mark|].
  rewrite !sentence_count_eq.
  destruct (split_cons_other c t M) as (p & ps & -> & ->). cbn [filter].
  destruct (sentence p) eqn:S.
  - now rewrite sentence_cons.
  - destruct (sentence (c :: p)); cbn [length]; lia.
Qed.

Lemma count_app_ge (x e : text) :
  (sentence_count e <= sentence_count (x ++ e))%nat.
Proof.
  induction x as [|c x IH]; simpl; [lia|].
  pose proof (count_cons_ge c (x ++ e)). lia.
Qed.

Lemma count_lstrip (t : text) : sentence_count (lstrip t) = sentence_count t.
Proof.
  induction t as [|c t IH]; simpl; [reflexivity|].
  destruct (isspace c) eqn:E; [|reflexivity].
  now rewrite IH, count_cons_space.
Qed.

Lemma count_app_mark (u v : text) (mk : char) :
  is_mark mk = true ->
  sentence_count (u ++ mk :: v) = (sentence_count u + sentence_count v)%nat.
Proof.
  intros H. rewrite !sentence_count_eq, stops_app, stops_cons, H.
  now rewrite split_app_sep, filter_app, length_app.
Qed.

Lemma count_snoc_mark (u : text) (mk : char) :
  is_mark mk = true -> sentence_count (u ++ [mk]) = sentence_count u.
Proof.
  intros H. rewrite count_app_mark by assumption.
  change (sentence_count []) with 0%nat. lia.
Qed.

(** *** Stock sentences *)

Lemma ends_with_stop_inv (t : text) :
  ends_with_stop t = true -> exists t', t = t' ++ [46%N].
Proof.
  unfold ends_with_stop. destruct (rev t) as [|c r] eqn:E; [discriminate|].
  intros H. apply N.eqb_eq in H. subst c. exists (rev r).
  rewrite <- (rev_involutive t), E. reflexivity.
Qed.

Lemma strip_app_stop (x a : text) :
  ends_with_stop a = true -> strip (x ++ a) = lstrip (x ++ a).
Proof.
  intros H. apply ends_with_stop_inv in H as (a' & ->).
  rewrite app_assoc. now apply strip_snoc.
Qed.

(** The loop of [_ensure_min_sentences], for stock sentences that end in a
    full stop. *)
Lemma add_sentences_closed (adds : list text) (x : text) (count min_sents : nat) :
  forallb ends_with_stop adds = true ->
  add_sentences adds (lstrip x) count min_sents =
  lstrip (x ++ concat (map (fun a => str " " ++ a) (firstn (min_sents - count) adds))).
Proof.
  revert x count. induction adds as [|a adds IH]; intros x count H.
  - simpl. rewrite firstn_nil. simpl. now rewrite app_nil_r.
  - apply forallb_cons_true in H as [Ha H]. cbn [add_sentences].
    destruct (count <? min_sents)%nat eqn:E.
    + apply Nat.ltb_lt in E.
      replace (min_sents - count)%nat with (S (min_sents - S count)) by lia.
      cbn [firstn map concat].
      rewrite (app_assoc (lstrip x)), strip_app_stop by assumption.
      rewrite <- !app_assoc, lstrip_lstrip_app.
      rewrite IH by assumption. now rewrite <- !app_assoc.
    + apply Nat.ltb_ge in E.
      replace (min_sents - count)%nat with 0%nat by lia.
      simpl. now rewrite app_nil_r.
Qed.

Lemma ensure_min_closed (t0 : text) (min_sents : nat) :
  _ensure_min_sentences t0 min_sents =
  lstrip (strip t0 ++ fillers (min_sents - sentence_count (strip t0))).
Proof.
  unfold _ensure_min_sentences, fillers.
  destruct (min_sents <=? sentence_count (strip t0))%nat eqn:E.
  - apply Nat.leb_le in E.
    replace (min_sents - sentence_count (strip t0))%nat with 0%nat by lia.
    simpl. now rewrite app_nil_r, lstrip_strip.
  - rewrite <- (lstrip_strip t0) at 1. now apply add_sentences_closed.
Qed.

(** X9: the closed form of [_ensure_min_sentences]: the stripped text
    followed by the first stock sentences, one for each sentence missing
    and three at most, each after a space (the leading space is dropped
    when the text is blank); a text with enough sentences is only
    stripped, and a text that is not blank is never cut. *)
Theorem X9_ensure_min_sentences_appends_stock_sentences (t0 : text) (min_sents : nat) :
  let t := strip t0 in
  let missing := (min_sents - sentence_count t)%nat in
  _ensure_min_sentences t0 min_sents = lstrip (t ++ fillers missing) /\
  (t <> [] -> _ensure_min_sentences t0 min_sents = t ++ fillers missing) /\
  (missing = 0%nat -> _ensure_min_sentences t0 min_sents = t) /\
  fillers missing = fillers (Nat.min missing 3).
Proof.
  intros t missing. split; [apply ensure_min_closed|]. split; [|split].
  - intros H. rewrite ensure_min_closed. now apply lstrip_app_fixed.
  - intros H. rewrite ensure_min_closed. fold t. fold missing. rewrite H.
    unfold fillers. simpl. rewrite app_nil_r. apply lstrip_strip.
  - unfold fillers. f_equal. f_equal.
    destruct missing as [|[|[|[|k]]]]; reflexivity.
Qed.

Lemma count_fillers (k : nat) : sentence_count (fillers k) = Nat.min k 3.
Proof. destruct k as [|[|[|[|k]]]]; reflexivity. Qed.

Lemma ensure_min_count (t0 : text) (min_sents : nat) :
  strip t0 = [] \/ (exists u mk, strip t0 = u ++ [mk] /\ is_mark mk = true) ->
  sentence_count (_ensure_min_sentences t0 min_sents) =
  Nat.max (sentence_count (strip t0)) (Nat.min min_sents (sentence_count (strip t0) + 3)).
Proof.
  intros H. rewrite ensure_min_closed, count_lstrip.
  destruct H as [-> | (u & mk & -> & M)].
  - simpl app. rewrite count_fillers. change (sentence_count []) with 0%nat. lia.
  - rewrite <- app_assoc. simpl app. rewrite count_app_mark by assumption.
    rewrite count_fillers, count_snoc_mark by assumption. lia.
Qed.

(** X10: on a text that is blank or ends, once stripped, in a sentence mark,
    every stock sentence adds one to the count: the result has
    max(count, min(min_sents, count + 3)) sentences, so the minimum is
    reached whenever at most three sentences are missing. *)
Theorem X10_terminated_text_reaches_the_minimum (t0 : text) (min_sents : nat) :
  strip t0 = [] \/ (exists u mk, strip t0 = u ++ [mk] /\ is_mark mk = true) ->
  let count := sentence_count (strip t0) in
  sentence_count (_ensure_min_sentences t0 min_sents) =
    Nat.max count (Nat.min min_sents (count + 3)) /\
  ((min_sents <= count + 3)%nat ->
   (min_sents <= sentence_count (_ensure_min_sentences t0 min_sents))%nat).
Proof.
  intros H count. pose proof (ensure_min_count t0 min_sents H) as E. fold count in E.
  split; [exact E|]. intros L. rewrite E. lia.
Qed.

(** A text that ends with a closed sentence is brought to four sentences. *)
Lemma ensure_four (x e : text) :
  ends_with_stop e = true -> (1 <= sentence_count e)%nat ->
  (4 <= sentence_count (_ensure_min_sentences (x ++ e) 4))%nat.
Proof.
  intros He Hc.
  assert (S : strip (x ++ e) = lstrip (x ++ e)) by now apply strip_app_stop.
  rewrite ensure_min_count.
  - rewrite S, count_lstrip. pose proof (count_app_ge x e). lia.
  - right. rewrite S. apply ends_with_stop_inv in He as (e' & ->).
    rewrite app_assoc. destruct (lstrip_snoc (x ++ e') 46%N eq_refl) as (u & Eu).
    exists u, 46%N. split; [exact Eu | reflexivity].
Qed.

(** X11: whatever the side name, the fallback overview and the fallback
    improvements have at least four sentences. *)
Theorem X11_fallback_texts_have_four_sentences (side_name transcript : text) :
  (4 <= sentence_count (_overview_fallback side_name transcript))%nat /\
  (4 <= sentence_count (_improvements_fallback side_name))%nat.
Proof.
  split.
  - unfold _overview_fallback. rewrite (app_assoc (str "The ") side_name).
    apply ensure_four; vm_compute; [reflexivity | lia].
  - unfold _improvements_fallback. apply ensure_four; vm_compute; [reflexivity | lia].
Qed.

Lemma move_extra_sentences (label : text) :
  ends_with_stop (move_extra label) = true /\ sentence_count (move_extra label) = 2%nat.
Proof.
  unfold move_extra.
  destruct (text_eqb label (str "brilliant")); [split; reflexivity|].
  destruct (text_eqb label (str "great")); [split; reflexivity|].
  destruct (text_eqb label (str "good")); [split; reflexivity|].
  destruct (text_eqb label (str "inaccuracy")); split; reflexivity.
Qed.

(** The text of a move never needs a stock sentence: the clause of its
    label has two sentences already. *)
Lemma expand_text (label s : text) :
  _ensure_min_sentences (s ++ move_extra label) 2 = strip (s ++ move_extra label) /\
  (2 <= sentence_count (strip (s ++ move_extra label)))%nat.
Proof.
  destruct (move_extra_sentences label) as (Stop & Two).
  assert (C : (2 <= sentence_count (strip (s ++ move_extra label)))%nat).
  { rewrite strip_app_stop, count_lstrip by assumption.
    pose proof (count_app_ge s (move_extra label)). lia. }
  split; [|exact C]. unfold _ensure_min_sentences.
  apply Nat.leb_le in C. now rewrite C.
Qed.

(** X12: [_expand_move] never adds a stock sentence: its result is the seed
    (the stock seed when the seed is falsy) followed by the clause of the
    label, stripped, and has at least two sentences; a truthy seed that is
    not a [str] raises [TypeError]. *)
Theorem X12_expand_move_appends_the_label_clause (label : text) (seed : json) :
  (forall s, py_or seed (JStr stock_seed) = JStr s ->
     _expand_move label seed = inr (strip (s ++ move_extra label)) /\
     (2 <= sentence_count (strip (s ++ move_extra label)))%nat) /\
  ((forall s, py_or seed (JStr stock_seed) <> JStr s) ->
     _expand_move label seed = inl TypeError) /\
  (truthy seed = false -> py_or seed (JStr stock_seed) = JStr stock_seed).
Proof.
  split; [|split].
  - intros s E. unfold _expand_move. fold stock_seed. rewrite E.
    destruct (expand_text label s) as (-> & C). auto.
  - intros H. unfold _expand_move. fold stock_seed.
    destruct (py_or seed (JStr stock_seed)) as [ | | | |s| | ]; try reflexivity.
    now destruct (H s).
  - intros H. unfold py_or. now rewrite H.
Qed.

(** *** Speech slots *)

Lemma set_times_dicts (ss : list text) (ms : list json) :
  (length ms <= length ss)%nat -> forallb is_dict ms = true ->
  exists ms', set_times ss ms = inr ms'.
Proof.
  revert ss. induction ms as [|m ms IH]; intros ss L H; [destruct ss; now exists []|].
  apply forallb_cons_true in H as [Hm H].
  destruct ss as [|s ss]; [simpl in L; lia|].
  destruct m; try discriminate. cbn [set_times py_setitem bind ret].
  destruct (IH ss) as (ms' & ->); [simpl in L; lia | assumption |].
  cbn [bind ret]. eexists. reflexivity.
Qed.

Lemma padded_length (l : list json) : length (padded l) = 4%nat.
Proof. unfold padded. destruct (padded_four l) as (? & ? & ? & ? & ->). reflexivity. Qed.

Lemma padded_dicts (l : list json) :
  forallb is_dict (padded l) = forallb is_dict (firstn 4 l).
Proof.
  unfold padded. destruct l as [|a [|b [|c [|d l]]]]; simpl;
    rewrite ?andb_true_r; reflexivity.
Qed.

Lemma set_times_inr_dicts (ss : list text) (ms ms' : list json) :
  set_times ss ms = inr ms' -> forallb is_dict ms = true.
Proof.
  revert ss ms'. induction ms as [|m ms IH]; intros ss ms' H; [reflexivity|].
  destruct ss as [|s ss]; [discriminate|].
  apply set_times_cons_inr in H as (d & ms1 & -> & H & _).
  simpl. now apply IH in H.
Qed.

Lemma assign_slots_dicts (l : list json) :
  forallb is_dict (firstn 4 l) = true ->
  exists l', _assign_speech_slots (JList l) = inr l'.
Proof.
  intros H. unfold _assign_speech_slots. fold (padded l).
  apply set_times_dicts.
  - rewrite padded_length. simpl. lia.
  - now rewrite padded_dicts.
Qed.

(** X13: [_assign_speech_slots] returns exactly on a list whose first four
    entries are objects; entries past the fourth are not looked at. *)
Theorem X13_slot_assignment_needs_four_objects (moves : json) :
  (exists l', _assign_speech_slots moves = inr l') <->
  (exists l, moves = JList l /\ forallb is_dict (firstn 4 l) = true).
Proof.
  split.
  - intros (l' & H). destruct moves as [ | | | |s|l|d]; try discriminate.
    + unfold _assign_speech_slots in H. destruct (length s <? 4)%nat; discriminate.
    + exists l. split; [reflexivity|]. unfold _assign_speech_slots in H.
      apply set_times_inr_dicts in H. fold (padded l) in H. now rewrite padded_dicts in H.
    + unfold _assign_speech_slots in H. destruct (length d <? 4)%nat; discriminate.
  - intros (l & -> & H). now apply assign_slots_dicts.
Qed.

Lemma retimed_store (d : dict) (slot : text) :
  retimed (JDict d) (JDict (store d (str "time") (JStr slot))) slot.
Proof.
  split; [apply path_store_eq with (ks := []) | intros k ks K; now apply path_store_ne].
Qed.

Lemma set_times_retimed (ss : list text) (ms ms' : list json) :
  set_times ss ms = inr ms' ->
  length ms' = length ms /\
  forall i m, nth_error ms i = Some m ->
    exists m' slot, nth_error ms' i = Some m' /\ nth_error ss i = Some slot /\
                    retimed m m' slot.
Proof.
  revert ss ms'. induction ms as [|m0 ms IH]; intros ss ms' H.
  - destruct ss; injection H as <-; (split; [reflexivity|]); intros [|i] m; discriminate.
  - destruct ss as [|s ss]; [discriminate|].
    apply set_times_cons_inr in H as (d & ms1 & -> & H & ->).
    destruct (IH _ _ H) as (L & N). split; [simpl; now rewrite L|].
    intros [|i] m E; simpl in E.
    + injection E as <-. exists (JDict (store d (str "time") (JStr s))), s.
      repeat split; try reflexivity; apply retimed_store.
    + destruct (N i m E) as (m' & slot & ? & ? & ?). exists m', slot. auto.
Qed.

Lemma set_times_again (ss : list text) (ms ms' : list json) :
  set_times ss ms = inr ms' -> set_times ss ms' = inr ms'.
Proof.
  revert ss ms'. induction ms as [|m0 ms IH]; intros ss ms' H.
  - destruct ss; now injection H as <-.
  - destruct ss as [|s ss]; [discriminate|].
    apply set_times_cons_inr in H as (d & ms1 & -> & H & ->).
    cbn [set_times py_setitem bind ret]. rewrite (IH _ _ H).
    cbn [bind ret]. now rewrite store_store.
Qed.

(** The moves [_assign_speech_slots] returns, against the padded list. *)
Lemma assign_slots_retimed (l l' : list json) :
  _assign_speech_slots (JList l) = inr l' ->
  length l' = 4%nat /\
  forall i m, nth_error (padded l) i = Some m ->
    exists m', nth_error l' i = Some m' /\ retimed m m' (nth i SPEECH_SLOTS []).
Proof.
  unfold _assign_speech_slots. fold (padded l). intros H.
  destruct (set_times_retimed _ _ _ H) as (L & N).
  rewrite padded_length in L. split; [exact L|].
  intros i m E. destruct (N i m E) as (m' & slot & E' & S & R).
  exists m'. split; [exact E'|]. now rewrite (nth_error_nth _ _ _ S).
Qed.

(** X14: [_assign_speech_slots] returns four moves; the i-th is the i-th
    entry of the padded list with the time of the slot, every other key as
    it was; the first four moves given are kept in order and missing ones
    are the default move; assigning the slots again changes nothing. *)
Theorem X14_slot_assignment_keeps_the_first_four_moves (l l' : list json) :
  _assign_speech_slots (JList l) = inr l' ->
  length l' = 4%nat /\
  (forall i m, nth_error (padded l) i = Some m ->
     exists m', nth_error l' i = Some m' /\ retimed m m' (nth i SPEECH_SLOTS [])) /\
  (forall i m, (i < 4)%nat -> nth_error l i = Some m -> nth_error (padded l) i = Some m) /\
  (forall i, (length l <= i < 4)%nat -> nth_error (padded l) i = Some pad_move) /\
  _assign_speech_slots (JList l') = inr l'.
Proof.
  intros H. destruct (assign_slots_retimed l l' H) as (L & R).
  split; [exact L|]. split; [exact R|]. split; [|split].
  - intros i m Hi E. unfold padded.
    rewrite nth_error_firstn. replace (i <? 4)%nat with true by (symmetry; now apply Nat.ltb_lt).
    rewrite nth_error_app1; [exact E|]. apply nth_error_Some. congruence.
  - intros i Hi. unfold padded.
    rewrite nth_error_firstn. replace (i <? 4)%nat with true by (symmetry; apply Nat.ltb_lt; lia).
    rewrite nth_error_app2 by lia. rewrite nth_error_repeat; [reflexivity | lia].
  - unfold _assign_speech_slots in *.
    replace (l' ++ repeat pad_move (4 - length l')) with l'
      by (rewrite L; simpl; now rewrite app_nil_r).
    rewrite firstn_all2 by lia. eapply set_times_again. eassumption.
Qed.

(** *** What the rebalancer reads and writes *)

Lemma expand_move_inr (label : text) (seed : json) (e : text) :
  _expand_move label seed = inr e ->
  exists s, py_or seed (JStr stock_seed) = JStr s /\ e = strip (s ++ move_extra label).
Proof.
  unfold _expand_move. fold stock_seed.
  destruct (py_or seed (JStr stock_seed)) as [ | | | |s| | ]; try discriminate.
  intros [= <-]. exists s. split; [reflexivity|]. apply expand_text.
Qed.

Lemma py_item_path (m : json) (k : text) (x : json) :
  py_item m k = inr x -> path m [k] = Some x.
Proof. intros H. apply py_item_inr in H as (d & -> & L). now rewrite path_one. Qed.

(** One turn of [force_distribution], on the move of the slot. *)
Lemma forced_step (win : bool) (i : nat) (m : json) (label slot : text) (n : json) :
  nth i (template win) [] = label -> nth i SPEECH_SLOTS [] = slot ->
  (seed_exp <- py_item m (str "explanation") ;;
   exp <- _expand_move label seed_exp ;;
   ret (move slot label exp)) = inr n ->
  forced_move win i m n.
Proof.
  intros <- <- H.
  apply bind_inr in H as (seed & Hs & H). apply bind_inr in H as (e & He & H).
  injection H as <-. apply py_item_path in Hs.
  apply expand_move_inr in He as (s & Hor & ->).
  exists seed, s. auto.
Qed.

Lemma force_distribution_full (m0 m1 m2 m3 : json) (win : bool) (new : list json) :
  force_distribution [m0; m1; m2; m3] win = inr new ->
  exists n0 n1 n2 n3,
    new = [n0; n1; n2; n3] /\
    forced_move win 0 m0 n0 /\ forced_move win 1 m1 n1 /\
    forced_move win 2 m2 n2 /\ forced_move win 3 m3 n3.
Proof.
  unfold force_distribution, enumerate. intros H.
  assert (T : exists l0 l1 l2 l3, template win = [l0; l1; l2; l3]).
  { destruct win; do 4 eexists; reflexivity. }
  destruct T as (l0 & l1 & l2 & l3 & T). fold (template win) in H.
  pose proof (fun i => f_equal (fun t => nth i t []) T) as N. cbv beta in N.
  rewrite T in H. cbn [length seq combine] in H.
  apply map_m_cons_inr in H as (n0 & ns & H0 & H & ->).
  apply map_m_cons_inr in H as (n1 & ns' & H1 & H & ->).
  apply map_m_cons_inr in H as (n2 & ns'' & H2 & H & ->).
  apply map_m_cons_inr in H as (n3 & ns''' & H3 & H & ->).
  injection H as <-. cbn [nth_error] in H0, H1, H2, H3.
  exists n0, n1, n2, n3. split; [reflexivity|].
  split; [|split; [|split]].
  - apply (forced_step win 0 m0 l0 (nth 0 SPEECH_SLOTS []) n0);
      [rewrite N; reflexivity | reflexivity | exact H0].
  - apply (forced_step win 1 m1 l1 (nth 1 SPEECH_SLOTS []) n1);
      [rewrite N; reflexivity | reflexivity | exact H1].
  - apply (forced_step win 2 m2 l2 (nth 2 SPEECH_SLOTS []) n2);
      [rewrite N; reflexivity | reflexivity | exact H2].
  - apply (forced_step win 3 m3 l3 (nth 3 SPEECH_SLOTS []) n3);
      [rewrite N; reflexivity | reflexivity | exact H3].
Qed.

Lemma four_elements {A} (l : list A) :
  length l = 4%nat -> exists a b c d, l = [a; b; c; d].
Proof.
  destruct l as [|a [|b [|c [|d [|e l]]]]]; try discriminate. eauto.
Qed.

Lemma forced_move_retimed (win : bool) (i : nat) (m m' n : json) (slot : text) :
  retimed m m' slot -> forced_move win i m' n -> forced_move win i m n.
Proof.
  intros [_ R] (seed & s & P & O & ->). exists seed, s.
  rewrite <- R by reflexivity. auto.
Qed.

Lemma forced_moves_assign (win : bool) (m0 m1 m2 m3 n0 n1 n2 n3 : json) :
  forced_move win 0 m0 n0 -> forced_move win 1 m1 n1 ->
  forced_move win 2 m2 n2 -> forced_move win 3 m3 n3 ->
  _assign_speech_slots (JList [n0; n1; n2; n3]) = inr [n0; n1; n2; n3].
Proof.
  intros (? & ? & _ & _ & ->) (? & ? & _ & _ & ->) (? & ? & _ & _ & ->) (? & ? & _ & _ & ->).
  reflexivity.
Qed.

(** What a turn of the rebalancer's loop that returns read and wrote. *)
Lemma rebalance_side_full (winner : json) (side : text) (result result' : json) :
  rebalance_side winner side result = inr result' ->
  exists d a s l new,
    result = JDict d /\
    lookup d (str "analysis") = Some (JDict a) /\
    lookup a side = Some (JDict s) /\
    get_default s (str "notable_moves") (JList []) = JList l /\
    result' =
      JDict (store d (str "analysis")
               (JDict (store a side (JDict (store s (str "notable_moves") (JList new)))))) /\
    length new = 4%nat /\
    forall i m, nth_error (padded l) i = Some m ->
      exists n, nth_error new i = Some n /\ forced_move (is_winner winner side) i m n.
Proof.
  unfold rebalance_side. intros H.
  apply bind_inr in H as (a0 & Ha0 & H).
  apply py_get_inr in Ha0 as (d & -> & ->).
  apply bind_inr in H as (s0 & Hs0 & H).
  apply bind_inr in H as (mv & Hmv & H).
  apply bind_inr in H as (l4 & Hl4 & H).
  apply bind_inr in H as (new & Hnew & H).
  apply bind_inr in H as (new' & Hnew' & H).
  apply bind_inr in H as (a1 & Ha1 & H).
  apply py_item_inr in Ha1 as (d' & [= <-] & La).
  apply bind_inr in H as (s1 & Hs1 & H).
  apply py_item_inr in Hs1 as (a & -> & Ls).
  apply bind_inr in H as (s2 & Hs2 & H).
  apply py_setitem_inr in Hs2 as (s & -> & ->).
  cbn [py_setitem bind ret] in H. injection H as <-.
  unfold get_default in Hs0. rewrite La in Hs0. cbn [py_get ret] in Hs0.
  unfold get_default in Hs0. rewrite Ls in Hs0. injection Hs0 as <-.
  cbn [py_get ret] in Hmv. injection Hmv as <-.
  destruct (get_default s (str "notable_moves") (JList [])) as [ |b|z|f|t|l|dm] eqn:G;
    try (unfold _assign_speech_slots in Hl4; discriminate).
  { unfold _assign_speech_slots in Hl4. destruct (length t <? 4)%nat; discriminate. }
  2: { unfold _assign_speech_slots in Hl4. destruct (length dm <? 4)%nat; discriminate. }
  destruct (assign_slots_retimed l l4 Hl4) as (L4 & R).
  destruct (four_elements l4 L4) as (m0 & m1 & m2 & m3 & ->).
  apply force_distribution_full in Hnew as (n0 & n1 & n2 & n3 & -> & F0 & F1 & F2 & F3).
  rewrite (forced_moves_assign _ _ _ _ _ _ _ _ _ F0 F1 F2 F3) in Hnew'.
  injection Hnew' as <-.
  exists d, a, s, l, [n0; n1; n2; n3]. repeat (split; [reflexivity || assumption|]).
  intros i m E. destruct (R i m E) as (m' & E' & Rt).
  assert (Hi : (i < 4)%nat).
  { rewrite <- (padded_length l). apply nth_error_Some. congruence. }
  destruct i as [|[|[|[|i]]]]; [| | | |lia]; cbn [nth_error] in E';
    injection E' as <-; eexists; (split; [reflexivity|]);
    eapply forced_move_retimed; eassumption.
Qed.

Lemma side_moves_at (d a s : dict) (side : text) (l l' : list json) :
  lookup d (str "analysis") = Some (JDict a) -> lookup a side = Some (JDict s) ->
  get_default s (str "notable_moves") (JList []) = JList l ->
  side_moves (JDict d) side l' -> l' = l.
Proof.
  intros La Ls G (s' & P & G').
  rewrite path_dict_cons, La, path_one, Ls in P. injection P as <-. congruence.
Qed.

(** The two turns of the rebalancer's loop. *)
Lemma rebalance_full (result winner result' : json) :
  rebalance_notable_moves result winner = inr result' ->
  exists d a sa sn la ln newa newn,
    result = JDict d /\
    lookup d (str "analysis") = Some (JDict a) /\
    lookup a (str "affirmative") = Some (JDict sa) /\
    lookup a (str "negative") = Some (JDict sn) /\
    get_default sa (str "notable_moves") (JList []) = JList la /\
    get_default sn (str "notable_moves") (JList []) = JList ln /\
    result' =
      JDict (store d (str "analysis")
               (JDict (store (store a (str "affirmative")
                                (JDict (store sa (str "notable_moves") (JList newa))))
                         (str "negative")
                         (JDict (store sn (str "notable_moves") (JList newn)))))) /\
    length newa = 4%nat /\ length newn = 4%nat /\
    (forall i m, nth_error (padded la) i = Some m ->
       exists n, nth_error newa i = Some n /\
                 forced_move (is_winner winner (str "affirmative")) i m n) /\
    (forall i m, nth_error (padded ln) i = Some m ->
       exists n, nth_error newn i = Some n /\
                 forced_move (is_winner winner (str "negative")) i m n).
Proof.
  unfold rebalance_notable_moves, sides. cbn [for_each]. intros H.
  apply bind_inr in H as (r1 & H1 & H).
  apply bind_inr in H as (r2 & H2 & H). injection H as <-.
  apply rebalance_side_full in H1
    as (d & a & sa & la & newa & -> & La & Lsa & Ga & -> & Na & Fa).
  apply rebalance_side_full in H2
    as (d' & a' & sn & ln & newn & Ed & La' & Lsn & Gn & -> & Nn & Fn).
  injection Ed as <-. rewrite lookup_store_eq in La'. injection La' as <-.
  rewrite lookup_store_ne in Lsn by reflexivity.
  exists d, a, sa, sn, la, ln, newa, newn.
  rewrite store_store. auto 12.
Qed.

Lemma padded_given (l : list json) (i : nat) (m : json) :
  (i < 4)%nat -> nth_error l i = Some m -> nth_error (padded l) i = Some m.
Proof.
  intros Hi E. unfold padded. rewrite nth_error_firstn.
  replace (i <? 4)%nat with true by (symmetry; now apply Nat.ltb_lt).
  rewrite nth_error_app1; [exact E|]. apply nth_error_Some. congruence.
Qed.

Lemma padded_missing (l : list json) (i : nat) :
  (length l <= i < 4)%nat -> nth_error (padded l) i = Some pad_move.
Proof.
  intros Hi. unfold padded. rewrite nth_error_firstn.
  replace (i <? 4)%nat with true by (symmetry; apply Nat.ltb_lt; lia).
  rewrite nth_error_app2 by lia. rewrite nth_error_repeat; [reflexivity | lia].
Qed.

(** The move written over the default move: its explanation is the seed. *)
Lemma forced_over_pad (win : bool) (i : nat) (n : json) :
  (i < 4)%nat -> forced_move win i pad_move n ->
  n = move (nth i SPEECH_SLOTS []) (nth i (template win) [])
        (str "A generally solid contribution with clear structure and relevance." ++
         move_extra (nth i (template win) [])).
Proof.
  intros Hi (seed & s & P & O & ->).
  cbn in P. injection P as <-. cbn in O. injection O as <-.
  destruct win; destruct i as [|[|[|[|i]]]]; try lia; vm_compute; reflexivity.
Qed.

(** X19: the rebalancer keeps the explanations as seeds: the move it writes
    for slot i has the label of the template and, for explanation, the
    explanation of the i-th entry of the padded list (the stock seed when
    it is falsy) followed by the clause of that label.  The first four
    moves given are the first entries of the padded list; a slot for which
    no move was given holds the default move, so that the seed is the
    explanation of the default move and never the stock seed. *)
Theorem X19_rebalancer_keeps_each_explanation_as_seed
    (result winner result' : json) (side : text) (l : list json) :
  rebalance_notable_moves result winner = inr result' ->
  In side sides -> side_moves result side l ->
  exists new,
    notable_moves_of result' side = Some new /\ length new = 4%nat /\
    (forall i m, nth_error (padded l) i = Some m ->
       exists n, nth_error new i = Some n /\ forced_move (is_winner winner side) i m n) /\
    (forall i m, (i < 4)%nat -> nth_error l i = Some m -> nth_error (padded l) i = Some m) /\
    (forall i, (length l <= i < 4)%nat ->
       nth_error (padded l) i = Some pad_move /\
       nth_error new i =
         Some (move (nth i SPEECH_SLOTS []) (nth i (template (is_winner winner side)) [])
                 (str "A generally solid contribution with clear structure and relevance." ++
                  move_extra (nth i (template (is_winner winner side)) [])))).
Proof.
  intros H Hside M.
  assert (G : exists new,
            notable_moves_of result' side = Some new /\ length new = 4%nat /\
            forall i m, nth_error (padded l) i = Some m ->
              exists n, nth_error new i = Some n /\
                        forced_move (is_winner winner side) i m n).
  { apply rebalance_full in H
      as (d & a & sa & sn & la & ln & newa & newn & -> & La & Lsa & Lsn & Ga & Gn & -> &
          Na & Nn & Fa & Fn).
    destruct Hside as [<- | [<- | []]].
    - rewrite (side_moves_at d a sa _ la l La Lsa Ga M).
      exists newa. split; [|auto]. unfold notable_moves_of.
      rewrite path_store_eq, path_store_ne by reflexivity. now rewrite !path_store_eq.
    - rewrite (side_moves_at d a sn _ ln l La Lsn Gn M).
      exists newn. split; [|auto]. unfold notable_moves_of. now rewrite !path_store_eq. }
  destruct G as (new & P & L & F). exists new.
  split; [exact P|]. split; [exact L|]. split; [exact F|].
  split; [apply padded_given|].
  intros i Hi. pose proof (padded_missing l i Hi) as E. split; [exact E|].
  destruct (F i pad_move E) as (n & En & Fn). rewrite En. f_equal.
  apply forced_over_pad; [lia | exact Fn].
Qed.

Lemma path_side_store (a s : dict) (side side' k : text) (ks : list text) (x : json) :
  lookup a side = Some (JDict s) -> text_eqb (str "notable_moves") k = false ->
  path (JDict (store a side (JDict (store s (str "notable_moves") x)))) (side' :: k :: ks) =
  path (JDict a) (side' :: k :: ks).
Proof.
  intros L K. destruct (text_eqb side side') eqn:E.
  - apply text_eqb_eq in E. subst side'.
    rewrite path_store_eq, path_store_ne by assumption.
    now rewrite (path_dict_cons a), L.
  - now apply path_store_ne.
Qed.

(** X18: the rebalancer changes the two [notable_moves] lists and nothing
    else: every other key of the verdict, of the analysis and of each side
    reads as before. *)
Theorem X18_rebalancer_changes_the_move_lists_only (result winner result' : json) :
  rebalance_notable_moves result winner = inr result' ->
  only_moves_changed result result'.
Proof.
  intros H.
  apply rebalance_full in H
    as (d & a & sa & sn & la & ln & newa & newn & -> & La & Lsa & Lsn & Ga & Gn & -> & _).
  split; [|split].
  - intros k ks K. now apply path_store_ne.
  - intros side k ks K. rewrite path_store_eq, (path_dict_cons d), La.
    rewrite path_side_store; [|now rewrite lookup_store_ne by reflexivity | assumption].
    now apply path_side_store.
  - intros side N. rewrite path_store_eq, (path_dict_cons d), La.
    rewrite !path_store_ne; [reflexivity| |];
      apply text_eqb_neq; intros <-; apply N; simpl; auto.
Qed.

Lemma padded_firstn (l : list json) : padded (firstn 4 l) = padded l.
Proof. unfold padded. destruct l as [|a [|b [|c [|d l]]]]; reflexivity. Qed.

Lemma assign_slots_first_four (l : list json) :
  forallb has_explanation (firstn 4 l) = true ->
  exists m0 m1 m2 m3,
    _assign_speech_slots (JList l) = inr [m0; m1; m2; m3] /\
    has_explanation m0 = true /\ has_explanation m1 = true /\
    has_explanation m2 = true /\ has_explanation m3 = true.
Proof.
  intros H. destruct (assign_slots_total (firstn 4 l) H) as (m0 & m1 & m2 & m3 & E & Hm).
  exists m0, m1, m2, m3. split; [|exact Hm].
  unfold _assign_speech_slots in *. fold (padded l). fold (padded (firstn 4 l)) in E.
  now rewrite <- padded_firstn.
Qed.

Lemma rebalance_side_returns (winner : json) (side : text) (d a s : dict) (l : list json) :
  lookup d (str "analysis") = Some (JDict a) ->
  lookup a side = Some (JDict s) ->
  get_default s (str "notable_moves") (JList []) = JList l ->
  forallb has_explanation (firstn 4 l) = true ->
  exists new,
    rebalance_side winner side (JDict d) =
    inr (JDict (store d (str "analysis")
                  (JDict (store a side (JDict (store s (str "notable_moves") (JList new))))))).
Proof.
  intros Ha Hs Hl Hall. unfold rebalance_side.
  cbn [py_get bind ret]. unfold get_default at 1. rewrite Ha.
  cbn [py_get bind ret]. unfold get_default at 1. rewrite Hs.
  cbn [py_get bind ret]. rewrite Hl.
  destruct (assign_slots_first_four l Hall) as (m0 & m1 & m2 & m3 & -> & H0 & H1 & H2 & H3).
  cbn [bind].
  destruct (force_distribution_total m0 m1 m2 m3 (is_winner winner side) H0 H1 H2 H3)
    as (e0 & e1 & e2 & e3 & ->).
  cbn [bind]. rewrite canonical_moves_assign.
  cbn [bind py_item]. rewrite Ha. cbn [bind ret py_item]. rewrite Hs.
  eexists. reflexivity.
Qed.

Lemma forced_move_explained (win : bool) (i : nat) (m n : json) :
  forced_move win i m n -> has_explanation m = true.
Proof.
  intros (seed & s & P & O & _). unfold has_explanation. rewrite P.
  unfold py_or in O. destruct (truthy seed) eqn:T.
  - now subst seed.
  - now destruct seed.
Qed.

Lemma first_four_explained (l : list json) :
  (forall i m, nth_error (padded l) i = Some m -> has_explanation m = true) ->
  forallb has_explanation (firstn 4 l) = true.
Proof.
  intros H. apply forallb_forall. intros m Hm.
  apply In_nth_error in Hm as (i & E).
  assert (Hi : (i < 4)%nat).
  { assert (i < length (firstn 4 l))%nat by (apply nth_error_Some; congruence).
    rewrite length_firstn in *. lia. }
  rewrite nth_error_firstn in E.
  replace (i <? 4)%nat with true in E by (symmetry; now apply Nat.ltb_lt).
  apply (H i). unfold padded. rewrite nth_error_firstn.
  replace (i <? 4)%nat with true by (symmetry; now apply Nat.ltb_lt).
  rewrite nth_error_app1; [exact E|]. apply nth_error_Some. congruence.
Qed.

Lemma rebalance_ready_returns (result winner : json) :
  rebalance_ready result -> exists result', rebalance_notable_moves result winner = inr result'.
Proof.
  intros H.
  destruct (H (str "affirmative")) as (la & Ma & Ea); [simpl; auto|].
  destruct (H (str "negative")) as (ln & Mn & En); [simpl; auto|].
  apply side_moves_inv in Ma as (d & a & sa & -> & Ld & La & Ga).
  apply side_moves_inv in Mn as (d' & a' & sn & Hd & Ld' & Ln & Gn).
  injection Hd as <-. rewrite Ld in Ld'. injection Ld' as <-.
  unfold rebalance_notable_moves, sides. cbn [for_each].
  destruct (rebalance_side_returns winner (str "affirmative") d a sa la Ld La Ga Ea)
    as (newa & ->).
  cbn [bind].
  edestruct (rebalance_side_returns winner (str "negative")) as (newn & ->).
  - apply lookup_store_eq.
  - rewrite lookup_store_ne by reflexivity. exact Ln.
  - exact Gn.
  - exact En.
  - cbn [bind]. eexists. reflexivity.
Qed.

Lemma rebalance_side_without_analysis (d : dict) (winner : json) (side : text) :
  lookup d (str "analysis") = None ->
  rebalance_side winner side (JDict d) = inl KeyError.
Proof.
  intros H. unfold rebalance_side. cbn [py_get bind ret]. unfold get_default at 1. rewrite H.
  cbn [py_get bind ret get_default lookup].
  destruct (_assign_speech_slots (JList [])) as [e | moves] eqn:E1;
    vm_compute in E1; [discriminate|]. injection E1 as <-. cbn [bind].
  destruct (is_winner winner side);
    match goal with
    | |- bind ?m _ = _ => destruct m as [e | new] eqn:E2
    end; vm_compute in E2; try discriminate; injection E2 as <-; cbn [bind];
    match goal with
    | |- bind ?m _ = _ => destruct m as [e | new'] eqn:E3
    end; vm_compute in E3; try discriminate; injection E3 as <-;
    cbn [bind py_item]; now rewrite H.
Qed.

Lemma rebalance_without_analysis (d : dict) (winner : json) :
  lookup d (str "analysis") = None ->
  rebalance_notable_moves (JDict d) winner = inl KeyError.
Proof.
  intros H. unfold rebalance_notable_moves, sides. cbn [for_each].
  now rewrite rebalance_side_without_analysis.
Qed.

(** X21: the rebalancer returns exactly when both sides are objects holding
    a list of moves, or none, whose first four entries are objects with an
    explanation that is a string or falsy; on a verdict without [analysis]
    it raises [KeyError]. *)
Theorem X21_rebalancer_returns_exactly_on_readable_moves (result winner : json) :
  ((exists result', rebalance_notable_moves result winner = inr result') <->
   rebalance_ready result) /\
  (forall d, result = JDict d -> lookup d (str "analysis") = None ->
     rebalance_notable_moves result winner = inl KeyError).
Proof.
  split; [split|].
  - intros (result' & H).
    apply rebalance_full in H
      as (d & a & sa & sn & la & ln & newa & newn & -> & La & Lsa & Lsn & Ga & Gn & _ &
          _ & _ & Fa & Fn).
    intros side [<- | [<- | []]].
    + exists la. split.
      * exists sa. split; [|exact Ga]. now rewrite path_dict_cons, La, path_one.
      * apply first_four_explained. intros i m E.
        destruct (Fa i m E) as (n & _ & F). eapply forced_move_explained. exact F.
    + exists ln. split.
      * exists sn. split; [|exact Gn]. now rewrite path_dict_cons, La, path_one.
      * apply first_four_explained. intros i m E.
        destruct (Fn i m E) as (n & _ & F). eapply forced_move_explained. exact F.
  - apply rebalance_ready_returns.
  - intros d -> H. now apply rebalance_without_analysis.
Qed.

(** *** What the analysis defaults leave *)

Lemma ensure_min_nonempty (t0 : text) (min_sents : nat) :
  strip t0 <> [] \/ (0 < min_sents)%nat -> _ensure_min_sentences t0 min_sents <> [].
Proof.
  intros H. rewrite ensure_min_closed.
  destruct (strip t0) as [|c r] eqn:E.
  - destruct H as [H | H]; [contradiction|].
    change (sentence_count []) with 0%nat. rewrite Nat.sub_0_r. simpl app.
    destruct min_sents as [|[|[|[|k]]]]; [lia| | | |]; vm_compute; discriminate.
  - rewrite <- E. rewrite lstrip_app_fixed by congruence. rewrite E. discriminate.
Qed.

Lemma overview_fallback_nonempty (side_name transcript : text) :
  _overview_fallback side_name transcript <> [].
Proof. apply ensure_min_nonempty. right. lia. Qed.

Lemma improvements_fallback_nonempty (side_name : text) :
  _improvements_fallback side_name <> [].
Proof. apply ensure_min_nonempty. right. lia. Qed.

Lemma py_strip_inr (v : json) (t : text) : py_strip v = inr t -> exists s, v = JStr s /\ t = strip s.
Proof. destruct v; try discriminate. intros [= <-]. eauto. Qed.

Lemma normalise_move_inr (m x : json) :
  normalise_move m = inr x -> exists time, normal_move time x.
Proof.
  unfold normalise_move. intros H.
  apply bind_inr in H as (l & _ & H). apply bind_inr in H as (lbl & _ & H).
  apply bind_inr in H as (e & _ & H). apply bind_inr in H as (seed & _ & H).
  apply bind_inr in H as (ex & He & H). apply bind_inr in H as (t & _ & H).
  apply bind_inr in H as (time & _ & H). injection H as <-.
  apply expand_move_inr in He as (s & _ & ->).
  exists time. eexists. exists s. split; [reflexivity|].
  destruct (existsb (text_eqb lbl) LABELS) eqn:E; [|simpl; auto].
  apply existsb_exists in E as (y & Hy & E). apply text_eqb_eq in E. now subst y.
Qed.

Lemma map_normalise_inr (moves norm : list json) :
  map_m normalise_move moves = inr norm ->
  Forall (fun x => exists time, normal_move time x) norm.
Proof.
  revert norm. induction moves as [|m moves IH]; intros norm H.
  - injection H as <-. constructor.
  - apply map_m_cons_inr in H as (y & ys & Hy & H & ->).
    constructor; [now apply normalise_move_inr in Hy | now apply IH].
Qed.

Lemma normal_move_retime (time slot : text) (d : dict) :
  normal_move time (JDict d) ->
  normal_move slot (JDict (store d (str "time") (JStr slot))).
Proof.
  intros (label & s & E & L). injection E as ->. exists label, s. split; [reflexivity | exact L].
Qed.

Lemma assign_normal (norm slots : list json) :
  (4 <= length norm)%nat ->
  Forall (fun x => exists time, normal_move time x) norm ->
  _assign_speech_slots (JList norm) = inr slots ->
  exists m0 m1 m2 m3,
    slots = [m0; m1; m2; m3] /\
    normal_move (str "First Speech") m0 /\ normal_move (str "Second Speech") m1 /\
    normal_move (str "Third Speech") m2 /\ normal_move (str "Reply") m3.
Proof.
  intros L F H.
  apply assign_slots_inr in H as (l & d0 & d1 & d2 & d3 & [= <-] & E & ->).
  destruct norm as [|x0 [|x1 [|x2 [|x3 norm]]]]; try (simpl in L; lia).
  simpl in E. injection E as -> -> -> ->.
  inversion F as [|? ? (t0 & N0) F1]; subst. inversion F1 as [|? ? (t1 & N1) F2]; subst.
  inversion F2 as [|? ? (t2 & N2) F3]; subst. inversion F3 as [|? ? (t3 & N3) F4]; subst.
  do 4 eexists. split; [reflexivity|].
  repeat split; eapply normal_move_retime; eassumption.
Qed.

(** What a turn of the loop of [ensure_analysis_defaults] that returns read
    and wrote. *)
Lemma normalise_side_full (t side : text) (r r' : json) :
  normalise_side t side r = inr r' ->
  exists d a blob,
    r = JDict d /\ lookup d (str "analysis") = Some (JDict a) /\
    r' = JDict (store d (str "analysis") (JDict (store a side (JDict blob)))) /\
    normal_side blob.
Proof.
  unfold normalise_side. intros H.
  apply bind_inr in H as (an & Han & H). apply py_item_inr in Han as (d & -> & La).
  apply bind_inr in H as (b & Hb & H). apply py_get_inr in Hb as (a & -> & _).
  apply bind_inr in H as (o & Ho & H). apply py_get_inr in Ho as (bd & Eblob & _).
  rewrite Eblob in H.
  apply bind_inr in H as (ov & Hov & H).
  cbn [py_setitem bind ret] in H.
  apply bind_inr in H as (i & _ & H). apply bind_inr in H as (imp & Himp & H).
  cbn [py_setitem bind ret] in H.
  apply bind_inr in H as (mv & _ & H). apply bind_inr in H as (moves & _ & H).
  apply bind_inr in H as (norm & Hnorm & H). apply bind_inr in H as (pad & Hpad & H).
  apply bind_inr in H as (slots & Hslots & H).
  cbn [py_setitem bind ret] in H. injection H as <-.
  apply py_strip_inr in Hov as (sov & _ & ->).
  apply py_strip_inr in Himp as (simp & _ & ->).
  apply map_normalise_inr in Hnorm.
  apply expand_move_inr in Hpad as (sp & _ & ->).
  apply assign_normal in Hslots as (m0 & m1 & m2 & m3 & -> & N).
  - exists d, a. eexists. split; [reflexivity|]. split; [exact La|].
    split; [reflexivity|]. split; [|split].
    + eexists. rewrite !lookup_store_ne by reflexivity. rewrite lookup_store_eq.
      split; [reflexivity|].
      destruct (nonempty (strip sov)) eqn:E.
      * apply ensure_min_nonempty. right. lia.
      * apply overview_fallback_nonempty.
    + eexists. rewrite lookup_store_ne by reflexivity. rewrite lookup_store_eq.
      split; [reflexivity|].
      destruct (nonempty (strip simp)) eqn:E.
      * apply ensure_min_nonempty. right. lia.
      * apply improvements_fallback_nonempty.
    + exists m0, m1, m2, m3. rewrite lookup_store_eq. auto.
  - rewrite length_app, repeat_length. lia.
  - apply Forall_app. split; [exact Hnorm|]. apply Forall_forall.
    intros x Hx. apply repeat_spec in Hx. subst x.
    exists []. exists (str "good"), sp. split; [reflexivity | simpl; auto].
Qed.

Lemma ensure_analysis_defaults_full (r : json) (t : text) (r' : json) :
  ensure_analysis_defaults r t = inr r' ->
  exists d ba bn x,
    r' = JDict (store d (str "analysis") x) /\
    path x [str "affirmative"] = Some (JDict ba) /\
    path x [str "negative"] = Some (JDict bn) /\
    normal_side ba /\ normal_side bn.
Proof.
  unfold ensure_analysis_defaults. destruct r as [ | | | | | |d0]; try discriminate.
  unfold sides. cbn [for_each]. intros H.
  apply bind_inr in H as (r1 & H1 & H). apply bind_inr in H as (r2 & H2 & H).
  injection H as <-.
  apply normalise_side_full in H1 as (d & a & ba & _ & _ & -> & Na).
  apply normalise_side_full in H2 as (d' & a' & bn & Ed & La' & -> & Nn).
  injection Ed as <-. rewrite lookup_store_eq in La'. injection La' as <-.
  exists d, ba, bn. eexists. split; [now rewrite store_store|].
  rewrite path_store_ne by reflexivity. rewrite !path_store_eq. auto.
Qed.

(** X15: when [ensure_analysis_defaults] returns, nothing outside [analysis]
    has changed and both sides are normal: overview and improvements are
    non-empty strings and there are exactly four moves, in the four slots,
    each with a label among the five and an explanation that ends with the
    clause of its label. *)
Theorem X15_analysis_defaults_leave_a_normal_analysis (result : json) (t : text) (r : json) :
  ensure_analysis_defaults result t = inr r ->
  unchanged_off (str "analysis") result r /\
  forall side, In side sides ->
    exists blob, path r [str "analysis"; side] = Some (JDict blob) /\ normal_side blob.
Proof.
  intros H. split; [now apply ensure_analysis_defaults_inr in H|].
  apply ensure_analysis_defaults_full in H as (d & ba & bn & x & -> & Pa & Pn & Na & Nn).
  intros side [<- | [<- | []]]; eexists; rewrite path_store_eq; eauto.
Qed.

Lemma expand_move_str (label s : text) :
  s <> [] -> _expand_move label (JStr s) = inr (strip (s ++ move_extra label)).
Proof.
  intros H. unfold _expand_move, py_or.
  destruct s as [|c s]; [contradiction|]. cbn [truthy].
  now destruct (expand_text label (c :: s)) as (-> & _).
Qed.

Lemma default_pad :
  _expand_move (str "good")
    (JStr (str "A generally solid contribution with clear structure and relevance.")) =
  inr default_explanation.
Proof. apply expand_move_str. discriminate. Qed.

Lemma normalise_side_default (t side : text) (d a : dict) :
  lookup d (str "analysis") = Some (JDict a) ->
  truthy (get_default a side JNull) = false ->
  normalise_side t side (JDict d) =
  inr (JDict (store d (str "analysis")
                (JDict (store a side (default_side (upper side) t))))).
Proof.
  intros La F. unfold normalise_side. cbn [py_item]. rewrite La.
  cbn [bind ret py_get]. unfold py_or. rewrite F.
  rewrite default_pad. reflexivity.
Qed.

Lemma falsy_default (a : dict) (side : text) :
  (forall v, lookup a side = Some v -> truthy v = false) ->
  truthy (get_default a side JNull) = false.
Proof.
  intros H. unfold get_default. destruct (lookup a side) as [v|]; [now apply H | reflexivity].
Qed.

(** The loop of [ensure_analysis_defaults] on a side that is missing or
    falsy. *)
Lemma both_sides_default (t : text) (d a : dict) (r1 r2 : json) (side : text) :
  lookup d (str "analysis") = Some (JDict a) ->
  normalise_side t (str "affirmative") (JDict d) = inr r1 ->
  normalise_side t (str "negative") r1 = inr r2 ->
  In side sides ->
  truthy (get_default a side JNull) = false ->
  path r2 [str "analysis"; side] = Some (default_side (upper side) t).
Proof.
  intros La H1 H2 Hside F. destruct Hside as [<- | [<- | []]].
  - rewrite (normalise_side_default t _ d a La F) in H1. injection H1 as <-.
    apply normalise_side_full in H2 as (d' & a' & bn & Ed & La' & -> & _).
    injection Ed as <-. rewrite lookup_store_eq in La'. injection La' as <-.
    rewrite path_store_eq, path_store_ne by reflexivity. now rewrite path_store_eq.
  - apply normalise_side_full in H1 as (d' & a' & ba & Ed & La' & -> & _).
    injection Ed as <-. rewrite La in La'. injection La' as <-.
    rewrite (normalise_side_default t _ _ (store a (str "affirmative") (JDict ba))) in H2.
    + injection H2 as <-. now rewrite !path_store_eq.
    + apply lookup_store_eq.
    + now rewrite get_default_store_ne by reflexivity.
Qed.

(** X16: a side that is missing or falsy is given the default analysis: the
    fallback overview and improvements for its upper-cased name and four
    moves labelled good with the default explanation; when [analysis]
    itself is missing or is not an object, the function returns with both
    sides filled so. *)
Theorem X16_missing_analysis_is_filled_with_defaults (result : json) (t : text) :
  (forall r side,
     ensure_analysis_defaults result t = inr r -> In side sides ->
     (forall v, path result [str "analysis"; side] = Some v -> truthy v = false) ->
     path r [str "analysis"; side] = Some (default_side (upper side) t)) /\
  (forall d,
     result = JDict d -> (forall a, lookup d (str "analysis") <> Some (JDict a)) ->
     ensure_analysis_defaults result t =
     inr (JDict (store d (str "analysis")
                   (JDict [(str "affirmative", default_side (str "AFFIRMATIVE") t);
                           (str "negative", default_side (str "NEGATIVE") t)])))).
Proof.
  split.
  - intros r side H Hside F. unfold ensure_analysis_defaults in H.
    destruct result as [ | | | | | |d]; try discriminate.
    unfold sides in H. cbn [for_each] in H.
    apply bind_inr in H as (r1 & H1 & H). apply bind_inr in H as (r2 & H2 & H).
    injection H as <-.
    assert (D : forall a, lookup d (str "analysis") = Some (JDict a) ->
              truthy (get_default a side JNull) = false).
    { intros a La. apply falsy_default. intros v Lv. apply F.
      now rewrite path_dict_cons, La, path_one. }
    destruct (lookup d (str "analysis")) as [[ | | | | | |a]|] eqn:La;
      try (eapply both_sides_default; try eassumption;
           [apply lookup_store_eq | reflexivity]).
    eapply both_sides_default; try eassumption. now apply D.
  - intros d -> N. unfold ensure_analysis_defaults.
    replace (match lookup d (str "analysis") with
             | Some (JDict _) => JDict d
             | _ => JDict (store d (str "analysis") (JDict []))
             end) with (JDict (store d (str "analysis") (JDict []))).
    + unfold sides. cbn [for_each].
      rewrite (normalise_side_default t _ _ []);
        [|apply lookup_store_eq | reflexivity].
      cbn [bind]. rewrite store_store.
      rewrite (normalise_side_default t _ _ _ (lookup_store_eq _ _ _)) by reflexivity.
      cbn [bind ret]. now rewrite store_store.
    + destruct (lookup d (str "analysis")) as [[ | | | | | |a]|] eqn:La; try reflexivity.
      now destruct (N a).
Qed.

Lemma normal_move_explanation (slot : text) (m : json) :
  normal_move slot m ->
  exists label e, m = move slot label e /\ In label LABELS /\ e <> [] /\
    forall label', strip (e ++ move_extra label') = e ++ move_extra label'.
Proof.
  intros (label & s & -> & Hl). exists label. eexists. split; [reflexivity|].
  split; [exact Hl|].
  assert (N : strip (s ++ move_extra label) <> []).
  { destruct (expand_text label s) as (_ & C). intros E. rewrite E in C.
    change (sentence_count []) with 0%nat in C. lia. }
  split; [exact N|]. intros label'.
  destruct (move_extra_sentences label') as (Stop & _).
  rewrite strip_app_stop by assumption. now apply lstrip_app_fixed.
Qed.

Lemma normal_move_has_explanation (slot : text) (m : json) :
  normal_move slot m -> has_explanation m = true.
Proof. intros (label & s & -> & _). reflexivity. Qed.

Lemma py_strip_or (v : json) :
  (exists t, py_strip (py_or v (JStr [])) = inr t) <-> str_or_falsy v = true.
Proof.
  unfold py_or. destruct v as [ |b|z|f|s|l|d]; cbn [truthy str_or_falsy].
  - split; [reflexivity | intros _; eexists; reflexivity].
  - destruct b; cbn; split; try discriminate; try reflexivity.
    + intros (t & E). discriminate.
    + intros _. eexists. reflexivity.
  - destruct (negb (z =? 0)); cbn; split; try discriminate; try reflexivity.
    + intros (t & E). discriminate.
    + intros _. eexists. reflexivity.
  - destruct f as [ | |q]; cbn; try (split; [intros (t & E); discriminate | discriminate]).
    destruct (negb (Qeq_bool q 0)); cbn; split; try discriminate; try reflexivity.
    + intros (t & E). discriminate.
    + intros _. eexists. reflexivity.
  - split; [reflexivity|]. intros _. destruct s; eexists; reflexivity.
  - destruct l; cbn; split; try discriminate; try reflexivity.
    + intros _. eexists. reflexivity.
    + intros (t & E). discriminate.
  - destruct d; cbn; split; try discriminate; try reflexivity.
    + intros _. eexists. reflexivity.
    + intros (t & E). discriminate.
Qed.

Lemma py_lower_or (v : json) (dflt : text) :
  dflt <> [] ->
  ((exists t, py_lower (py_or v (JStr dflt)) = inr t) <-> str_or_falsy v = true).
Proof.
  intros _. unfold py_or. destruct v as [ |b|z|f|s|l|d]; cbn [truthy str_or_falsy].
  - split; [reflexivity | intros _; eexists; reflexivity].
  - destruct b; cbn; split; try discriminate; try reflexivity.
    + intros (t & E). discriminate.
    + intros _. eexists. reflexivity.
  - destruct (negb (z =? 0)); cbn; split; try discriminate; try reflexivity.
    + intros (t & E). discriminate.
    + intros _. eexists. reflexivity.
  - destruct f as [ | |q]; cbn; try (split; [intros (t & E); discriminate | discriminate]).
    destruct (negb (Qeq_bool q 0)); cbn; split; try discriminate; try reflexivity.
    + intros (t & E). discriminate.
    + intros _. eexists. reflexivity.
  - split; [reflexivity|]. intros _. destruct s; eexists; reflexivity.
  - destruct l; cbn; split; try discriminate; try reflexivity.
    + intros _. eexists. reflexivity.
    + intros (t & E). discriminate.
  - destruct d; cbn; split; try discriminate; try reflexivity.
    + intros _. eexists. reflexivity.
    + intros (t & E). discriminate.
Qed.

Lemma expand_move_text (label s : text) : exists e, _expand_move label (JStr s) = inr e.
Proof.
  unfold _expand_move, py_or. destruct (truthy (JStr s)); eexists; reflexivity.
Qed.

Lemma normalise_move_returns (m : json) :
  (exists x, normalise_move m = inr x) <-> move_ok m = true.
Proof.
  unfold normalise_move, move_ok. destruct m as [ | | | | | |d];
    try (split; [intros (x & E); discriminate | discriminate]).
  cbn [py_get bind ret]. rewrite !andb_true_iff.
  rewrite <- (py_lower_or (get_default d (str "label") JNull) (str "good")) by discriminate.
  rewrite <- (py_strip_or (get_default d (str "explanation") JNull)).
  rewrite <- (py_strip_or (get_default d (str "time") JNull)).
  split.
  - intros (x & H).
    apply bind_inr in H as (lbl & Hl & H). apply bind_inr in H as (seed & Hs & H).
    apply bind_inr in H as (ex & _ & H). apply bind_inr in H as (time & Ht & _).
    split; [split|]; eexists; eassumption.
  - intros (((lbl & ->) & (seed & ->)) & (time & ->)). cbn [bind].
    match goal with
    | |- context [_expand_move ?l (JStr seed)] =>
        destruct (expand_move_text l seed) as (e & ->)
    end.
    cbn [bind ret]. eexists. reflexivity.
Qed.

Lemma map_normalise_returns (l : list json) :
  (exists norm, map_m normalise_move l = inr norm) <-> forallb move_ok l = true.
Proof.
  induction l as [|m l IH]; cbn [map_m forallb].
  - split; [reflexivity | intros _; eexists; reflexivity].
  - rewrite andb_true_iff, <- IH, <- normalise_move_returns. split.
    + intros (norm & H). apply bind_inr in H as (y & Hy & H).
      apply bind_inr in H as (ys & Hys & _). eauto.
    + intros ((y & ->) & (ys & ->)). cbn [bind ret]. eexists. reflexivity.
Qed.

(** The loop over the moves of a side returns exactly on a list of moves
    it can normalise, or on a falsy value. *)
Lemma iter_moves (mv : json) :
  (exists moves norm, py_iter (py_or mv (JList [])) = inr moves /\
                      map_m normalise_move moves = inr norm) <->
  moves_ok mv = true.
Proof.
  unfold py_or, moves_ok. destruct mv as [ |b|z|f|s|l|d]; cbn [truthy].
  - split; [reflexivity | intros _; exists [], []; split; reflexivity].
  - destruct b; cbn; split; try discriminate; try reflexivity.
    + intros (? & ? & E & _). discriminate.
    + intros _. exists [], []. split; reflexivity.
  - destruct (negb (z =? 0)); cbn; split; try discriminate; try reflexivity.
    + intros (? & ? & E & _). discriminate.
    + intros _. exists [], []. split; reflexivity.
  - destruct f as [ | |q]; cbn;
      try (split; [intros (? & ? & E & _); discriminate | discriminate]).
    destruct (negb (Qeq_bool q 0)); cbn; split; try discriminate; try reflexivity.
    + intros (? & ? & E & _). discriminate.
    + intros _. exists [], []. split; reflexivity.
  - destruct s as [|c s]; cbn [py_iter negb].
    + split; [reflexivity | intros _; exists [], []; split; reflexivity].
    + split; [|discriminate]. intros (moves & norm & [= <-] & E).
      cbn [map] in E. apply map_m_cons_inr in E as (y & ys & Hy & _). discriminate Hy.
  - rewrite <- map_normalise_returns. destruct l as [|m l]; cbn [py_iter].
    + split; [intros _; eexists; reflexivity | intros _; exists [], []; split; reflexivity].
    + split.
      * intros (moves & norm & [= <-] & E). eauto.
      * intros (norm & E). eauto.
  - destruct d as [|kv d]; cbn [py_iter negb].
    + split; [reflexivity | intros _; exists [], []; split; reflexivity].
    + split; [|discriminate]. intros (moves & norm & [= <-] & E).
      cbn [map] in E. apply map_m_cons_inr in E as (y & ys & Hy & _). discriminate Hy.
Qed.

Lemma normal_is_dict (norm : list json) :
  Forall (fun x => exists time, normal_move time x) norm -> forallb is_dict norm = true.
Proof.
  intros H. apply forallb_forall. intros x Hx.
  rewrite Forall_forall in H. now destruct (H x Hx) as (time & label & s & -> & _).
Qed.

Lemma forallb_firstn {A} (f : A -> bool) (n : nat) (l : list A) :
  forallb f l = true -> forallb f (firstn n l) = true.
Proof.
  revert n. induction l as [|x l IH]; intros [|n] H; try reflexivity.
  apply forallb_cons_true in H as [Hx H]. simpl. now rewrite Hx, IH.
Qed.

Lemma assign_normal_returns (norm : list json) (pad : text) :
  Forall (fun x => exists time, normal_move time x) norm ->
  exists slots,
    _assign_speech_slots
      (JList (norm ++ repeat (move [] (str "good") pad) (4 - length norm))) = inr slots.
Proof.
  intros H.
  apply assign_slots_dicts.
  apply forallb_firstn. rewrite forallb_app, (normal_is_dict norm H). cbn [andb].
  apply forallb_forall. intros x Hx. apply repeat_spec in Hx. now subst x.
Qed.

Lemma normalise_side_returns (t side : text) (d a : dict) :
  lookup d (str "analysis") = Some (JDict a) ->
  ((exists r, normalise_side t side (JDict d) = inr r) <->
   side_ok (get_default a side JNull) = true).
Proof.
  intros La. unfold normalise_side, side_ok. cbn [py_item]. rewrite La.
  cbn [bind ret py_get].
  destruct (py_or (get_default a side JNull) (JDict [])) as [ | | | | | |blob];
    try (split; [intros (r & E); discriminate | discriminate]).
  cbn [py_get bind ret]. rewrite !andb_true_iff.
  rewrite <- (py_strip_or (get_default blob (str "overview") JNull)).
  rewrite <- (py_strip_or (get_default blob (str "improvements") JNull)).
  rewrite <- (iter_moves (get_default blob (str "notable_moves") JNull)).
  split.
  - intros (r & H).
    apply bind_inr in H as (ov & Hov & H). cbn [py_setitem bind ret py_get] in H.
    rewrite get_default_store_ne in H by reflexivity.
    apply bind_inr in H as (imp & Himp & H). cbn [py_setitem bind ret py_get] in H.
    rewrite !get_default_store_ne in H by reflexivity.
    apply bind_inr in H as (moves & Hm & H). apply bind_inr in H as (norm & Hn & _).
    split; [split|]; eauto.
  - intros (((ov & ->) & (imp & Himp)) & (moves & norm & Hm & Hn)).
    cbn [py_setitem bind ret py_get].
    rewrite get_default_store_ne by reflexivity. rewrite Himp.
    cbn [py_setitem bind ret py_get].
    rewrite !get_default_store_ne by reflexivity. rewrite Hm. cbn [bind]. rewrite Hn.
    cbn [bind]. rewrite default_pad. cbn [bind].
    destruct (assign_normal_returns norm default_explanation (map_normalise_inr _ _ Hn))
      as (slots & ->).
    cbn [bind py_setitem ret]. eexists. reflexivity.
Qed.

(** X17: [ensure_analysis_defaults] returns exactly on an object whose
    sides, where truthy, are objects with an overview and improvements
    that are strings or falsy and with moves that are falsy or a list of
    objects whose label, explanation and time are strings or falsy. *)
Theorem X17_analysis_defaults_return_exactly_on_readable_analysis
    (result : json) (t : text) :
  (exists r, ensure_analysis_defaults result t = inr r) <-> analysis_ok result = true.
Proof.
  unfold ensure_analysis_defaults, analysis_ok.
  destruct result as [ | | | | | |d];
    try (split; [intros (r & E); discriminate | discriminate]).
  set (a := match lookup d (str "analysis") with Some (JDict a) => a | _ => [] end).
  assert (D : exists d0,
            match lookup d (str "analysis") with
            | Some (JDict _) => JDict d
            | _ => JDict (store d (str "analysis") (JDict []))
            end = JDict d0 /\ lookup d0 (str "analysis") = Some (JDict a)).
  { subst a. destruct (lookup d (str "analysis")) as [[ | | | | | |a]|] eqn:La;
      try (eexists; split; [reflexivity | apply lookup_store_eq]).
    exists d. auto. }
  destruct D as (d0 & -> & La).
  unfold sides. cbn [for_each forallb]. rewrite andb_true_r, andb_true_iff.
  rewrite <- (normalise_side_returns t (str "affirmative") d0 a La).
  split.
  - intros (r & H). apply bind_inr in H as (r1 & H1 & H).
    apply bind_inr in H as (r2 & H2 & _). split; [eauto|].
    apply normalise_side_full in H1 as (d' & a' & ba & Ed & La' & -> & _).
    injection Ed as <-. rewrite La in La'. injection La' as <-.
    rewrite <- (get_default_store_ne a (str "affirmative") (str "negative") (JDict ba))
      by reflexivity.
    apply (normalise_side_returns t (str "negative")
             (store d0 (str "analysis") (JDict (store a (str "affirmative") (JDict ba))))
             (store a (str "affirmative") (JDict ba)) (lookup_store_eq _ _ _)).
    eauto.
  - intros ((r1 & H1) & Hn). rewrite H1. cbn [bind].
    apply normalise_side_full in H1 as (d' & a' & ba & Ed & La' & -> & _).
    injection Ed as <-. rewrite La in La'. injection La' as <-.
    rewrite <- (get_default_store_ne a (str "affirmative") (str "negative") (JDict ba)) in Hn
      by reflexivity.
    apply (normalise_side_returns t (str "negative")
             (store d0 (str "analysis") (JDict (store a (str "affirmative") (JDict ba))))
             (store a (str "affirmative") (JDict ba)) (lookup_store_eq _ _ _)) in Hn
      as (r2 & ->).
    cbn [bind ret]. eexists. reflexivity.
Qed.

(** *** Defaults, then rebalancing *)

(** The move written over a normal move: its explanation with one more
    clause. *)
Lemma forced_over_normal (win : bool) (i : nat) (slot : text) (m n : json) :
  normal_move slot m -> forced_move win i m n ->
  exists label e,
    m = move slot label e /\ In label LABELS /\ e <> [] /\
    n = move (nth i SPEECH_SLOTS []) (nth i (template win) [])
             (e ++ move_extra (nth i (template win) [])).
Proof.
  intros N (seed & s & P & O & ->).
  destruct (normal_move_explanation slot m N) as (label & e & -> & Hl & Ne & S).
  exists label, e. split; [reflexivity|]. split; [exact Hl|]. split; [exact Ne|].
  cbn in P. injection P as <-.
  unfold py_or in O. destruct e as [|c e]; [contradiction|].
  cbn [truthy] in O. injection O as <-. now rewrite S.
Qed.

Lemma path_app (r : json) (ks ks' : list text) :
  path r (ks ++ ks') = match path r ks with Some x => path x ks' | None => None end.
Proof.
  revert r. induction ks as [|k ks IH]; intros r; [reflexivity|].
  cbn [app path]. destruct r as [ | | | | | |d]; try reflexivity.
  destruct (lookup d k); [apply IH | reflexivity].
Qed.

Lemma normal_moves_of (r : json) (side : text) (blob : dict) :
  path r [str "analysis"; side] = Some (JDict blob) -> normal_side blob ->
  exists m0 m1 m2 m3,
    side_moves r side [m0; m1; m2; m3] /\
    notable_moves_of r side = Some [m0; m1; m2; m3] /\
    normal_move (str "First Speech") m0 /\ normal_move (str "Second Speech") m1 /\
    normal_move (str "Third Speech") m2 /\ normal_move (str "Reply") m3.
Proof.
  intros P (_ & _ & m0 & m1 & m2 & m3 & L & N).
  exists m0, m1, m2, m3. split; [|split; [|exact N]].
  - exists blob. split; [exact P|]. unfold get_default. now rewrite L.
  - unfold notable_moves_of.
    change [str "analysis"; side; str "notable_moves"]
      with ([str "analysis"; side] ++ [str "notable_moves"]).
    now rewrite path_app, P, path_one, L.
Qed.

Lemma normal_ready (r : json) : normal_analysis r -> rebalance_ready r.
Proof.
  intros H side Hside. destruct (H side Hside) as (blob & P & N).
  destruct (normal_moves_of r side blob P N) as (m0 & m1 & m2 & m3 & M & _ & N0 & N1 & N2 & N3).
  eexists. split; [exact M|]. cbn [firstn forallb].
  now rewrite (normal_move_has_explanation _ _ N0), (normal_move_has_explanation _ _ N1),
              (normal_move_has_explanation _ _ N2), (normal_move_has_explanation _ _ N3).
Qed.

Lemma defaults_normal (result : json) (t : text) (r : json) :
  ensure_analysis_defaults result t = inr r -> normal_analysis r.
Proof.
  intros H.
  apply ensure_analysis_defaults_full in H as (d & ba & bn & x & -> & Pa & Pn & Na & Nn).
  intros side [<- | [<- | []]]; eexists; rewrite path_store_eq; eauto.
Qed.

Lemma normal_unchanged (k : text) (r r' : json) :
  unchanged_off k r r' -> text_eqb k (str "analysis") = false ->
  normal_analysis r -> normal_analysis r'.
Proof.
  intros [_ U] K H side Hside. destruct (H side Hside) as (blob & P & N).
  exists blob. split; [|exact N]. now rewrite U.
Qed.

(** The moves the rebalancer leaves over a normal analysis. *)
Lemma rebalance_normal (r winner r2 : json) (side : text) :
  normal_analysis r -> rebalance_notable_moves r winner = inr r2 -> In side sides ->
  exists l0 l1 l2 l3 e0 e1 e2 e3,
    notable_moves_of r side =
      Some [move (str "First Speech") l0 e0; move (str "Second Speech") l1 e1;
            move (str "Third Speech") l2 e2; move (str "Reply") l3 e3] /\
    Forall (fun l => In l LABELS) [l0; l1; l2; l3] /\
    Forall (fun e => e <> []) [e0; e1; e2; e3] /\
    let forced := template (is_winner winner side) in
    notable_moves_of r2 side =
      Some [move (str "First Speech") (nth 0 forced []) (e0 ++ move_extra (nth 0 forced []));
            move (str "Second Speech") (nth 1 forced []) (e1 ++ move_extra (nth 1 forced []));
            move (str "Third Speech") (nth 2 forced []) (e2 ++ move_extra (nth 2 forced []));
            move (str "Reply") (nth 3 forced []) (e3 ++ move_extra (nth 3 forced []))].
Proof.
  intros H R Hside. destruct (H side Hside) as (blob & P & N).
  destruct (normal_moves_of r side blob P N)
    as (m0 & m1 & m2 & m3 & M & NM & N0 & N1 & N2 & N3).
  pose proof R as R'.
  apply rebalance_full in R'
    as (d' & a & sa & sn & la & ln & newa & newn & -> & La & Lsa & Lsn & Ga & Gn & E2 &
        Na' & Nn' & Fa & Fn).
  assert (F : exists new,
            notable_moves_of r2 side = Some new /\ length new = 4%nat /\
            forall i m, nth_error [m0; m1; m2; m3] i = Some m ->
              exists n, nth_error new i = Some n /\
                        forced_move (is_winner winner side) i m n).
  { destruct Hside as [<- | [<- | []]].
    - pose proof (side_moves_at _ a sa _ la _ La Lsa Ga M) as E. subst la.
      change (padded [m0; m1; m2; m3]) with [m0; m1; m2; m3] in Fa.
      exists newa. split; [|auto]. subst r2. unfold notable_moves_of.
      rewrite path_store_eq, path_store_ne by reflexivity. now rewrite !path_store_eq.
    - pose proof (side_moves_at _ a sn _ ln _ La Lsn Gn M) as E. subst ln.
      change (padded [m0; m1; m2; m3]) with [m0; m1; m2; m3] in Fn.
      exists newn. split; [|auto]. subst r2. unfold notable_moves_of.
      now rewrite !path_store_eq. }
  destruct F as (new & NM2 & L & F).
  destruct (four_elements new L) as (n0 & n1 & n2 & n3 & ->).
  destruct (F 0%nat m0 eq_refl) as (n0' & [= <-] & F0).
  destruct (F 1%nat m1 eq_refl) as (n1' & [= <-] & F1).
  destruct (F 2%nat m2 eq_refl) as (n2' & [= <-] & F2).
  destruct (F 3%nat m3 eq_refl) as (n3' & [= <-] & F3).
  destruct (forced_over_normal _ _ _ _ _ N0 F0) as (l0 & e0 & -> & I0 & E0 & ->).
  destruct (forced_over_normal _ _ _ _ _ N1 F1) as (l1 & e1 & -> & I1 & E1 & ->).
  destruct (forced_over_normal _ _ _ _ _ N2 F2) as (l2 & e2 & -> & I2 & E2' & ->).
  destruct (forced_over_normal _ _ _ _ _ N3 F3) as (l3 & e3 & -> & I3 & E3 & ->).
  exists l0, l1, l2, l3, e0, e1, e2, e3.
  split; [exact NM|].
  split; [repeat (apply Forall_cons; [assumption|]); apply Forall_nil|].
  split; [repeat (apply Forall_cons; [assumption|]); apply Forall_nil | exact NM2].
Qed.

(** X20: after [ensure_analysis_defaults] the rebalancer always returns, and
    each explanation it writes is the explanation the defaults left,
    whole, followed by the clause of the forced label: the clause of the
    label the model chose stays in the text. *)
Theorem X20_defaults_then_rebalancing_stack_two_clauses
    (result : json) (t : text) (r1 winner : json) (side : text) :
  ensure_analysis_defaults result t = inr r1 -> In side sides ->
  exists r2 l0 l1 l2 l3 e0 e1 e2 e3,
    rebalance_notable_moves r1 winner = inr r2 /\
    notable_moves_of r1 side =
      Some [move (str "First Speech") l0 e0; move (str "Second Speech") l1 e1;
            move (str "Third Speech") l2 e2; move (str "Reply") l3 e3] /\
    let forced := template (is_winner winner side) in
    notable_moves_of r2 side =
      Some [move (str "First Speech") (nth 0 forced []) (e0 ++ move_extra (nth 0 forced []));
            move (str "Second Speech") (nth 1 forced []) (e1 ++ move_extra (nth 1 forced []));
            move (str "Third Speech") (nth 2 forced []) (e2 ++ move_extra (nth 2 forced []));
            move (str "Reply") (nth 3 forced []) (e3 ++ move_extra (nth 3 forced []))].
Proof.
  intros H Hside. pose proof (defaults_normal _ _ _ H) as N.
  destruct (rebalance_ready_returns r1 winner (normal_ready _ N)) as (r2 & R).
  destruct (rebalance_normal r1 winner r2 side N R Hside)
    as (l0 & l1 & l2 & l3 & e0 & e1 & e2 & e3 & M1 & _ & _ & M2).
  exists r2, l0, l1, l2, l3, e0, e1, e2, e3. auto.
Qed.

(** *** The payload of a transcript *)

Lemma length_lstrip (t : text) : (length (lstrip t) <= length t)%nat.
Proof.
  induction t as [|c t IH]; simpl; [lia|]. destruct (isspace c); simpl; lia.
Qed.

Lemma length_strip (t : text) : (length (strip t) <= length t)%nat.
Proof.
  unfold strip, rstrip. rewrite length_rev.
  pose proof (length_lstrip (rev (lstrip t))) as H. rewrite length_rev in H.
  pose proof (length_lstrip t). lia.
Qed.

Lemma length_sub_tags (skip : nat) (t : text) : (length (sub_tags skip t) <= length t)%nat.
Proof.
  revert skip. induction t as [|c t IH]; intros skip; simpl; [lia|].
  destruct skip as [|k].
  - destruct (match_tag (c :: t)).
    + pose proof (IH (length t - length t0)%nat). lia.
    + simpl. pose proof (IH 0%nat). lia.
  - pose proof (IH k). lia.
Qed.

Lemma length_join (c : char) (lines : list text) :
  (length (join [c] lines) <= lines_size lines - 1)%nat.
Proof.
  induction lines as [|p ps IH]; [simpl; lia|].
  destruct ps as [|q ps].
  - simpl. lia.
  - change (join [c] (p :: q :: ps)) with (p ++ [c] ++ join [c] (q :: ps)).
    rewrite !length_app. simpl length at 2.
    change (lines_size (p :: q :: ps)) with (length p + 1 + lines_size (q :: ps))%nat.
    assert (1 <= lines_size (q :: ps))%nat by (simpl; lia). lia.
Qed.

Lemma lines_size_filter (f : text -> bool) (lines : list text) :
  (lines_size (filter f lines) <= lines_size lines)%nat.
Proof.
  induction lines as [|p ps IH]; simpl; [lia|].
  destruct (f p); simpl; lia.
Qed.

Lemma lines_size_splitlines (cur : text) (after_cr : bool) (t : text) :
  (lines_size (splitlines_from cur after_cr t) <= length cur + length t + 1)%nat.
Proof.
  revert cur after_cr. induction t as [|c t IH]; intros cur after_cr.
  - simpl. destruct cur; simpl; [lia|]. rewrite length_app, length_rev. simpl. lia.
  - cbn [splitlines_from].
    destruct (after_cr && (c =? 10)%N)%bool.
    + pose proof (IH cur false). simpl. lia.
    + destruct (islinebreak c).
      * pose proof (IH [] (c =? 13)%N). simpl in *. rewrite length_rev. lia.
      * pose proof (IH (c :: cur) false). simpl in *. lia.
Qed.

Lemma length_filter_le {A} (f : A -> bool) (l : list A) :
  (length (filter f l) <= length l)%nat.
Proof. induction l as [|x l IH]; simpl; [lia|]. destruct (f x); simpl; lia. Qed.

Lemma payload_length (t : text) : (length (speech_payload t) <= length t)%nat.
Proof.
  unfold speech_payload, _extract_payload_text, speech_lines. cbv zeta.
  pose proof (length_strip (sub_tags 0
    (join [10%N] (filter (fun ln => match match_tag_head ln with Some _ => true | None => false end)
                   (filter (fun ln => nonempty (strip ln)) (splitlines t)))))) as H1.
  pose proof (length_sub_tags 0
    (join [10%N] (filter (fun ln => match match_tag_head ln with Some _ => true | None => false end)
                   (filter (fun ln => nonempty (strip ln)) (splitlines t))))) as H2.
  pose proof (length_join 10%N
    (filter (fun ln => match match_tag_head ln with Some _ => true | None => false end)
       (filter (fun ln => nonempty (strip ln)) (splitlines t)))) as H3.
  pose proof (lines_size_filter
    (fun ln => match match_tag_head ln with Some _ => true | None => false end)
    (filter (fun ln => nonempty (strip ln)) (splitlines t))) as H4.
  pose proof (lines_size_filter (fun ln => nonempty (strip ln)) (splitlines t)) as H5.
  pose proof (lines_size_splitlines [] false t) as H6. fold (splitlines t) in H6.
  simpl length in H6.
  eapply Nat.le_trans; [exact H1|]. eapply Nat.le_trans; [exact H2|].
  eapply Nat.le_trans; [exact H3|].
  assert (H7 : (lines_size
                 (filter (fun ln => match match_tag_head ln with
                                    | Some _ => true
                                    | None => false
                                    end)
                    (filter (fun ln => nonempty (strip ln)) (splitlines t))) <=
               length t + 1)%nat).
  { eapply Nat.le_trans; [exact H4|]. eapply Nat.le_trans; [exact H5 | exact H6]. }
  revert H7. generalize (lines_size
                 (filter (fun ln => match match_tag_head ln with
                                    | Some _ => true
                                    | None => false
                                    end)
                    (filter (fun ln => nonempty (strip ln)) (splitlines t)))).
  intros n H7. lia.
Qed.

(** X6: the payload is never longer than the transcript and there are never
    more speech lines than lines; so a transcript of fewer than 120
    characters, or of fewer than 3 lines, is low-content. *)
Theorem X6_short_transcripts_are_low_content (transcript_text : text) :
  (length (speech_payload transcript_text) <= length transcript_text)%nat /\
  (length (speech_lines transcript_text) <= length (splitlines transcript_text))%nat /\
  ((length transcript_text < 120)%nat \/ (length (splitlines transcript_text) < 3)%nat ->
   is_low_content transcript_text = true).
Proof.
  pose proof (payload_length transcript_text) as P.
  assert (L : (length (speech_lines transcript_text) <=
               length (splitlines transcript_text))%nat).
  { unfold speech_lines. cbv zeta.
    pose proof (length_filter_le
      (fun ln => match match_tag_head ln with Some _ => true | None => false end)
      (filter (fun ln => nonempty (strip ln)) (splitlines transcript_text))).
    pose proof (length_filter_le (fun ln => nonempty (strip ln)) (splitlines transcript_text)).
    lia. }
  split; [exact P|]. split; [exact L|]. intros H. unfold is_low_content.
  destruct (negb (nonempty transcript_text) ||
            negb (nonempty (strip transcript_text)))%bool; [reflexivity|].
  apply orb_true_iff. unfold LOW_CONTENT_SPEECH_MIN, LOW_CONTENT_CHAR_MIN.
  rewrite !Nat.ltb_lt. lia.
Qed.

Lemma match_tag_no_bracket (c : char) (t : text) :
  N.eqb c 91%N = false -> match_tag (c :: t) = None.
Proof.
  intros H. unfold match_tag, match_tag_head.
  destruct t as [|d1 [|d2 [|co [|d3 [|d4 [|sp t]]]]]]; try reflexivity.
  now rewrite H.
Qed.

Lemma sub_tags_plain (t : text) : no_char 91%N t = true -> sub_tags 0 t = t.
Proof.
  induction t as [|c t IH]; [reflexivity|]. intros H. unfold no_char in *.
  apply forallb_cons_true in H as [Hc H]. apply negb_true_iff in Hc.
  cbn [sub_tags]. rewrite match_tag_no_bracket by assumption. now rewrite IH.
Qed.

(** X7: [_extract_payload_text] never lengthens a text, and on a text with
    no opening bracket it only strips. *)
Theorem X7_payload_of_a_text_without_tags (transcript_text : text) :
  (length (_extract_payload_text transcript_text) <= length transcript_text)%nat /\
  (no_char 91%N transcript_text = true ->
   _extract_payload_text transcript_text = strip transcript_text).
Proof.
  unfold _extract_payload_text. split.
  - pose proof (length_strip (sub_tags 0 transcript_text)).
    pose proof (length_sub_tags 0 transcript_text). lia.
  - intros H. now rewrite sub_tags_plain.
Qed.

Lemma lstrip_blank_app (u v : text) : forallb isspace u = true -> lstrip (u ++ v) = lstrip v.
Proof.
  induction u as [|c u IH]; [reflexivity|]. intros H.
  apply forallb_cons_true in H as [Hc H]. simpl. rewrite Hc. now apply IH.
Qed.

Lemma until_bracket_app (name rest : text) :
  no_char 93%N name = true -> until_bracket (name ++ 93%N :: rest) = (name, 93%N :: rest).
Proof.
  induction name as [|c name IH]; [reflexivity|]. intros H. unfold no_char in *.
  apply forallb_cons_true in H as [Hc H]. apply negb_true_iff in Hc.
  cbn [app until_bracket]. rewrite Hc, IH by assumption. reflexivity.
Qed.

Lemma sub_tags_skip (x rest : text) : sub_tags (length x) (x ++ rest) = sub_tags 0 rest.
Proof.
  induction x as [|c x IH]; [reflexivity|].
  cbn [length app]. destruct rest as [|r rest]; cbn [sub_tags]; exact IH.
Qed.

Lemma lstrip_suffix (t : text) : exists ws, t = ws ++ lstrip t.
Proof.
  induction t as [|c t (ws & IH)]; [now exists []|]. simpl.
  destruct (isspace c); [|now exists []].
  exists (c :: ws). simpl. now rewrite <- IH.
Qed.

Lemma no_char_lstrip (c : char) (t : text) : no_char c t = true -> no_char c (lstrip t) = true.
Proof.
  intros H. destruct (lstrip_suffix t) as (ws & E). rewrite E in H.
  unfold no_char in *. rewrite forallb_app in H. now apply andb_prop in H as [_ H].
Qed.

Lemma strip_lstrip (t : text) : strip (lstrip t) = strip t.
Proof. unfold strip. now rewrite lstrip_idempotent. Qed.

Lemma tag_side (side rest : text) :
  side = str "AFF" \/ side = str "NEG" ->
  match lstrip (side ++ 45%N :: rest) with
  | a :: b :: c :: dash :: r =>
      if (is_AFF_or_NEG a b c && N.eqb dash 45)%bool then Some r else None
  | _ => None
  end = Some rest.
Proof. intros [-> | ->]; reflexivity. Qed.

Lemma speech_tag_parts (d1 d2 d3 d4 sp : char) (gap side name trail body : text) :
  speech_tag d1 d2 d3 d4 (sp :: gap) side name trail ++ body =
  91%N :: d1 :: d2 :: 58%N :: d3 :: d4 :: sp ::
    gap ++ side ++ 45%N :: name ++ 93%N :: trail ++ body.
Proof.
  unfold speech_tag. cbn [app]. do 7 f_equal.
  rewrite <- !app_assoc. cbn [app]. now rewrite <- !app_assoc.
Qed.

Lemma match_speech_tag (d1 d2 d3 d4 : char) (gap side name trail body : text) :
  isdecimal d1 = true -> isdecimal d2 = true -> isdecimal d3 = true -> isdecimal d4 = true ->
  gap <> [] -> forallb isspace gap = true ->
  side = str "AFF" \/ side = str "NEG" ->
  name <> [] -> no_char 93%N name = true ->
  forallb isspace trail = true ->
  match_tag (speech_tag d1 d2 d3 d4 gap side name trail ++ body) = Some (lstrip body).
Proof.
  intros H1 H2 H3 H4 Hg Hgs Hside Hn Hnb Ht.
  destruct gap as [|sp gap]; [contradiction|].
  apply forallb_cons_true in Hgs as [Hsp Hgs].
  rewrite speech_tag_parts. unfold match_tag, match_tag_head.
  rewrite H1, H2, H3, H4, Hsp. cbn [N.eqb Pos.eqb andb].
  rewrite lstrip_blank_app by assumption. rewrite (tag_side _ _ Hside).
  rewrite until_bracket_app by assumption.
  destruct name as [|n0 name]; [contradiction|].
  now rewrite lstrip_blank_app.
Qed.

(** X8: a well-formed tag at the start of a text (two decimal digits, a
    colon, two decimal digits, white space, AFF or NEG, a dash, a speaker
    name without closing bracket, the closing bracket) is removed together
    with the white space after it: of a body without opening bracket the
    stripped body is left. *)
Theorem X8_payload_of_a_tagged_line
    (d1 d2 d3 d4 : char) (gap side name trail body : text) :
  isdecimal d1 = true -> isdecimal d2 = true -> isdecimal d3 = true -> isdecimal d4 = true ->
  gap <> [] -> forallb isspace gap = true ->
  side = str "AFF" \/ side = str "NEG" ->
  name <> [] -> no_char 93%N name = true ->
  forallb isspace trail = true ->
  no_char 91%N body = true ->
  _extract_payload_text (speech_tag d1 d2 d3 d4 gap side name trail ++ body) = strip body.
Proof.
  intros H1 H2 H3 H4 Hg Hgs Hside Hn Hnb Ht Hb.
  pose proof (match_speech_tag d1 d2 d3 d4 gap side name trail body
                H1 H2 H3 H4 Hg Hgs Hside Hn Hnb Ht) as M.
  unfold _extract_payload_text.
  destruct (lstrip_suffix body) as (ws & E).
  remember (speech_tag d1 d2 d3 d4 gap side name trail) as tg eqn:Etg.
  assert (T : exists x, tg ++ body = 91%N :: x ++ lstrip body).
  { exists (tl tg ++ ws). rewrite Etg. unfold speech_tag. cbn [app tl].
    rewrite <- !app_assoc. cbn [app]. now rewrite <- E. }
  destruct T as (x & T). rewrite T in M |- *.
  cbn [sub_tags]. rewrite M.
  replace (length (x ++ lstrip body) - length (lstrip body))%nat with (length x)
    by (rewrite length_app; lia).
  rewrite sub_tags_skip, sub_tags_plain by now apply no_char_lstrip.
  apply strip_lstrip.
Qed.

(** *** The pipeline *)

Lemma enforce_ranges_frame (d : dict) (r : json) :
  enforce_ranges (JDict d) = inr r -> unchanged_off (str "scores") (JDict d) r.
Proof.
  intros H. destruct (enforce_ranges_in_bounds d r H) as (_ & x & ->).
  apply unchanged_off_store.
Qed.

(** What steps 2 to 4 return: a verdict that passed validation, with
    sanitised scores and a normal analysis, and otherwise as the model
    gave it. *)
Lemma validated_inr (result : json) (t : text) (r2 : json) :
  validated result t = inr r2 ->
  validate r2 = true /\ scores_in_bounds r2 /\ normal_analysis r2 /\
  (exists d d2, result = JDict d /\ r2 = JDict d2) /\
  forall k ks, text_eqb (str "scores") k = false -> text_eqb (str "analysis") k = false ->
    path r2 (k :: ks) = path result (k :: ks).
Proof.
  unfold validated. intros H.
  apply bind_inr in H as (r0 & H0 & H). apply bind_inr in H as (r1 & H1 & H).
  pose proof (ensure_analysis_defaults_inr _ _ _ H1) as S1.
  pose proof (defaults_normal _ _ _ H1) as N1.
  destruct S1 as [(d0 & d1 & -> & ->) S1].
  destruct result as [ | | | | | |d]; try discriminate.
  destruct (enforce_ranges_in_bounds _ _ H0) as (B0 & _).
  destruct (enforce_ranges_frame _ _ H0) as (_ & S0).
  assert (B1 : scores_in_bounds (JDict d1)).
  { intros side speech field Hs Hsp Hf. unfold score_field.
    rewrite S1 by reflexivity. now apply B0. }
  unfold validate_with_retry in H.
  destruct (validate (JDict d1)) eqn:V.
  - injection H as <-. split; [exact V|]. split; [exact B1|]. split; [exact N1|].
    split; [eauto|]. intros k ks K1 K2. now rewrite S1, S0.
  - apply bind_inr in H as (ra & Ha & H). apply bind_inr in H as (rb & Hb & H).
    destruct (validate rb) eqn:Vb; [|discriminate]. injection H as <-.
    destruct (enforce_ranges_in_bounds _ _ Ha) as (Ba & _).
    destruct (enforce_ranges_frame _ _ Ha) as (_ & Sa).
    pose proof (ensure_analysis_defaults_inr _ _ _ Hb) as Sb.
    split; [exact Vb|]. split; [|split; [|split]].
    + apply (scores_in_bounds_unchanged _ _ _ Sb); [reflexivity | exact Ba].
    + exact (defaults_normal _ _ _ Hb).
    + destruct Sb as [(da & db & _ & ->) _]. eauto.
    + intros k ks K1 K2. destruct Sb as [_ Sb]. now rewrite Sb, Sa, S1, S0.
Qed.

(** The states [judge] goes through when it returns. *)
Lemma judge_steps (result : json) (t : text) (v : json) :
  judge result t = inr v ->
  exists d2 a n d4 x,
    validated result t = inr (JDict d2) /\
    compute_totals (JDict d2) = inr (a, n) /\
    tie_break (JDict (store d2 (str "totals") (totals_dict (a, n)))) (a, n) = inr (JDict d4) /\
    rebalance_notable_moves (JDict d4) (get_default d4 (str "winner") (JStr (str "TIE"))) =
      inr (JDict (store d4 (str "analysis") x)) /\
    v = JDict (store (store d4 (str "analysis") x) (str "final_statement")
                 (JStr (final_statement a n))).
Proof.
  unfold judge. intros H.
  apply bind_inr in H as (r0 & H0 & H). apply bind_inr in H as (r1 & H1 & H).
  apply bind_inr in H as (r2 & H2 & H).
  assert (V : validated result t = inr r2).
  { unfold validated. rewrite H0. cbn [bind]. rewrite H1. exact H2. }
  destruct (validated_inr _ _ _ V) as (_ & _ & _ & (d & d2 & _ & ->) & _).
  apply bind_inr in H as ([a n] & T & H).
  cbn [py_setitem bind ret fst snd] in H.
  apply bind_inr in H as (r4 & H4 & H).
  pose proof (tie_break_inr _ _ _ H4) as [(? & d4 & _ & ->) _].
  cbn [py_get bind ret] in H.
  apply bind_inr in H as (r5 & R & H).
  destruct (rebalance_inr _ _ _ R)
    as (d4' & an & ? & ? & ? & ? & ? & ? & ? & ? & Ed & -> & _).
  injection Ed as <-. cbn [py_setitem] in H. injection H as <-.
  exists d2, a, n, d4, an. auto.
Qed.

Lemma raw_total_same (r r' : json) (side : text) :
  (forall ks, path r' (str "scores" :: ks) = path r (str "scores" :: ks)) ->
  raw_total r' side = raw_total r side.
Proof.
  intros H. unfold raw_total, speeches, speakers, fields.
  cbn [app map sum_Z fold_right]. unfold score_value, score_field.
  now rewrite !H.
Qed.

Lemma scores_same (r r' : json) :
  (forall ks, path r' (str "scores" :: ks) = path r (str "scores" :: ks)) ->
  scores_in_bounds r -> scores_in_bounds r'.
Proof.
  intros H B side speech field Hs Hsp Hf. unfold score_field. rewrite H. now apply B.
Qed.

(** The final verdict against the validated one. *)
Lemma judge_frame (d2 d4 : dict) (a n : Z) (x : json) (fs : json) :
  tie_break (JDict (store d2 (str "totals") (totals_dict (a, n)))) (a, n) = inr (JDict d4) ->
  forall k ks,
    text_eqb (str "totals") k = false -> text_eqb (str "winner") k = false ->
    text_eqb (str "analysis") k = false -> text_eqb (str "final_statement") k = false ->
    path (JDict (store (store d4 (str "analysis") x) (str "final_statement") fs)) (k :: ks) =
    path (JDict d2) (k :: ks).
Proof.
  intros H k ks K1 K2 K3 K4. apply tie_break_inr in H as [_ U].
  rewrite !path_store_ne by assumption. rewrite U by assumption.
  now rewrite path_store_ne.
Qed.

(** X22: in a verdict [judge] returns, the scores are within bounds,
    [totals] holds the sums of the scores of the verdict itself, each
    between 0 and 350, and the final statement is the one of these totals. *)
Theorem X22_verdict_totals_are_the_sums_of_its_scores (result : json) (t : text) (v : json) :
  judge result t = inr v ->
  scores_in_bounds v /\
  path v [str "totals"] =
    Some (totals_dict (raw_total v (str "affirmative"), raw_total v (str "negative"))) /\
  0 <= raw_total v (str "affirmative") <= 350 /\
  0 <= raw_total v (str "negative") <= 350 /\
  path v [str "final_statement"] =
    Some (JStr (final_statement (raw_total v (str "affirmative"))
                                (raw_total v (str "negative")))).
Proof.
  intros H. apply judge_steps in H as (d2 & a & n & d4 & x & V & T & B & _ & ->).
  destruct (validated_inr _ _ _ V) as (_ & S2 & _).
  destruct (compute_totals_value _ S2) as (T' & Ra & Rn).
  rewrite T in T'. injection T' as -> ->.
  assert (F : forall ks,
            path (JDict (store (store d4 (str "analysis") x) (str "final_statement")
                     (JStr (final_statement (raw_total (JDict d2) (str "affirmative"))
                                            (raw_total (JDict d2) (str "negative"))))))
              (str "scores" :: ks) = path (JDict d2) (str "scores" :: ks)).
  { intros ks. now apply (judge_frame d2 d4 _ _ x _ B). }
  rewrite !(raw_total_same _ _ _ F).
  split; [exact (scores_same _ _ F S2)|].
  split; [|split; [exact Ra | split; [exact Rn | now rewrite path_store_eq]]].
  rewrite !path_store_ne by reflexivity.
  apply tie_break_inr in B as [_ U]. rewrite U by reflexivity.
  now rewrite path_store_eq.
Qed.

Lemma not_in_keys (k : text) :
  ~ In k judge_keys ->
  text_eqb (str "scores") k = false /\ text_eqb (str "analysis") k = false /\
  text_eqb (str "winner") k = false /\ text_eqb (str "totals") k = false /\
  text_eqb (str "final_statement") k = false.
Proof.
  intros H. repeat split; apply text_eqb_neq; intros <-; apply H; simpl; auto 6.
Qed.

(** X24: [judge] returns only on an object, and every key other than scores,
    analysis, winner, totals and final_statement reads in the verdict as
    in the response of the model. *)
Theorem X24_judge_passes_other_keys_through (result : json) (t : text) (v : json) :
  judge result t = inr v ->
  (exists d, result = JDict d) /\
  forall k ks, ~ In k judge_keys -> path v (k :: ks) = path result (k :: ks).
Proof.
  intros H. apply judge_steps in H as (d2 & a & n & d4 & x & V & _ & B & _ & ->).
  destruct (validated_inr _ _ _ V) as (_ & _ & _ & (d & d2' & -> & _) & F).
  split; [eauto|]. intros k ks K.
  destruct (not_in_keys k K) as (K1 & K2 & K3 & K4 & K5).
  rewrite (judge_frame d2 d4 a n x _ B) by assumption. now apply F.
Qed.

Lemma normal_tie_break (d2 d4 : dict) (a n : Z) :
  normal_analysis (JDict d2) ->
  tie_break (JDict (store d2 (str "totals") (totals_dict (a, n)))) (a, n) = inr (JDict d4) ->
  normal_analysis (JDict d4).
Proof.
  intros N B. apply tie_break_inr in B.
  apply (normal_unchanged _ _ _ B); [reflexivity|].
  apply (normal_unchanged (str "totals") (JDict d2)); [|reflexivity | exact N].
  apply unchanged_off_store.
Qed.

(** X25: [judge] raises exactly when sanitising, the analysis defaults or
    validation raise, and then their exception; once these have returned
    a verdict, which has passed validation, the totals, the tie-break, the
    rebalancing and the final statement never raise. *)
Theorem X25_judge_raises_before_the_totals_or_not_at_all (result : json) (t : text) :
  (forall e, validated result t = inl e -> judge result t = inl e) /\
  (forall r2, validated result t = inr r2 ->
     validate r2 = true /\ exists v, judge result t = inr v).
Proof.
  split.
  - unfold validated, judge. intros e H.
    destruct (enforce_ranges result) as [e0 | r0]; [exact H|]. cbn [bind] in *.
    destruct (ensure_analysis_defaults r0 t) as [e1 | r1]; [exact H|]. cbn [bind] in *.
    destruct (validate_with_retry r1 t) as [e2 | r2]; [exact H | discriminate].
  - intros r2 V.
    destruct (validated_inr _ _ _ V) as (Val & S2 & N2 & (d & d2 & -> & ->) & _).
    split; [exact Val|].
    destruct (compute_totals_value _ S2) as (T & _).
    pose proof (tie_break_dict (store d2 (str "totals")
                  (totals_dict (raw_total (JDict d2) (str "affirmative"),
                                raw_total (JDict d2) (str "negative"))))
                  (raw_total (JDict d2) (str "affirmative"),
                   raw_total (JDict d2) (str "negative"))) as B.
    match type of B with _ = inr (JDict ?d) => set (d4 := d) in * end.
    pose proof (normal_tie_break _ _ _ _ N2 B) as N4.
    destruct (rebalance_ready_returns (JDict d4)
                (get_default d4 (str "winner") (JStr (str "TIE"))) (normal_ready _ N4))
      as (r5 & R).
    destruct (rebalance_inr _ _ _ R)
      as (d4' & an & ? & ? & ? & ? & ? & ? & ? & ? & _ & E5 & _).
    unfold validated in V. unfold judge.
    destruct (enforce_ranges (JDict d)) as [e0 | r0]; [discriminate|]. cbn [bind] in *.
    destruct (ensure_analysis_defaults r0 t) as [e1 | r1]; [discriminate|]. cbn [bind] in *.
    rewrite V. cbn [bind]. rewrite T. cbn [bind py_setitem ret fst snd].
    rewrite B. cbn [bind py_get ret]. rewrite R. cbn [bind]. rewrite E5.
    cbn [py_setitem]. eexists. reflexivity.
Qed.

Lemma template_of_side (d4 : dict) (an fs : json) (side : text) :
  In side sides ->
  template (is_winner (get_default d4 (str "winner") (JStr (str "TIE"))) side) =
  template_of
    (winner_of (JDict (store (store d4 (str "analysis") an) (str "final_statement") fs)))
    (upper side).
Proof.
  intros Hside. unfold winner_of. rewrite !path_store_ne by reflexivity. rewrite path_one.
  unfold template, template_of.
  destruct Hside as [<- | [<- | []]].
  - rewrite is_winner_affirmative_eq, winner_default by reflexivity.
    change (upper (str "affirmative")) with (str "AFFIRMATIVE").
    now destruct (lookup d4 (str "winner")).
  - rewrite is_winner_negative_eq, winner_default by reflexivity.
    change (upper (str "negative")) with (str "NEGATIVE").
    now destruct (lookup d4 (str "winner")).
Qed.

(** X26: in a verdict [judge] returns, each explanation is the non-empty
    explanation of the validated verdict followed by the clause of the
    final label of its slot; the labels of the validated verdict are
    among the five. *)
Theorem X26_final_explanations_carry_two_clauses
    (result : json) (t : text) (v : json) (side : text) :
  judge result t = inr v -> In side sides ->
  exists r2 l0 l1 l2 l3 e0 e1 e2 e3,
    validated result t = inr r2 /\
    notable_moves_of r2 side =
      Some [move (str "First Speech") l0 e0; move (str "Second Speech") l1 e1;
            move (str "Third Speech") l2 e2; move (str "Reply") l3 e3] /\
    Forall (fun l => In l LABELS) [l0; l1; l2; l3] /\
    Forall (fun e => e <> []) [e0; e1; e2; e3] /\
    let forced := template_of (winner_of v) (upper side) in
    notable_moves_of v side =
      Some [move (str "First Speech") (nth 0 forced []) (e0 ++ move_extra (nth 0 forced []));
            move (str "Second Speech") (nth 1 forced []) (e1 ++ move_extra (nth 1 forced []));
            move (str "Third Speech") (nth 2 forced []) (e2 ++ move_extra (nth 2 forced []));
            move (str "Reply") (nth 3 forced []) (e3 ++ move_extra (nth 3 forced []))].
Proof.
  intros H Hside. apply judge_steps in H as (d2 & a & n & d4 & x & V & _ & B & R & ->).
  destruct (validated_inr _ _ _ V) as (_ & _ & N2 & _).
  pose proof (normal_tie_break _ _ _ _ N2 B) as N4.
  destruct (rebalance_normal _ _ _ side N4 R Hside)
    as (l0 & l1 & l2 & l3 & e0 & e1 & e2 & e3 & M4 & HL & HE & M5).
  exists (JDict d2), l0, l1, l2, l3, e0, e1, e2, e3.
  split; [exact V|]. split; [|split; [exact HL | split; [exact HE|]]].
  - rewrite <- M4. unfold notable_moves_of.
    apply tie_break_inr in B as [_ U]. rewrite U by reflexivity.
    now rewrite path_store_ne by reflexivity.
  - cbv zeta in M5 |- *. rewrite <- (template_of_side d4 x _ side Hside).
    rewrite <- M5. unfold notable_moves_of. now rewrite path_store_ne by reflexivity.
Qed.

Lemma tie_break_winner (d3 d4 : dict) (a n : Z) :
  tie_break (JDict d3) (a, n) = inr (JDict d4) ->
  lookup d4 (str "winner") = resolved_winner (lookup d3 (str "winner")) a n.
Proof.
  rewrite tie_break_dict. cbn [fst snd]. intros [= <-].
  unfold get_default, resolved_winner.
  destruct (lookup d3 (str "winner")) as [w|] eqn:L; [|cbn; exact L].
  destruct (eq_str w (str "TIE")) eqn:TIE; cbn [andb]; [|exact L].
  destruct (1 <=? Z.abs (a - n)) eqn:G.
  - rewrite lookup_store_eq. apply Z.leb_le in G.
    replace (a =? n) with false by (symmetry; apply Z.eqb_neq; lia).
    replace (0 <? a - n) with (n <? a); [reflexivity|].
    destruct (n <? a) eqn:C; symmetry;
      [apply Z.ltb_lt in C; apply Z.ltb_lt | apply Z.ltb_ge in C; apply Z.ltb_ge]; lia.
  - apply Z.leb_gt in G.
    replace (a =? n) with true by (symmetry; apply Z.eqb_eq; lia).
    apply eq_str_true in TIE. now subst w.
Qed.

(** X23: the winner of a verdict [judge] returns is the declared winner
    resolved by the totals of the verdict: after a declared TIE it is TIE
    exactly when the totals are equal, AFFIRMATIVE exactly when the
    affirmative total is the higher and NEGATIVE exactly when it is the
    lower; any other declared winner is kept, whatever the totals. *)
Theorem X23_winner_follows_the_totals_only_on_a_declared_tie
    (result : json) (t : text) (v : json) :
  judge result t = inr v ->
  let a := raw_total v (str "affirmative") in
  let n := raw_total v (str "negative") in
  winner_of v = resolved_winner (path result [str "winner"]) a n /\
  (path result [str "winner"] = Some (JStr (str "TIE")) ->
     (winner_of v = Some (JStr (str "TIE")) <-> a = n) /\
     (winner_of v = Some (JStr (str "AFFIRMATIVE")) <-> n < a) /\
     (winner_of v = Some (JStr (str "NEGATIVE")) <-> a < n)) /\
  (forall w, path result [str "winner"] = Some w -> w <> JStr (str "TIE") ->
     winner_of v = Some w).
Proof.
  intros H a n. apply judge_steps in H as (d2 & a0 & n0 & d4 & x & V & T & B & _ & E).
  destruct (validated_inr _ _ _ V) as (_ & S2 & _ & _ & F).
  destruct (compute_totals_value _ S2) as (T' & _).
  rewrite T in T'. injection T' as -> ->.
  assert (Fs : forall ks, path v (str "scores" :: ks) = path (JDict d2) (str "scores" :: ks)).
  { intros ks. subst v. now apply (judge_frame d2 d4 _ _ x _ B). }
  assert (Ra : raw_total (JDict d2) (str "affirmative") = a)
    by (symmetry; apply raw_total_same, Fs).
  assert (Rn : raw_total (JDict d2) (str "negative") = n)
    by (symmetry; apply raw_total_same, Fs).
  rewrite Ra, Rn in B.
  assert (W : winner_of v = resolved_winner (path result [str "winner"]) a n).
  { subst v. unfold winner_of. rewrite !path_store_ne by reflexivity. rewrite path_one.
    rewrite (tie_break_winner _ _ _ _ B), lookup_store_ne by reflexivity.
    now rewrite <- F, path_one by reflexivity. }
  split; [exact W|]. rewrite W. split.
  - intros ->. cbn [resolved_winner eq_str]. rewrite text_eqb_refl.
    destruct (a =? n) eqn:E1; [apply Z.eqb_eq in E1 | apply Z.eqb_neq in E1].
    + split; [|split]; (split; [intros Q; try (vm_compute in Q; discriminate) | intros; try lia]);
        auto.
    + destruct (n <? a) eqn:E2; [apply Z.ltb_lt in E2 | apply Z.ltb_ge in E2];
        (split; [|split]);
        (split; [intros Q; try (vm_compute in Q; discriminate); try lia
                | intros; try lia; try reflexivity]).
  - intros w -> Hw. unfold resolved_winner.
    destruct (eq_str w (str "TIE")) eqn:E1; [|reflexivity].
    apply eq_str_true in E1. contradiction.
Qed.

(** *** What the sanitiser leaves alone, and what it raises *)

Lemma text_eqb_sym (a b : text) : text_eqb a b = text_eqb b a.
Proof.
  destruct (text_eqb a b) eqn:E.
  - apply text_eqb_eq in E. subst. symmetry. apply text_eqb_refl.
  - symmetry. apply text_eqb_neq. apply text_eqb_neq in E. congruence.
Qed.

Lemma on_path_nil (ks : list text) : on_path [] ks = true.
Proof. now destruct ks. Qed.

Lemma on_path_cons (l : list text) (ls : list (list text)) (k : text) (ks : list text) :
  on_path (l :: ls) (k :: ks) = existsb (text_eqb k) l && on_path ls ks.
Proof. reflexivity. Qed.

(** Storing a child that agrees with the old one off the paths [levels]. *)
Lemma store_child_frame (levels : list (list text)) (d c c' : dict) (key : text) :
  dict_or_missing (lookup d key) = true ->
  get_default d key (JDict []) = JDict c ->
  (forall ks, on_path levels ks = false -> path (JDict c') ks = path (JDict c) ks) ->
  forall k ks, text_eqb k key && on_path levels ks = false ->
    path (JDict (store d key (JDict c'))) (k :: ks) = path (JDict d) (k :: ks).
Proof.
  intros Hd G F k ks H.
  destruct (text_eqb k key) eqn:E.
  - apply text_eqb_eq in E. subst k. cbn [andb] in H.
    rewrite path_store_eq, (F ks H).
    destruct (child_dict d key Hd) as (c0 & G0 & P). rewrite G in G0. injection G0 as <-.
    destruct ks as [|k ks]; [destruct levels; discriminate|]. apply P.
  - apply path_store_ne. now rewrite text_eqb_sym.
Qed.

Lemma clip_speech_frame (a b c : Z) (d : dict) :
  0 <= a -> 0 <= b -> 0 <= c ->
  exists d', clip_speech a b c (JDict d) = inr (JDict d') /\
    forall ks, on_path [fields] ks = false -> path (JDict d') ks = path (JDict d) ks.
Proof.
  intros Ha Hb Hc. unfold clip_speech.
  destruct (clip_field_spec (str "matter") a d Ha) as (n1 & -> & _). cbn [bind].
  destruct (clip_field_spec (str "manner") b (store d (str "matter") (JInt n1)) Hb)
    as (n2 & -> & _).
  cbn [bind].
  destruct (clip_field_spec (str "method") c
              (store (store d (str "matter") (JInt n1)) (str "manner") (JInt n2)) Hc)
    as (n3 & -> & _).
  eexists. split; [reflexivity|]. intros [|k ks] H; [discriminate|].
  rewrite on_path_cons, on_path_nil, andb_true_r in H. cbn [existsb fields] in H.
  rewrite orb_false_r in H.
  apply orb_false_elim in H as [H1 H]. apply orb_false_elim in H as [H2 H3].
  rewrite !path_store_ne; [reflexivity | | |]; now rewrite text_eqb_sym.
Qed.

Lemma clip_speech_at_frame (a b c : Z) (speech : text) (so : dict) :
  0 <= a -> 0 <= b -> 0 <= c ->
  dict_or_missing (lookup so speech) = true ->
  exists ds', clip_speech_at a b c speech (JDict so) =
                inr (JDict (store so speech (JDict ds'))) /\
    forall k ks, text_eqb k speech && on_path [fields] ks = false ->
      path (JDict (store so speech (JDict ds'))) (k :: ks) = path (JDict so) (k :: ks).
Proof.
  intros Ha Hb Hc Hd. unfold clip_speech_at. cbn [py_get bind ret].
  destruct (child_dict so speech Hd) as (ds & G & _). rewrite G.
  destruct (clip_speech_frame a b c ds Ha Hb Hc) as (ds' & -> & F).
  cbn [bind py_setitem ret]. exists ds'. split; [reflexivity|].
  now apply (store_child_frame [fields] so ds ds').
Qed.

(** The four speeches of a side. *)
Lemma enforce_side_frame (side : text) (sc : dict) :
  dict_or_missing (lookup sc side) = true ->
  forallb (fun speech => dict_or_missing (path (JDict sc) [side; speech])) speeches = true ->
  exists so', enforce_side side (JDict sc) = inr (JDict (store sc side (JDict so'))) /\
    forall k ks, text_eqb k side && on_path [speeches; fields] ks = false ->
      path (JDict (store sc side (JDict so'))) (k :: ks) = path (JDict sc) (k :: ks).
Proof.
  intros Hside Hsp. unfold enforce_side. simpl py_get.
  destruct (child_dict sc side Hside) as (so & G & Hso). rewrite G. simpl bind.
  unfold speeches, speakers in Hsp. simpl app in Hsp.
  apply forallb_cons_true in Hsp as [H1 Hsp].
  apply forallb_cons_true in Hsp as [H2 Hsp].
  apply forallb_cons_true in Hsp as [H3 Hsp].
  apply forallb_cons_true in Hsp as [H4 _].
  rewrite <- Hso, path_one in H1, H2, H3, H4.
  unfold speakers. cbn [for_each].
  destruct (clip_speech_at_frame 40 30 30 (str "speaker1") so) as (d1 & -> & F1);
    try lia; try assumption.
  simpl bind.
  destruct (clip_speech_at_frame 40 30 30 (str "speaker2")
              (store so (str "speaker1") (JDict d1))) as (d2 & -> & F2);
    try lia; [rewrite lookup_store_ne by reflexivity; assumption|].
  simpl bind.
  destruct (clip_speech_at_frame 40 30 30 (str "speaker3")
              (store (store so (str "speaker1") (JDict d1)) (str "speaker2") (JDict d2)))
    as (d3 & -> & F3);
    try lia; [rewrite !lookup_store_ne by reflexivity; assumption|].
  simpl bind.
  destruct (clip_speech_at_frame 20 15 15 (str "reply")
              (store (store (store so (str "speaker1") (JDict d1))
                        (str "speaker2") (JDict d2)) (str "speaker3") (JDict d3)))
    as (d4 & -> & F4);
    try lia; [rewrite !lookup_store_ne by reflexivity; assumption|].
  simpl bind. eexists. split; [reflexivity|].
  apply (store_child_frame [speeches; fields] sc so); try assumption.
  intros [|k ks] H; [discriminate|].
  rewrite on_path_cons in H.
  assert (S : forall speech, In speech speeches ->
            text_eqb k speech && on_path [fields] ks = false).
  { intros speech Hs. destruct (text_eqb k speech) eqn:E; [|reflexivity].
    apply text_eqb_eq in E. subst speech. cbn [andb].
    destruct (existsb (text_eqb k) speeches) eqn:X; [exact H|].
    exfalso. assert (existsb (text_eqb k) speeches = true); [|congruence].
    apply existsb_exists. exists k. split; [exact Hs | apply text_eqb_refl]. }
  rewrite F4, F3, F2, F1; [reflexivity | | | |]; apply S; simpl; auto.
Qed.

Lemma enforce_ranges_frame_paths (d : dict) :
  score_shape (JDict d) = true ->
  exists r, enforce_ranges (JDict d) = inr r /\
    forall ks, on_path score_levels ks = false -> path r ks = path (JDict d) ks.
Proof.
  unfold score_shape. intros H.
  apply andb_prop in H as [Hsc H].
  apply forallb_cons_true in H as [Ha H].
  apply forallb_cons_true in H as [Hn _].
  apply andb_prop in Ha as [Ha Hsa]. apply andb_prop in Hn as [Hn Hsn].
  rewrite path_one in Hsc.
  destruct (child_dict d (str "scores") Hsc) as (sc & Esc & Hpath).
  rewrite <- Hpath, path_one in Ha, Hn.
  assert (Hsa' : forallb (fun speech =>
                   dict_or_missing (path (JDict sc) [str "affirmative"; speech]))
                   speeches = true).
  { erewrite forallb_pointwise; [exact Hsa|]. intros speech. cbv beta. now rewrite Hpath. }
  assert (Hsn' : forallb (fun speech =>
                   dict_or_missing (path (JDict sc) [str "negative"; speech]))
                   speeches = true).
  { erewrite forallb_pointwise; [exact Hsn|]. intros speech. cbv beta. now rewrite Hpath. }
  destruct (enforce_side_frame (str "affirmative") sc Ha Hsa') as (soa & Ea & Fa).
  destruct (enforce_side_frame (str "negative")
              (store sc (str "affirmative") (JDict soa))) as (son & En & Fn).
  { rewrite lookup_store_ne by reflexivity. exact Hn. }
  { erewrite forallb_pointwise; [exact Hsn'|]. intros speech. cbv beta.
    now rewrite path_store_ne by reflexivity. }
  unfold enforce_ranges. simpl py_get. rewrite Esc. simpl bind.
  unfold sides. cbn [for_each]. rewrite Ea. simpl bind. rewrite En. simpl bind.
  eexists. split; [reflexivity|].
  intros [|k ks] H; [discriminate|]. unfold score_levels in H.
  rewrite on_path_cons in H. cbn [existsb] in H. rewrite orb_false_r in H.
  apply (store_child_frame [sides; speeches; fields] d sc); try assumption.
  clear k ks H. intros [|k ks] H; [discriminate|]. rewrite on_path_cons in H.
  assert (S : forall side, In side sides ->
            text_eqb k side && on_path [speeches; fields] ks = false).
  { intros side Hs. destruct (text_eqb k side) eqn:E; [|reflexivity].
    apply text_eqb_eq in E. subst side. cbn [andb].
    destruct (existsb (text_eqb k) sides) eqn:X; [exact H|].
    exfalso. assert (existsb (text_eqb k) sides = true); [|congruence].
    apply existsb_exists. exists k. split; [exact Hs | apply text_eqb_refl]. }
  rewrite Fn, Fa; [reflexivity | |]; apply S; simpl; auto.
Qed.

(** X27: the sanitiser changes the 24 score fields only: every path that
    leaves the paths scores / side / speech / field (notes, other keys,
    other sections) reads as before. *)
Theorem X27_sanitiser_touches_the_score_fields_only (result r : json) :
  enforce_ranges result = inr r ->
  forall ks, on_path score_levels ks = false -> path r ks = path result ks.
Proof.
  intros H ks K. destruct result as [ | | | | | |d];
    try (injection H as <-; reflexivity).
  pose proof (enforce_ranges_inr d r H) as S.
  destruct (enforce_ranges_frame_paths d S) as (r' & E & F).
  rewrite E in H. injection H as <-. now apply F.
Qed.

Lemma raises_only_bind {A B} (e0 : exn) (m : M A) (k : A -> M B) :
  raises_only e0 m -> (forall a, m = inr a -> raises_only e0 (k a)) ->
  raises_only e0 (bind m k).
Proof.
  intros Hm Hk e. destruct m as [e' | a]; cbn [bind].
  - intros [= <-]. now apply Hm.
  - now apply Hk.
Qed.

Lemma clip_speech_raises (a b c : Z) (s : json) :
  0 <= a -> 0 <= b -> 0 <= c ->
  raises_only AttributeError (clip_speech a b c s) /\
  forall s', clip_speech a b c s = inr s' -> exists d', s' = JDict d'.
Proof.
  intros Ha Hb Hc.
  destruct s as [ | | | | | |d];
    try (split; [intros e [= <-]; reflexivity | intros s' [=]]).
  destruct (clip_speech_spec a b c d Ha Hb Hc) as (d' & -> & _).
  split; [intros e [=] | intros s' [= <-]; eauto].
Qed.

Lemma clip_speech_at_raises (a b c : Z) (speech : text) (side_obj : json) :
  0 <= a -> 0 <= b -> 0 <= c ->
  raises_only AttributeError (clip_speech_at a b c speech side_obj).
Proof.
  intros Ha Hb Hc. unfold clip_speech_at.
  destruct side_obj as [ | | | | | |so]; try (intros e [= <-]; reflexivity).
  cbn [py_get bind ret].
  destruct (clip_speech_raises a b c (get_default so speech (JDict [])) Ha Hb Hc) as (R & D).
  apply raises_only_bind; [exact R|]. intros s' E e. cbn [py_setitem]. discriminate.
Qed.

Lemma enforce_side_raises (side : text) (scores : json) :
  raises_only AttributeError (enforce_side side scores).
Proof.
  unfold enforce_side.
  destruct scores as [ | | | | | |sc]; try (intros e [= <-]; reflexivity).
  cbn [py_get bind ret]. unfold speakers. cbn [for_each].
  apply raises_only_bind.
  - repeat (apply raises_only_bind;
            [apply clip_speech_at_raises; lia | intros ? _]).
    intros e [=].
  - intros so3 _. apply raises_only_bind; [apply clip_speech_at_raises; lia|].
    intros so4 _ e. cbn [py_setitem]. discriminate.
Qed.

(** X28: the only exception of the sanitiser is [AttributeError], and it
    returns exactly on a value that is no object or whose [scores], sides
    and speeches are objects or missing. *)
Theorem X28_sanitiser_raises_attribute_errors_only (result : json) :
  raises_only AttributeError (enforce_ranges result) /\
  ((exists r, enforce_ranges result = inr r) <->
   is_dict result = false \/ score_shape result = true).
Proof.
  split.
  - unfold enforce_ranges. destruct result as [ | | | | | |d];
      try (intros e E; discriminate E).
    cbn [py_get bind ret]. unfold sides. cbn [for_each].
    apply raises_only_bind.
    + repeat (apply raises_only_bind; [apply enforce_side_raises | intros ? _]).
      intros e [=].
    + intros sc _ e. cbn [py_setitem]. discriminate.
  - destruct result as [ | | | | | |d];
      try (split; [intros _; left; reflexivity | intros _; eexists; reflexivity]).
    split.
    + intros (r & H). right. exact (enforce_ranges_inr d r H).
    + intros [H | H]; [discriminate|].
      destruct (enforce_ranges_spec (JDict d) H) as (r & E & _). eauto.
Qed.

End WithRuntime.
End JudgeLaws.


(** ** The tie-break, the final statement and the gate

    Three properties the specification states, proved against its own
    words: the totals as sums of the sanitised scores, the scaled scores as
    roundings to one decimal, and the tags of a transcript as the texts of
    a given form. *)

Module JudgeRules.
Import Judge Verdict Behaviour JudgeFacts JudgeLaws.

Section WithRuntime.
Context {RT : Runtime}.

(** *** The tie-break in the pipeline *)

(** The scores of a validated verdict are those the sanitiser left at its
    first pass: the retry sanitises scores that are within bounds already. *)
Lemma validated_scores (result : json) (t : text) (r2 : json) :
  validated result t = inr r2 ->
  exists r0,
    enforce_ranges result = inr r0 /\
    forall ks, path r2 (str "scores" :: ks) = path r0 (str "scores" :: ks).
Proof.
  unfold validated. intros H.
  apply bind_inr in H as (r0 & H0 & H). apply bind_inr in H as (r1 & H1 & H).
  exists r0. split; [exact H0|].
  pose proof (ensure_analysis_defaults_inr _ _ _ H1) as S1.
  destruct S1 as [(d0 & d1 & -> & ->) S1].
  destruct result as [ | | | | | |d]; try discriminate.
  destruct (enforce_ranges_in_bounds _ _ H0) as (B0 & _).
  assert (B1 : scores_in_bounds (JDict d1)).
  { intros side speech field Hs Hsp Hf. unfold score_field.
    rewrite S1 by reflexivity. now apply B0. }
  unfold validate_with_retry in H.
  destruct (validate (JDict d1)).
  - injection H as <-. intros ks. now apply S1.
  - apply bind_inr in H as (ra & Ha & H). apply bind_inr in H as (rb & Hb & H).
    destruct (validate rb); [|discriminate]. injection H as <-.
    rewrite (enforce_ranges_fixed _ B1) in Ha. injection Ha as <-.
    destruct (ensure_analysis_defaults_inr _ _ _ Hb) as [_ Sb].
    intros ks. rewrite Sb by reflexivity. now apply S1.
Qed.

(** C4: in a verdict [judge] returns, [totals] holds the two raw totals of
    the sanitised scores, which are the scores of the verdict.  When the
    model declared TIE and the totals differ by at least 1, the winner is
    the side with the strictly higher total, and the winner is TIE exactly
    when the totals are equal; a declared AFFIRMATIVE or NEGATIVE is the
    winner of the verdict whatever the totals. *)
Theorem C4_declared_tie_resolved_by_raw_totals (result : json) (t : text) (v : json) :
  judge result t = inr v ->
  exists r0,
    enforce_ranges result = inr r0 /\
    let a := raw_total r0 (str "affirmative") in
    let n := raw_total r0 (str "negative") in
    raw_total v (str "affirmative") = a /\ raw_total v (str "negative") = n /\
    path v [str "totals"] = Some (totals_dict (a, n)) /\
    (path result [str "winner"] = Some (JStr (str "TIE")) ->
       (1 <= Z.abs (a - n) -> n < a ->
          winner_of v = Some (JStr (str "AFFIRMATIVE"))) /\
       (1 <= Z.abs (a - n) -> a < n ->
          winner_of v = Some (JStr (str "NEGATIVE"))) /\
       (winner_of v = Some (JStr (str "TIE")) <-> a = n)) /\
    (path result [str "winner"] = Some (JStr (str "AFFIRMATIVE")) \/
     path result [str "winner"] = Some (JStr (str "NEGATIVE")) ->
     winner_of v = path result [str "winner"]).
Proof.
  intros H. apply judge_steps in H as (d2 & a0 & n0 & d4 & x & V & T & B & _ & ->).
  destruct (validated_inr _ _ _ V) as (_ & S2 & _ & _ & F).
  destruct (validated_scores _ _ _ V) as (r0 & E0 & F0).
  destruct (compute_totals_value _ S2) as (T' & _).
  rewrite T in T'. injection T' as -> ->.
  rewrite !(raw_total_same _ _ _ F0) in B |- *.
  exists r0. split; [exact E0|]. cbv zeta.
  set (a := raw_total r0 (str "affirmative")) in *.
  set (n := raw_total r0 (str "negative")) in *.
  set (v := JDict (store (store d4 (str "analysis") x) (str "final_statement")
                     (JStr (final_statement a n)))).
  assert (Fs : forall ks, path v (str "scores" :: ks) = path r0 (str "scores" :: ks)).
  { intros ks. unfold v. rewrite (judge_frame d2 d4 a n x _ B) by reflexivity. apply F0. }
  assert (W : winner_of v = resolved_winner (path result [str "winner"]) a n).
  { unfold v, winner_of. rewrite !path_store_ne by reflexivity. rewrite path_one.
    rewrite (tie_break_winner _ _ _ _ B), lookup_store_ne by reflexivity.
    now rewrite <- F, path_one by reflexivity. }
  split; [apply raw_total_same, Fs|]. split; [apply raw_total_same, Fs|].
  split; [|split].
  - unfold v. rewrite !path_store_ne by reflexivity.
    apply tie_break_inr in B as [_ U]. rewrite U by reflexivity.
    now rewrite path_store_eq.
  - intros D. rewrite W, D. cbn [resolved_winner eq_str]. rewrite text_eqb_refl.
    destruct (a =? n) eqn:E1; [apply Z.eqb_eq in E1 | apply Z.eqb_neq in E1].
    + split; [lia|]. split; [lia|]. split; [intros _; exact E1 | reflexivity].
    + destruct (n <? a) eqn:E2; [apply Z.ltb_lt in E2 | apply Z.ltb_ge in E2].
      * split; [reflexivity|]. split; [lia|].
        split; [intros Q; vm_compute in Q; discriminate | contradiction].
      * split; [lia|]. split; [reflexivity|].
        split; [intros Q; vm_compute in Q; discriminate | contradiction].
  - intros [D | D]; rewrite W, D; reflexivity.
Qed.

(** *** The final statement *)

Lemma scale_to_100_rounds (raw_total : Z) : scaled_to_tenths raw_total (scale_to_100 raw_total).
Proof.
  pose proof (scale_to_100_nearest raw_total) as H.
  unfold scaled_to_tenths, Qlt, Qminus, Qplus, Qopp, Qdiv, Qmult, Qinv, inject_Z.
  simpl. lia.
Qed.

(** The number of tenths is fixed by the rounding. *)
Lemma scaled_to_tenths_unique (raw s s' : Z) :
  scaled_to_tenths raw s -> scaled_to_tenths raw s' -> s = s'.
Proof.
  unfold scaled_to_tenths, Qlt, Qminus, Qplus, Qopp, Qdiv, Qmult, Qinv, inject_Z.
  simpl. lia.
Qed.

(** [str] of a float of up to 1000 tenths, digit by digit. *)
Lemma format_tenths_digits (s : Z) : 0 <= s <= 1000 -> format_tenths s = one_decimal s.
Proof.
  intros H.
  assert (C : forallb (fun k => text_eqb (format_tenths (Z.of_nat k))
                                         (one_decimal (Z.of_nat k)))
                      (seq 0 1001) = true) by (vm_compute; reflexivity).
  rewrite forallb_forall in C. specialize (C (Z.to_nat s)).
  rewrite Z2Nat.id in C by lia. apply text_eqb_eq, C, in_seq. lia.
Qed.

(** C6: for raw totals in the range the sanitiser leaves them in, the
    final statement is built from the two scaled scores, each the one
    number of tenths that is the raw total divided by 3.5 and rounded to
    one decimal, written with one decimal.  Equal totals give the TIE
    sentence; otherwise the sentence names the side with the higher raw
    total, the gap between the two scaled scores and the margin label of
    the raw gap (at most 2 very close, at most 5 close but clear, at most
    10 clear win, at most 20 dominant win, above overwhelming win).  300
    against 250 is an overwhelming win by 14.3 points. *)
Theorem C6_final_statement_names_winner_gap_and_margin (a n : Z) :
  0 <= a <= 350 -> 0 <= n <= 350 ->
  (exists sa sn label,
     scaled_to_tenths a sa /\ scaled_to_tenths n sn /\
     (forall s, scaled_to_tenths a s -> s = sa) /\
     (forall s, scaled_to_tenths n s -> s = sn) /\
     margin_of_gap (Z.abs (a - n)) label /\
     final_statement a n =
       if a =? n then
         str "The round is a TIE. Final (/100): AFF " ++ one_decimal sa ++
         str " - NEG " ++ one_decimal sn ++ str "."
       else
         str "Congratulations, Team " ++
         (if n <? a then str "AFFIRMATIVE" else str "NEGATIVE") ++
         str "! You win by " ++ one_decimal (Z.abs (sa - sn)) ++
         str " points (" ++ label ++ str "). Final (/100): AFF " ++
         one_decimal sa ++ str " - NEG " ++ one_decimal sn ++ str ".") /\
  final_statement 300 250 =
    str "Congratulations, Team AFFIRMATIVE! You win by 14.3 points (overwhelming win). Final (/100): AFF 85.7 - NEG 71.4.".
Proof.
  intros Ha Hn. split; [|vm_compute; reflexivity].
  exists (scale_to_100 a), (scale_to_100 n), (margin_label (a - n)).
  split; [apply scale_to_100_rounds|]. split; [apply scale_to_100_rounds|].
  split; [intros s Hs; apply (scaled_to_tenths_unique a _ _ Hs), scale_to_100_rounds|].
  split; [intros s Hs; apply (scaled_to_tenths_unique n _ _ Hs), scale_to_100_rounds|].
  split; [apply margin_label_spec|].
  pose proof (scale_to_100_range a Ha) as Ra.
  pose proof (scale_to_100_range n Hn) as Rn.
  unfold final_statement. cbv zeta.
  rewrite !format_tenths_digits by lia.
  replace (a - n =? 0) with (a =? n)
    by (destruct (a =? n) eqn:E; symmetry;
        [apply Z.eqb_eq in E; apply Z.eqb_eq | apply Z.eqb_neq in E; apply Z.eqb_neq]; lia).
  replace (0 <? a - n) with (n <? a)
    by (destruct (n <? a) eqn:E; symmetry;
        [apply Z.ltb_lt in E; apply Z.ltb_lt | apply Z.ltb_ge in E; apply Z.ltb_ge]; lia).
  destruct (a =? n); reflexivity.
Qed.

(** *** The low-content gate *)























End WithRuntime.
End JudgeRules.

(** ** The theorems on concrete runs *)

Module Examples.
Import Judge Verdict Behaviour JudgeFacts JudgeRules.

#[local] Existing Instance Demo.judge_runtime.

(** C1 on the sample response: six moves on one side, none on the other. *)
Lemma C1_witness :
  exists result' ma mn,
    rebalance_notable_moves Demo.response (JStr (str "AFFIRMATIVE")) = inr result' /\
    notable_moves_of result' (str "affirmative") = Some ma /\
    notable_moves_of result' (str "negative") = Some mn /\
    positive_majority ma /\ negative_majority mn.
Proof.
  destruct (C1_winner_and_loser_label_majorities
              Demo.response (JStr (str "AFFIRMATIVE"))) as [Labels Returns].
  destruct (Returns
              (firstn 6 match notable_moves_of Demo.response (str "affirmative") with
                        | Some l => l
                        | None => []
                        end)
              []) as (result' & E).
  - eexists. split; reflexivity.
  - eexists. split; reflexivity.
  - reflexivity.
  - reflexivity.
  - destruct (Labels result' E) as (ma & mn & Ma & Mn & _ & _ & W & _).
    exists result', ma, mn. destruct (W eq_refl). auto.
Defined.

(** C2 on the sample response, whose first matter is 999. *)
Lemma C2_witness :
  score_shape Demo.response = true /\
  exists result' n,
    enforce_ranges Demo.response = inr result' /\
    score_field Demo.response (str "affirmative") (str "speaker1") (str "matter")
      = Some (JInt 999) /\
    score_field result' (str "affirmative") (str "speaker1") (str "matter")
      = Some (JInt n) /\
    0 <= n <= 40.
Proof.
  split; [reflexivity|].
  destruct (C2_scores_sanitised_within_bounds Demo.response eq_refl)
    as (result' & E & F & _).
  destruct (F (str "affirmative") (str "speaker1") (str "matter"))
    as (n & P & B & _); simpl; auto.
  exists result', n. auto.
Defined.

(** C3 as first stated fails on the empty transcript: the low-content
    verdict is returned with no notable moves. *)
Lemma C3_counterexample :
  exists v, outcome (main []) = inr v /\
            notable_moves_of v (str "affirmative") = Some [] /\
            ~ has_four_slots v.
Proof.
  eexists. split; [reflexivity|]. split; [reflexivity|].
  intros H. destruct (H (str "affirmative")) as (moves & M & L & _).
  - left. reflexivity.
  - vm_compute in M. injection M as <-. discriminate.
Qed.

(** C3, amended, on the demonstration transcript of the source. *)
Lemma C3_witness :
  is_low_content DEFAULT_TRANSCRIPT = false /\
  exists v, outcome (main DEFAULT_TRANSCRIPT) = inr v /\ has_four_slots v.
Proof.
  split; [vm_compute; reflexivity|].
  destruct (outcome (main DEFAULT_TRANSCRIPT)) as [e | v] eqn:E.
  - vm_compute in E. discriminate.
  - exists v. split; [reflexivity|].
    apply (C3_four_slots_after_the_full_pipeline DEFAULT_TRANSCRIPT v E).
    vm_compute. reflexivity.
Defined.

(** C4 on the sample response: a declared tie, the sanitised totals 300
    and 245, and AFFIRMATIVE as winner of the verdict. *)
Lemma C4_witness :
  exists r0 v,
    judge Demo.response DEFAULT_TRANSCRIPT = inr v /\
    enforce_ranges Demo.response = inr r0 /\
    path Demo.response [str "winner"] = Some (JStr (str "TIE")) /\
    raw_total r0 (str "affirmative") = 300 /\ raw_total r0 (str "negative") = 245 /\
    path v [str "totals"] = Some (totals_dict (300, 245)) /\
    winner_of v = Some (JStr (str "AFFIRMATIVE")).
Proof.
  destruct (judge Demo.response DEFAULT_TRANSCRIPT) as [e | v] eqn:E.
  - vm_compute in E. discriminate.
  - destruct (C4_declared_tie_resolved_by_raw_totals _ _ v E)
      as (r0 & E0 & Ra & Rn & T & Tie & _).
    assert (A : raw_total r0 (str "affirmative") = 300).
    { vm_compute in E0. injection E0 as <-. reflexivity. }
    assert (N : raw_total r0 (str "negative") = 245).
    { vm_compute in E0. injection E0 as <-. reflexivity. }
    exists r0, v. split; [reflexivity|]. split; [exact E0|]. split; [reflexivity|].
    split; [exact A|]. split; [exact N|]. rewrite A, N in T, Tie.
    split; [exact T|]. destruct (Tie eq_refl) as (Aff & _). apply Aff; lia.
Defined.



(** C6 on the totals 300 and 250. *)
Lemma C6_witness :
  exists sa sn,
    scaled_to_tenths 300 sa /\ scaled_to_tenths 250 sn /\
    final_statement 300 250 =
      str "Congratulations, Team AFFIRMATIVE! You win by " ++
      one_decimal (Z.abs (sa - sn)) ++
      str " points (overwhelming win). Final (/100): AFF " ++
      one_decimal sa ++ str " - NEG " ++ one_decimal sn ++ str ".".
Proof.
  destruct (C6_final_statement_names_winner_gap_and_margin 300 250)
    as [(sa & sn & label & Sa & Sn & _ & _ & (_ & _ & _ & _ & L) & F) _]; [lia | lia |].
  exists sa, sn. split; [exact Sa|]. split; [exact Sn|].
  rewrite F, L by (simpl; lia). reflexivity.
Defined.

(** C9 on the sample response. *)
Lemma C9_witness :
  exists r1 r2,
    rebalance_notable_moves Demo.response (JStr (str "NEGATIVE")) = inr r1 /\
    rebalance_notable_moves r1 (JStr (str "NEGATIVE")) = inr r2.
Proof.
  destruct (rebalance_notable_moves Demo.response (JStr (str "NEGATIVE")))
    as [e | r1] eqn:E.
  - vm_compute in E. discriminate.
  - destruct (C9_rebalancing_twice_keeps_labels _ _ _ E) as (r2 & E2 & _).
    exists r1, r2. auto.
Defined.

(** C10 on the sample response with a tie. *)
Lemma C10_witness :
  exists result' ma mn,
    rebalance_notable_moves Demo.response (JStr (str "TIE")) = inr result' /\
    notable_moves_of result' (str "affirmative") = Some ma /\
    notable_moves_of result' (str "negative") = Some mn /\
    labels_of ma = texts losing_labels /\ labels_of mn = texts losing_labels.
Proof.
  destruct (rebalance_notable_moves Demo.response (JStr (str "TIE")))
    as [e | result'] eqn:E.
  - vm_compute in E. discriminate.
  - destruct (C10_tie_gives_both_sides_the_losing_template _ _ _ E)
      as (ma & mn & Ma & Mn & T & _).
    exists result', ma, mn. destruct (T eq_refl). auto.
Defined.

(** The whole pipeline on the sample response: totals 300 and 245, the
    declared tie resolved for the affirmative side. *)
Lemma judge_verdict_on_response :
  exists v,
    outcome (main DEFAULT_TRANSCRIPT) = inr v /\
    path v [str "totals"] = Some (totals_dict (300, 245)) /\
    winner_of v = Some (JStr (str "AFFIRMATIVE")) /\
    path v [str "final_statement"] =
      Some (JStr (str "Congratulations, Team AFFIRMATIVE! You win by 15.7 points (overwhelming win). Final (/100): AFF 85.7 - NEG 70.0.")).
Proof.
  eexists. split; [vm_compute; reflexivity|]. repeat split.
Qed.

End Examples.

(** ** The laws on concrete runs *)

Module LawExamples.
Import Judge Verdict Behaviour JudgeFacts JudgeLaws.

#[local] Existing Instance Demo.judge_runtime.

(** X1 on the sample response. *)
Lemma X1_witness :
  exists r1, enforce_ranges Demo.response = inr r1 /\ enforce_ranges r1 = inr r1.
Proof.
  destruct (enforce_ranges Demo.response) as [e | r1] eqn:E.
  - vm_compute in E. discriminate.
  - exists r1. split; [reflexivity|].
    exact (X1_enforce_ranges_idempotent Demo.response r1 E).
Defined.

(** X2 on the sample response: the totals are 300 and 245. *)
Lemma X2_witness :
  exists r, enforce_ranges Demo.response = inr r /\
            compute_totals r = inr (300, 245).
Proof.
  destruct (enforce_ranges Demo.response) as [e | r] eqn:E.
  - vm_compute in E. discriminate.
  - exists r. split; [reflexivity|].
    unfold Demo.response in E.
    destruct (X2_totals_after_sanitising _ r E) as (T & _).
    rewrite T. vm_compute in E. injection E as <-. reflexivity.
Defined.

(** X3 on the sanitised sample response: the reply of the affirmative side,
    absent from the response, is an object once sanitised. *)
Lemma X3_witness :
  exists r ds,
    enforce_ranges Demo.response = inr r /\
    path r [str "scores"; str "affirmative"; str "reply"] = Some (JDict ds).
Proof.
  destruct (enforce_ranges Demo.response) as [e | r] eqn:E.
  - vm_compute in E. discriminate.
  - destruct (compute_totals r) as [e | totals] eqn:T.
    + vm_compute in E. injection E as <-. vm_compute in T. discriminate.
    + destruct (X3_totals_need_every_speech r totals T
                  (str "affirmative") (str "reply")) as (ds & P).
      * left. reflexivity.
      * right. right. right. left. reflexivity.
      * exists r, ds. split; [reflexivity | exact P].
Defined.


(** X5 on the raw totals 300 and 290: a clear win, 2.9 points apart. *)
Lemma X5_witness :
  margin_label (300 - 290) = str "clear win" /\
  17 <= Z.abs (scale_to_100 300 - scale_to_100 290) <= 29.
Proof.
  split; [reflexivity|].
  destruct (X5_margin_label_bands_of_the_printed_gap 300 290) as (_ & _ & C & _);
    [lia | lia |].
  apply C. reflexivity.
Defined.

(** X8 on the first line of a transcript: the tag [[00:05 AFF-1]] and the
    blank after it are removed. *)
Lemma X8_witness :
  speech_tag 48%N 48%N 48%N 53%N (str " ") (str "AFF") (str "1") (str " ")
    ++ str "We affirm this here." = str "[00:05 AFF-1] We affirm this here." /\
  _extract_payload_text
    (speech_tag 48%N 48%N 48%N 53%N (str " ") (str "AFF") (str "1") (str " ")
       ++ str "We affirm this here.") = strip (str "We affirm this here.").
Proof.
  split; [vm_compute; reflexivity|].
  apply X8_payload_of_a_tagged_line;
    try (vm_compute; reflexivity); try discriminate.
  left. reflexivity.
Defined.

(** X10 on a text of one sentence and a minimum of three. *)
Lemma X10_witness :
  sentence_count (_ensure_min_sentences (str "Good job.") 3) = 3%nat.
Proof.
  destruct (X10_terminated_text_reaches_the_minimum (str "Good job.") 3) as [C _].
  - right. exists (str "Good job"), 46%N. split; reflexivity.
  - exact C.
Defined.

(** X14 on a list of one move. *)
Lemma X14_witness :
  exists l',
    _assign_speech_slots
      (JList [move (str "18:00") (str "blunder") (str "Dropped the cost argument.")])
      = inr l' /\
    length l' = 4%nat /\ _assign_speech_slots (JList l') = inr l'.
Proof.
  destruct (_assign_speech_slots
              (JList [move (str "18:00") (str "blunder") (str "Dropped the cost argument.")]))
    as [e | l'] eqn:E.
  - vm_compute in E. discriminate.
  - exists l'. split; [reflexivity|].
    destruct (X14_slot_assignment_keeps_the_first_four_moves _ l' E)
      as (L & _ & _ & _ & I).
    split; [exact L | exact I].
Defined.

(** X15 on the sample response, whose negative side has no moves. *)
Lemma X15_witness :
  exists r blob,
    ensure_analysis_defaults Demo.response DEFAULT_TRANSCRIPT = inr r /\
    path r [str "analysis"; str "negative"] = Some (JDict blob) /\
    normal_side blob.
Proof.
  destruct (ensure_analysis_defaults Demo.response DEFAULT_TRANSCRIPT)
    as [e | r] eqn:E.
  - vm_compute in E. discriminate.
  - destruct (X15_analysis_defaults_leave_a_normal_analysis _ _ r E) as (_ & N).
    destruct (N (str "negative")) as (blob & P & B).
    + right. left. reflexivity.
    + exists r, blob. split; [reflexivity|]. split; [exact P | exact B].
Defined.

(** X18 on the sample response. *)
Lemma X18_witness :
  exists result',
    rebalance_notable_moves Demo.response (JStr (str "NEGATIVE")) = inr result' /\
    only_moves_changed Demo.response result'.
Proof.
  destruct (rebalance_notable_moves Demo.response (JStr (str "NEGATIVE")))
    as [e | result'] eqn:E.
  - vm_compute in E. discriminate.
  - exists result'. split; [reflexivity|].
    exact (X18_rebalancer_changes_the_move_lists_only _ _ _ E).
Defined.

(** X19 on the sample response: the side that came without moves gets
    four, each seeded with the explanation of the default move. *)
Lemma X19_witness :
  exists result' new,
    rebalance_notable_moves Demo.response (JStr (str "NEGATIVE")) = inr result' /\
    notable_moves_of result' (str "negative") = Some new /\ length new = 4%nat /\
    nth_error new 0 =
      Some (move (str "First Speech") (str "brilliant")
              (str "A generally solid contribution with clear structure and relevance. It combined clean warranting with timing that flipped a contested issue. The downstream impact shaped the judge's weighing.")).
Proof.
  destruct (rebalance_notable_moves Demo.response (JStr (str "NEGATIVE")))
    as [e | result'] eqn:E.
  - vm_compute in E. discriminate.
  - destruct (X19_rebalancer_keeps_each_explanation_as_seed
                Demo.response (JStr (str "NEGATIVE")) result' (str "negative") [] E)
      as (new & P & L & _ & _ & D).
    + right. left. reflexivity.
    + eexists. split; reflexivity.
    + exists result', new. split; [reflexivity|]. split; [exact P|]. split; [exact L|].
      destruct (D 0%nat) as [_ D0]; [simpl; lia|]. exact D0.
Defined.

(** X20 on the sample response. *)
Lemma X20_witness :
  exists r1 r2,
    ensure_analysis_defaults Demo.response DEFAULT_TRANSCRIPT = inr r1 /\
    rebalance_notable_moves r1 (JStr (str "AFFIRMATIVE")) = inr r2.
Proof.
  destruct (ensure_analysis_defaults Demo.response DEFAULT_TRANSCRIPT)
    as [e | r1] eqn:E.
  - vm_compute in E. discriminate.
  - destruct (X20_defaults_then_rebalancing_stack_two_clauses
                Demo.response DEFAULT_TRANSCRIPT r1 (JStr (str "AFFIRMATIVE"))
                (str "affirmative") E)
      as (r2 & _ & _ & _ & _ & _ & _ & _ & _ & R & _).
    + left. reflexivity.
    + exists r1, r2. split; [reflexivity | exact R].
Defined.

(** X22 on the sample response. *)
Lemma X22_witness :
  exists v,
    judge Demo.response DEFAULT_TRANSCRIPT = inr v /\
    scores_in_bounds v /\
    path v [str "totals"] =
      Some (totals_dict (raw_total v (str "affirmative"), raw_total v (str "negative"))).
Proof.
  destruct (judge Demo.response DEFAULT_TRANSCRIPT) as [e | v] eqn:E.
  - vm_compute in E. discriminate.
  - destruct (X22_verdict_totals_are_the_sums_of_its_scores _ _ v E) as (B & T & _).
    exists v. split; [reflexivity|]. split; [exact B | exact T].
Defined.

(** X23 on the sample response, a declared tie. *)
Lemma X23_witness :
  exists v,
    judge Demo.response DEFAULT_TRANSCRIPT = inr v /\
    (winner_of v = Some (JStr (str "AFFIRMATIVE")) <->
     raw_total v (str "negative") < raw_total v (str "affirmative")).
Proof.
  destruct (judge Demo.response DEFAULT_TRANSCRIPT) as [e | v] eqn:E.
  - vm_compute in E. discriminate.
  - destruct (X23_winner_follows_the_totals_only_on_a_declared_tie _ _ v E)
      as (_ & T & _).
    destruct (T eq_refl) as (_ & A & _).
    exists v. split; [reflexivity | exact A].
Defined.

(** X24 on the sample response: the rationale is passed through. *)
Lemma X24_witness :
  exists v,
    judge Demo.response DEFAULT_TRANSCRIPT = inr v /\
    path v [str "rationale"; str "why_winner"] = Some (JStr (str "Too close to call.")).
Proof.
  destruct (judge Demo.response DEFAULT_TRANSCRIPT) as [e | v] eqn:E.
  - vm_compute in E. discriminate.
  - destruct (X24_judge_passes_other_keys_through _ _ v E) as (_ & P).
    exists v. split; [reflexivity|].
    rewrite (P (str "rationale") [str "why_winner"]); [reflexivity|].
    vm_compute. intuition discriminate.
Defined.

(** X26 on the sample response. *)
Lemma X26_witness :
  exists v r2,
    judge Demo.response DEFAULT_TRANSCRIPT = inr v /\
    validated Demo.response DEFAULT_TRANSCRIPT = inr r2.
Proof.
  destruct (judge Demo.response DEFAULT_TRANSCRIPT) as [e | v] eqn:E.
  - vm_compute in E. discriminate.
  - destruct (X26_final_explanations_carry_two_clauses _ _ v (str "negative") E)
      as (r2 & _ & _ & _ & _ & _ & _ & _ & _ & V & _).
    + right. left. reflexivity.
    + exists v, r2. split; [reflexivity | exact V].
Defined.

(** X27 on the sample response: the notes of a speech are kept. *)
Lemma X27_witness :
  exists r,
    enforce_ranges Demo.response = inr r /\
    path r [str "scores"; str "affirmative"; str "speaker1"; str "notes"] = Some (JStr []).
Proof.
  destruct (enforce_ranges Demo.response) as [e | r] eqn:E.
  - vm_compute in E. discriminate.
  - exists r. split; [reflexivity|].
    rewrite (X27_sanitiser_touches_the_score_fields_only _ r E); reflexivity.
Defined.

End LawExamples.
